(** * NEST-style MPI tests: the wrapper of [sli2py_mpi/mpi_test_wrapper.py]

  A shallow embedding of the decorator classes [MPITestWrapper],
  [MPITestAssertEqual] and [MPITestAssertCompletes] and of the syntax-tree
  transformer [_RemoveDecoratorsAndMPITestImports], with the properties of
  the harness proved about them.

  Python's own libraries ([ast], [subprocess], [pathlib], [pandas]) are not
  part of the repository.  What the wrapper needs from them is either
  written out from their documentation (string methods, [glob] patterns,
  [NodeTransformer.generic_visit], [subprocess.run(check=True)]) or taken
  as a parameter of a section ([ast.unparse], the launched processes, the
  data-frame operations of pandas). *)

From Stdlib Require Import List String Ascii ZArith Bool Lia.
From Stdlib Require Import Numbers.DecimalString Numbers.DecimalZ.
Import ListNotations.

Local Open Scope string_scope.
Local Open Scope list_scope.

(* ===================================================================== *)
(** ** Python built-ins used by the wrapper *)
(* ===================================================================== *)

Module Py.

Local Open Scope string_scope.

(** [s.startswith(p)] *)
Definition startswith (s p : string) : bool := String.prefix p s.

(** [s.endswith(suf)]: [s] is [suf], or its tail ends with [suf]. *)
Fixpoint endswith (s suf : string) : bool :=
  String.eqb s suf
  || match s with
     | EmptyString => false
     | String _ s' => endswith s' suf
     end.

(** [sep.join(parts)] *)
Fixpoint join (sep : string) (parts : list string) : string :=
  match parts with
  | [] => ""
  | [p] => p
  | p :: rest => p ++ sep ++ join sep rest
  end.

(** [str(n)] for an [int]. *)
Definition str_int (n : Z) : string := NilEmpty.string_of_int (Z.to_int n).

(** [any(f(x) for x in l)] *)
Definition any {A} (f : A -> bool) (l : list A) : bool := existsb f l.

(** Truth value of a string: empty strings are false. *)
Definition truthy_str (s : string) : bool :=
  match s with EmptyString => false | _ => true end.

(** The exceptions raised in the wrapper, by class, with what they carry.
    [CalledProcessError] has the attributes [returncode], [cmd], [stdout]
    (also called [output]) and [stderr], and no other. *)
Inductive exn : Type :=
| TypeError (msg : string)
| AssertionError (msg : string)
| NotImplementedError (msg : string)
| CalledProcessError (returncode : Z) (cmd : list string)
                     (stdout stderr : string)
| UnicodeDecodeError
| EmptyDataError
| ValueError (msg : string)
| IndexError (msg : string)
| KeyError (msg : string)
| OtherError (cls msg : string).

(** [template.format(a, b, ...)] for templates whose fields are all the
    automatic field [{}]; doubled braces are escapes.  Arguments left over
    are ignored, a missing one is an [IndexError]. *)
Definition prepend (a : string) (r : exn + string) : exn + string :=
  match r with
  | inr t => inr (a ++ t)
  | inl e => inl e
  end.

Fixpoint format (template : string) (args : list string) : exn + string :=
  match template with
  | EmptyString => inr ""
  | String c rest =>
      if Ascii.eqb c "{" then
        match rest with
        | String d rest' =>
            if Ascii.eqb d "}" then
              match args with
              | a :: args' => prepend a (format rest' args')
              | [] =>
                  inl (IndexError
                    "Replacement index out of range for positional args tuple")
              end
            else if Ascii.eqb d "{" then prepend "{" (format rest' args)
            else inl (ValueError "unsupported replacement field")
        | EmptyString =>
            inl (ValueError "Single '{' encountered in format string")
        end
      else if Ascii.eqb c "}" then
        match rest with
        | String d rest' =>
            if Ascii.eqb d "}" then prepend "}" (format rest' args)
            else inl (ValueError "Single '}' encountered in format string")
        | EmptyString =>
            inl (ValueError "Single '}' encountered in format string")
        end
      else prepend (String c "") (format rest args)
  end.

(** Shell-style matching of a file name against a pattern, as [Path.glob]
    does within one directory: [*] stands for any run of characters, [?]
    for one character, every other character for itself (the patterns of
    the wrapper hold no bracket class). *)
Fixpoint fnmatch (pat name : string) : bool :=
  match pat with
  | EmptyString => match name with EmptyString => true | _ => false end
  | String c pat' =>
      if Ascii.eqb c "*" then
        (fix star (nm : string) : bool :=
           fnmatch pat' nm
           || match nm with
              | EmptyString => false
              | String _ nm' => star nm'
              end) name
      else
        match name with
        | EmptyString => false
        | String d name' =>
            (Ascii.eqb c "?" || Ascii.eqb c d) && fnmatch pat' name'
        end
  end.

(** [repr(s)] of a [str]: single quotes unless the text holds a single
    quote and no double quote; backslash, the chosen quote, newline,
    carriage return and tab are escaped. *)
Fixpoint contains_char (c : ascii) (s : string) : bool :=
  match s with
  | EmptyString => false
  | String d s' => Ascii.eqb c d || contains_char c s'
  end.

Fixpoint escape (quote : ascii) (s : string) : string :=
  match s with
  | EmptyString => ""
  | String c s' =>
      (if Ascii.eqb c "\" then "\\"
       else if Ascii.eqb c quote then String "\" (String quote "")
       else if Ascii.eqb c (ascii_of_nat 10) then "\n"
       else if Ascii.eqb c (ascii_of_nat 13) then "\r"
       else if Ascii.eqb c (ascii_of_nat 9) then "\t"
       else String c "") ++ escape quote s'
  end.

Definition double_quote : ascii := ascii_of_nat 34.

Definition repr_str (s : string) : string :=
  let quote : ascii :=
    if contains_char "'" s && negb (contains_char double_quote s)
    then double_quote else "'"%char in
  String quote (escape quote s ++ String quote "").

(** [repr(l)] and [str(l)] of a list of [str]. *)
Definition repr_str_list (l : list string) : string :=
  "[" ++ join ", " (map repr_str l) ++ "]".

Definition newline : string := String (ascii_of_nat 10) "".

(** [n * s] *)
Fixpoint repeat_str (s : string) (n : nat) : string :=
  match n with O => "" | S k => s ++ repeat_str s k end.

(** *** [bytes.decode("UTF-8")]

    A [str] is kept as its UTF-8 encoding, so that decoding checks that the
    bytes are well-formed UTF-8 and hands them back; ill-formed input is a
    [UnicodeDecodeError]. *)
Definition byte_in (lo hi : N) (c : ascii) : bool :=
  (N.leb lo (N_of_ascii c) && N.leb (N_of_ascii c) hi)%N.

Definition continuation : ascii -> bool := byte_in 128 191.

Fixpoint utf8_valid (s : string) : bool :=
  match s with
  | EmptyString => true
  | String a r1 =>
      if byte_in 0 127 a then utf8_valid r1
      else
        match r1 with
        | EmptyString => false
        | String b r2 =>
            if byte_in 194 223 a then continuation b && utf8_valid r2
            else
              match r2 with
              | EmptyString => false
              | String c r3 =>
                  if byte_in 224 239 a then
                    (if byte_in 224 224 a then byte_in 160 191 b
                     else if byte_in 237 237 a then byte_in 128 159 b
                     else continuation b)
                    && continuation c && utf8_valid r3
                  else
                    match r3 with
                    | EmptyString => false
                    | String d r4 =>
                        byte_in 240 244 a
                        && (if byte_in 240 240 a then byte_in 144 191 b
                            else if byte_in 244 244 a then byte_in 128 143 b
                            else continuation b)
                        && continuation c && continuation d && utf8_valid r4
                    end
              end
        end
  end.

Definition decode_utf8 (b : string) : exn + string :=
  if utf8_valid b then inr b else inl UnicodeDecodeError.

End Py.

(* ===================================================================== *)
(** ** Syntax trees and [_RemoveDecoratorsAndMPITestImports] *)
(* ===================================================================== *)

Module Ast.

Local Set Warnings "-register-all".

(** Expressions, argument lists and [with]-items hold no statement node:
    the transformer walks through them without finding anything to change.
    They are kept as their source text. *)
Inductive expr : Type := Expr (src : string).

(** [ast.alias(name, asname)] *)
Record alias : Type := mk_alias { name : string; asname : option string }.

(** Every statement class of [ast] that holds statements
    ([FunctionDef], [AsyncFunctionDef], [ClassDef], [For], [AsyncFor],
    [While], [If], [With], [AsyncWith], [Match], [Try], [TryStar]), the
    two import classes, and [Simple] for every statement class without
    child statements ([Expr], [Assign], [Return], [Pass], ...), kept as
    text.  Statements are also held by the nodes [excepthandler] of [Try]
    and [TryStar] and [match_case] of [Match].  Fields come in the order
    of the [_fields] of each class; the pattern of a [match_case] holds no
    statement and is kept as text. *)
Inductive stmt : Type :=
| FunctionDef (fname : string) (args : string) (body : list stmt)
              (decorator_list : list expr) (returns : option expr)
| AsyncFunctionDef (fname : string) (args : string) (body : list stmt)
                   (decorator_list : list expr) (returns : option expr)
| ClassDef (cname : string) (bases : list expr) (body : list stmt)
           (decorator_list : list expr)
| Import (names : list alias)
| ImportFrom (module : option string) (names : list alias) (level : nat)
| If (test : expr) (body orelse : list stmt)
| For (target iter : expr) (body orelse : list stmt)
| While (test : expr) (body orelse : list stmt)
| With (items : list expr) (body : list stmt)
| Try (body : list stmt) (handlers : list excepthandler)
      (orelse finalbody : list stmt)
| AsyncFor (target iter : expr) (body orelse : list stmt)
| AsyncWith (items : list expr) (body : list stmt)
| Match (subject : expr) (cases : list match_case)
| TryStar (body : list stmt) (handlers : list excepthandler)
          (orelse finalbody : list stmt)
| Simple (src : string)
with excepthandler : Type :=
| ExceptHandler (type : option expr) (hname : option string)
                (body : list stmt)
with match_case : Type :=
| MatchCase (pattern : string) (guard : option expr) (body : list stmt).

(** [ast.Module(body)] *)
Inductive pymod : Type := Module (body : list stmt).

Definition mod_body (m : pymod) : list stmt :=
  match m with Module b => b end.

(** [any(alias.name.startswith("MPITest") for alias in node.names)] *)
Definition imports_MPITest (names : list alias) : bool :=
  Py.any (fun a => Py.startswith (name a) "MPITest") names.

(** [NodeTransformer.generic_visit] on a field that is a list of nodes:
    each node is visited, a node whose visit returns [None] is left out. *)
Definition visit_list {A} (visit : A -> option A) : list A -> list A :=
  fix go (l : list A) : list A :=
    match l with
    | [] => []
    | x :: l' => match visit x with
                 | Some x' => x' :: go l'
                 | None => go l'
                 end
    end.

(** [_RemoveDecoratorsAndMPITestImports().visit(node)].

    [visit] looks up [visit_<class name>]: the class defines it for
    [FunctionDef], [Import] and [ImportFrom]; every other class falls back
    to [generic_visit], which visits the child nodes.  [None] deletes the
    node.  [visit_FunctionDef] does not call [generic_visit], so the body
    of a function definition is not visited. *)
Fixpoint visit (node : stmt) : option stmt :=
  match node with
  | FunctionDef n a b _ r =>
      (* node.decorator_list.clear(); return node *)
      Some (FunctionDef n a b [] r)
  | Import names =>
      if negb (imports_MPITest names) then Some node else None
  | ImportFrom _ names _ =>
      if negb (imports_MPITest names) then Some node else None
  | AsyncFunctionDef n a b d r =>
      Some (AsyncFunctionDef n a (visit_list visit b) d r)
  | ClassDef n bs b d => Some (ClassDef n bs (visit_list visit b) d)
  | If t b o => Some (If t (visit_list visit b) (visit_list visit o))
  | For t i b o => Some (For t i (visit_list visit b) (visit_list visit o))
  | While t b o => Some (While t (visit_list visit b) (visit_list visit o))
  | With i b => Some (With i (visit_list visit b))
  | Try b hs o f =>
      Some (Try (visit_list visit b)
                (visit_list visit_handler hs)
                (visit_list visit o) (visit_list visit f))
  | AsyncFor t i b o =>
      Some (AsyncFor t i (visit_list visit b) (visit_list visit o))
  | AsyncWith i b => Some (AsyncWith i (visit_list visit b))
  | Match e cs => Some (Match e (visit_list visit_case cs))
  | TryStar b hs o f =>
      Some (TryStar (visit_list visit b)
                    (visit_list visit_handler hs)
                    (visit_list visit o) (visit_list visit f))
  | Simple _ => Some node
  end
with visit_handler (h : excepthandler) : option excepthandler :=
  match h with
  | ExceptHandler t n b => Some (ExceptHandler t n (visit_list visit b))
  end
with visit_case (c : match_case) : option match_case :=
  match c with
  | MatchCase p g b => Some (MatchCase p g (visit_list visit b))
  end.

(** [visit] on the [Module] node: [generic_visit] over its body. *)
Definition visit_Module (tree : pymod) : pymod :=
  Module (visit_list visit (mod_body tree)).

Section PureTestFunc.

(** [ast.unparse] *)
Variable unparse : pymod -> string.

(** [MPITestWrapper._pure_test_func(func)], from
    [tree = ast.parse(open(inspect.getsourcefile(func)).read())] on: the
    tree is that of the whole source file of [func]. *)
Definition _pure_test_func (tree : pymod) : string :=
  unparse (visit_Module tree).

(** [ast.parse], [None] standing for a [SyntaxError]. *)
Variable parse : string -> option pymod.

(** [_pure_test_func] from the text of the source file on: the text is
    parsed, the tree transformed and printed. *)
Definition isolate_text (src : string) : option string :=
  option_map _pure_test_func (parse src).

End PureTestFunc.

(** *** What the transformer leaves alone *)

Definition is_nil {A} (l : list A) : bool :=
  match l with [] => true | _ => false end.

(** [isolated s]: on the nodes the transformer reaches from [s], that is
    outside the bodies of function definitions, no [FunctionDef] has a
    decorator and no import names an [MPITest*] entity. *)
Fixpoint isolated (s : stmt) : bool :=
  match s with
  | FunctionDef _ _ _ d _ => is_nil d
  | Import names => negb (imports_MPITest names)
  | ImportFrom _ names _ => negb (imports_MPITest names)
  | AsyncFunctionDef _ _ b _ _ => forallb isolated b
  | ClassDef _ _ b _ => forallb isolated b
  | If _ b o => forallb isolated b && forallb isolated o
  | For _ _ b o => forallb isolated b && forallb isolated o
  | While _ b o => forallb isolated b && forallb isolated o
  | With _ b => forallb isolated b
  | Try b hs o f =>
      forallb isolated b && forallb isolated_handler hs
      && forallb isolated o && forallb isolated f
  | AsyncFor _ _ b o => forallb isolated b && forallb isolated o
  | AsyncWith _ b => forallb isolated b
  | Match _ cs => forallb isolated_case cs
  | TryStar b hs o f =>
      forallb isolated b && forallb isolated_handler hs
      && forallb isolated o && forallb isolated f
  | Simple _ => true
  end
with isolated_handler (h : excepthandler) : bool :=
  match h with
  | ExceptHandler _ _ b => forallb isolated b
  end
with isolated_case (c : match_case) : bool :=
  match c with
  | MatchCase _ _ b => forallb isolated b
  end.

(** [plain s]: the source of [s] holds no decorator at all, on any function
    or class definition at any depth, and no import of an [MPITest*]
    entity at any depth. *)
Fixpoint plain (s : stmt) : bool :=
  match s with
  | FunctionDef _ _ b d _ => is_nil d && forallb plain b
  | AsyncFunctionDef _ _ b d _ => is_nil d && forallb plain b
  | ClassDef _ _ b d => is_nil d && forallb plain b
  | Import names => negb (imports_MPITest names)
  | ImportFrom _ names _ => negb (imports_MPITest names)
  | If _ b o => forallb plain b && forallb plain o
  | For _ _ b o => forallb plain b && forallb plain o
  | While _ b o => forallb plain b && forallb plain o
  | With _ b => forallb plain b
  | Try b hs o f =>
      forallb plain b && forallb plain_handler hs
      && forallb plain o && forallb plain f
  | AsyncFor _ _ b o => forallb plain b && forallb plain o
  | AsyncWith _ b => forallb plain b
  | Match _ cs => forallb plain_case cs
  | TryStar b hs o f =>
      forallb plain b && forallb plain_handler hs
      && forallb plain o && forallb plain f
  | Simple _ => true
  end
with plain_handler (h : excepthandler) : bool :=
  match h with
  | ExceptHandler _ _ b => forallb plain b
  end
with plain_case (c : match_case) : bool :=
  match c with
  | MatchCase _ _ b => forallb plain b
  end.

(** The definition of the procedure named [f]. *)
Definition is_def_of (f : string) (s : stmt) : bool :=
  match s with
  | FunctionDef n _ _ _ _ => String.eqb n f
  | _ => false
  end.

(** An import statement one of whose names begins with [MPITest]. *)
Definition is_MPITest_import (s : stmt) : bool :=
  match s with
  | Import names => imports_MPITest names
  | ImportFrom _ names _ => imports_MPITest names
  | _ => false
  end.

(** [reached s]: the function definitions and the import statements that
    the transformer reaches from [s], in source order: those outside the
    body of every [FunctionDef], in class bodies, in the bodies of
    [AsyncFunctionDef] and in the blocks of compound statements, at any
    depth. *)
Fixpoint reached (s : stmt) : list stmt :=
  match s with
  | FunctionDef _ _ _ _ _ => [s]
  | Import _ => [s]
  | ImportFrom _ _ _ => [s]
  | AsyncFunctionDef _ _ b _ _ => flat_map reached b
  | ClassDef _ _ b _ => flat_map reached b
  | If _ b o => flat_map reached b ++ flat_map reached o
  | For _ _ b o => flat_map reached b ++ flat_map reached o
  | While _ b o => flat_map reached b ++ flat_map reached o
  | With _ b => flat_map reached b
  | Try b hs o f =>
      flat_map reached b ++ flat_map reached_handler hs
      ++ flat_map reached o ++ flat_map reached f
  | AsyncFor _ _ b o => flat_map reached b ++ flat_map reached o
  | AsyncWith _ b => flat_map reached b
  | Match _ cs => flat_map reached_case cs
  | TryStar b hs o f =>
      flat_map reached b ++ flat_map reached_handler hs
      ++ flat_map reached o ++ flat_map reached f
  | Simple _ => []
  end
with reached_handler (h : excepthandler) : list stmt :=
  match h with
  | ExceptHandler _ _ b => flat_map reached b
  end
with reached_case (c : match_case) : list stmt :=
  match c with
  | MatchCase _ _ b => flat_map reached b
  end.

(** A function definition without its decorators, with name, arguments,
    body and return annotation as they are; any other statement as it
    is. *)
Definition clear_decorators (s : stmt) : stmt :=
  match s with
  | FunctionDef n a b _ r => FunctionDef n a b [] r
  | _ => s
  end.

(** What isolation is to make of a reached definition or import: nothing
    of an import of an [MPITest*] entity, the statement without its
    decorators otherwise. *)
Definition without_harness (s : stmt) : list stmt :=
  if is_MPITest_import s then [] else [clear_decorators s].

(** The reading of the specification: of the statements of the source,
    only the definition of the procedure [f] and the [MPITest*] imports are
    touched; every other statement is in the output as it was. *)
Definition only_procedure_and_imports_touched (f : string) (tree : pymod)
  : Prop :=
  forall s, In s (mod_body tree) ->
            is_def_of f s = false -> is_MPITest_import s = false ->
            In s (mod_body (visit_Module tree)).

(** [erase s]: the statement [s] without any import statement and
    without the decorators of any [FunctionDef], at every depth, the bodies
    of function definitions included.  Two sources with the same erasure
    differ in import statements and decorators of function definitions
    only. *)
Fixpoint erase (s : stmt) : option stmt :=
  match s with
  | FunctionDef n a b _ r => Some (FunctionDef n a (visit_list erase b) [] r)
  | Import _ => None
  | ImportFrom _ _ _ => None
  | AsyncFunctionDef n a b d r =>
      Some (AsyncFunctionDef n a (visit_list erase b) d r)
  | ClassDef n bs b d => Some (ClassDef n bs (visit_list erase b) d)
  | If t b o => Some (If t (visit_list erase b) (visit_list erase o))
  | For t i b o => Some (For t i (visit_list erase b) (visit_list erase o))
  | While t b o => Some (While t (visit_list erase b) (visit_list erase o))
  | With i b => Some (With i (visit_list erase b))
  | Try b hs o f =>
      Some (Try (visit_list erase b)
                (visit_list erase_handler hs)
                (visit_list erase o) (visit_list erase f))
  | AsyncFor t i b o =>
      Some (AsyncFor t i (visit_list erase b) (visit_list erase o))
  | AsyncWith i b => Some (AsyncWith i (visit_list erase b))
  | Match e cs => Some (Match e (visit_list erase_case cs))
  | TryStar b hs o f =>
      Some (TryStar (visit_list erase b)
                    (visit_list erase_handler hs)
                    (visit_list erase o) (visit_list erase f))
  | Simple _ => Some s
  end
with erase_handler (h : excepthandler) : option excepthandler :=
  match h with
  | ExceptHandler t n b => Some (ExceptHandler t n (visit_list erase b))
  end
with erase_case (c : match_case) : option match_case :=
  match c with
  | MatchCase p g b => Some (MatchCase p g (visit_list erase b))
  end.

(** [blocks_filled s]: every block of [s] that the grammar of Python
    wants non-empty holds a statement, at every depth: the bodies of
    definitions, of compound statements, of handlers and of cases; a
    [try] has a handler or a [finally] block, a [try] with [except*] a
    handler, a [match] a case.  A tree with such a block left empty has no
    source text. *)
Definition filled {A} (l : list A) : bool := negb (is_nil l).

Fixpoint blocks_filled (s : stmt) : bool :=
  match s with
  | FunctionDef _ _ b _ _ => filled b && forallb blocks_filled b
  | AsyncFunctionDef _ _ b _ _ => filled b && forallb blocks_filled b
  | ClassDef _ _ b _ => filled b && forallb blocks_filled b
  | Import _ => true
  | ImportFrom _ _ _ => true
  | If _ b o =>
      filled b && forallb blocks_filled b && forallb blocks_filled o
  | For _ _ b o =>
      filled b && forallb blocks_filled b && forallb blocks_filled o
  | While _ b o =>
      filled b && forallb blocks_filled b && forallb blocks_filled o
  | With _ b => filled b && forallb blocks_filled b
  | Try b hs o f =>
      filled b && forallb blocks_filled b
      && forallb blocks_filled_handler hs
      && forallb blocks_filled o && forallb blocks_filled f
      && (filled hs || filled f)
  | AsyncFor _ _ b o =>
      filled b && forallb blocks_filled b && forallb blocks_filled o
  | AsyncWith _ b => filled b && forallb blocks_filled b
  | Match _ cs => filled cs && forallb blocks_filled_case cs
  | TryStar b hs o f =>
      filled b && forallb blocks_filled b
      && forallb blocks_filled_handler hs
      && forallb blocks_filled o && forallb blocks_filled f
      && filled hs
  | Simple _ => true
  end
with blocks_filled_handler (h : excepthandler) : bool :=
  match h with
  | ExceptHandler _ _ b => filled b && forallb blocks_filled b
  end
with blocks_filled_case (c : match_case) : bool :=
  match c with
  | MatchCase _ _ b => filled b && forallb blocks_filled b
  end.

(** [kept s]: the transformer removes nothing at [s] or below it: [s] is
    no import of an [MPITest*] entity, and neither is any statement that
    the transformer reaches from [s]. *)
Fixpoint kept (s : stmt) : bool :=
  match s with
  | FunctionDef _ _ _ _ _ => true
  | Import names => negb (imports_MPITest names)
  | ImportFrom _ names _ => negb (imports_MPITest names)
  | AsyncFunctionDef _ _ b _ _ => forallb kept b
  | ClassDef _ _ b _ => forallb kept b
  | If _ b o => forallb kept b && forallb kept o
  | For _ _ b o => forallb kept b && forallb kept o
  | While _ b o => forallb kept b && forallb kept o
  | With _ b => forallb kept b
  | Try b hs o f =>
      forallb kept b && forallb kept_handler hs
      && forallb kept o && forallb kept f
  | AsyncFor _ _ b o => forallb kept b && forallb kept o
  | AsyncWith _ b => forallb kept b
  | Match _ cs => forallb kept_case cs
  | TryStar b hs o f =>
      forallb kept b && forallb kept_handler hs
      && forallb kept o && forallb kept f
  | Simple _ => true
  end
with kept_handler (h : excepthandler) : bool :=
  match h with
  | ExceptHandler _ _ b => forallb kept b
  end
with kept_case (c : match_case) : bool :=
  match c with
  | MatchCase _ _ b => forallb kept b
  end.

(** *** A plain printer

    [unparse_plain] prints a tree in the manner of [ast.unparse], one
    statement per line and four blanks per level; the statements about
    [_pure_test_func] hold for any printer and are run on this one. *)

Fixpoint blanks (lvl : nat) : string :=
  match lvl with O => "" | S n => "    " ++ blanks n end.

Definition unparse_expr (e : expr) : string :=
  match e with Expr src => src end.

Definition unparse_alias (a : alias) : string :=
  match asname a with
  | Some n => name a ++ " as " ++ n
  | None => name a
  end.

Definition unparse_decorators (lvl : nat) (d : list expr) : list string :=
  map (fun e => (blanks lvl ++ "@" ++ unparse_expr e)%string) d.

Definition unparse_returns (r : option expr) : string :=
  match r with Some e => " -> " ++ unparse_expr e | None => "" end.

Definition unparse_bases (bs : list expr) : string :=
  match bs with
  | [] => ""
  | _ => "(" ++ Py.join ", " (map unparse_expr bs) ++ ")"
  end.

Fixpoint dots (n : nat) : string :=
  match n with O => "" | S k => "." ++ dots k end.

Definition unparse_else (lvl : nat) (ls : list string) : list string :=
  match ls with
  | [] => []
  | _ => (blanks lvl ++ "else:")%string :: ls
  end.

Fixpoint unparse_stmt (lvl : nat) (s : stmt) : list string :=
  match s with
  | FunctionDef n a b d r =>
      unparse_decorators lvl d
      ++ (blanks lvl ++ "def " ++ n ++ "(" ++ a ++ ")"
          ++ unparse_returns r ++ ":")%string
      :: flat_map (unparse_stmt (S lvl)) b
  | AsyncFunctionDef n a b d r =>
      unparse_decorators lvl d
      ++ (blanks lvl ++ "async def " ++ n ++ "(" ++ a ++ ")"
          ++ unparse_returns r ++ ":")%string
      :: flat_map (unparse_stmt (S lvl)) b
  | ClassDef n bs b d =>
      unparse_decorators lvl d
      ++ (blanks lvl ++ "class " ++ n ++ unparse_bases bs ++ ":")%string
      :: flat_map (unparse_stmt (S lvl)) b
  | Import names =>
      [(blanks lvl ++ "import "
        ++ Py.join ", " (map unparse_alias names))%string]
  | ImportFrom m names level =>
      [(blanks lvl ++ "from " ++ dots level
        ++ match m with Some x => x | None => "" end
        ++ " import " ++ Py.join ", " (map unparse_alias names))%string]
  | If t b o =>
      (blanks lvl ++ "if " ++ unparse_expr t ++ ":")%string
      :: flat_map (unparse_stmt (S lvl)) b
      ++ unparse_else lvl (flat_map (unparse_stmt (S lvl)) o)
  | For t i b o =>
      (blanks lvl ++ "for " ++ unparse_expr t ++ " in "
       ++ unparse_expr i ++ ":")%string
      :: flat_map (unparse_stmt (S lvl)) b
      ++ unparse_else lvl (flat_map (unparse_stmt (S lvl)) o)
  | While t b o =>
      (blanks lvl ++ "while " ++ unparse_expr t ++ ":")%string
      :: flat_map (unparse_stmt (S lvl)) b
      ++ unparse_else lvl (flat_map (unparse_stmt (S lvl)) o)
  | With i b =>
      (blanks lvl ++ "with " ++ Py.join ", " (map unparse_expr i)
       ++ ":")%string
      :: flat_map (unparse_stmt (S lvl)) b
  | Try b hs o f =>
      (blanks lvl ++ "try:")%string
      :: flat_map (unparse_stmt (S lvl)) b
      ++ flat_map (unparse_handler "except" lvl) hs
      ++ unparse_else lvl (flat_map (unparse_stmt (S lvl)) o)
      ++ match flat_map (unparse_stmt (S lvl)) f with
         | [] => []
         | ls => (blanks lvl ++ "finally:")%string :: ls
         end
  | AsyncFor t i b o =>
      (blanks lvl ++ "async for " ++ unparse_expr t ++ " in "
       ++ unparse_expr i ++ ":")%string
      :: flat_map (unparse_stmt (S lvl)) b
      ++ unparse_else lvl (flat_map (unparse_stmt (S lvl)) o)
  | AsyncWith i b =>
      (blanks lvl ++ "async with " ++ Py.join ", " (map unparse_expr i)
       ++ ":")%string
      :: flat_map (unparse_stmt (S lvl)) b
  | Match e cs =>
      (blanks lvl ++ "match " ++ unparse_expr e ++ ":")%string
      :: flat_map (unparse_case (S lvl)) cs
  | TryStar b hs o f =>
      (blanks lvl ++ "try:")%string
      :: flat_map (unparse_stmt (S lvl)) b
      ++ flat_map (unparse_handler "except*" lvl) hs
      ++ unparse_else lvl (flat_map (unparse_stmt (S lvl)) o)
      ++ match flat_map (unparse_stmt (S lvl)) f with
         | [] => []
         | ls => (blanks lvl ++ "finally:")%string :: ls
         end
  | Simple src => [(blanks lvl ++ src)%string]
  end
with unparse_handler (keyword : string) (lvl : nat) (h : excepthandler)
  : list string :=
  match h with
  | ExceptHandler t n b =>
      (blanks lvl ++ keyword
       ++ match t with Some e => " " ++ unparse_expr e | None => "" end
       ++ match n with Some x => " as " ++ x | None => "" end
       ++ ":")%string
      :: flat_map (unparse_stmt (S lvl)) b
  end
with unparse_case (lvl : nat) (c : match_case) : list string :=
  match c with
  | MatchCase p g b =>
      (blanks lvl ++ "case " ++ p
       ++ match g with Some e => " if " ++ unparse_expr e | None => "" end
       ++ ":")%string
      :: flat_map (unparse_stmt (S lvl)) b
  end.

Definition unparse_plain (tree : pymod) : string :=
  Py.join Py.newline (flat_map (unparse_stmt 0) (mod_body tree)).

(** *** A test file

<<
from mpi_test_wrapper import MPITestAssertEqual
import pytest

class Rates:
    @staticmethod
    def low():
        return 10.0

@pytest.mark.skipif_incompatible_mpi
@MPITestAssertEqual([1, 2, 4])
def test_rates():
    import nest
    nest.Simulate(Rates.low())
>>
*)
Definition rates_class : stmt :=
  ClassDef "Rates" []
    [FunctionDef "low" "" [Simple "return 10.0"] [Expr "staticmethod"] None]
    [].

Definition test_rates_def (decorators : list expr) : stmt :=
  FunctionDef "test_rates" ""
    [Import [mk_alias "nest" None]; Simple "nest.Simulate(Rates.low())"]
    decorators None.

Definition test_rates_file : pymod :=
  Module
    [ImportFrom (Some "mpi_test_wrapper")
       [mk_alias "MPITestAssertEqual" None] 0;
     Import [mk_alias "pytest" None];
     rates_class;
     test_rates_def [Expr "pytest.mark.skipif_incompatible_mpi";
                     Expr "MPITestAssertEqual([1, 2, 4])"]].

(** *** A file with the other compound statements

<<
import pytest

async def main():
    from m import MPITestX

    @dec
    def inner():
        pass
    async for x in y:
        import MPITestA

        @d
        def g():
            import MPITestZ
    async with a as b:
        from q import MPITestB, other
        z = 1
    match v:
        case 1:
            import MPITestC

            @d2
            def h():
                pass
    try:
        import json
        w = 1
    except* ValueError:
        import MPITestD
        w = 2

@keep
class C:
    @sm
    def low():
        return 1
>>
*)
Definition async_main (harness : bool) (decorators : bool) : stmt :=
  let only (l : list stmt) := if harness then l else [] in
  let dec (e : string) := if decorators then [Expr e] else [] in
  AsyncFunctionDef "main" ""
    (only [ImportFrom (Some "m") [mk_alias "MPITestX" None] 0]
     ++ [FunctionDef "inner" "" [Simple "pass"] (dec "dec") None;
         AsyncFor (Expr "x") (Expr "y")
           (only [Import [mk_alias "MPITestA" None]]
            ++ [FunctionDef "g" "" [Import [mk_alias "MPITestZ" None]]
                  (dec "d") None])
           [];
         AsyncWith [Expr "a as b"]
           (only [ImportFrom (Some "q")
                    [mk_alias "MPITestB" None; mk_alias "other" None] 0]
            ++ [Simple "z = 1"]);
         Match (Expr "v")
           [MatchCase "1" None
              (only [Import [mk_alias "MPITestC" None]]
               ++ [FunctionDef "h" "" [Simple "pass"] (dec "d2") None])];
         TryStar [Import [mk_alias "json" None]; Simple "w = 1"]
           [ExceptHandler (Some (Expr "ValueError")) None
              (only [Import [mk_alias "MPITestD" None]]
               ++ [Simple "w = 2"])]
           [] []])
    [] None.

Definition class_C (decorators : bool) : stmt :=
  ClassDef "C" []
    [FunctionDef "low" "" [Simple "return 1"]
       (if decorators then [Expr "sm"] else []) None]
    [Expr "keep"].

Definition async_file : pymod :=
  Module [Import [mk_alias "pytest" None]; async_main true true;
          class_C true].

(** What [_RemoveDecoratorsAndMPITestImports] makes of it: the imports
    of [MPITest*] entities and the decorators of the [def]s are gone from
    every block, the import inside the body of [g] and the decorator of
    the class stay. *)
Definition async_file_isolated : pymod :=
  Module [Import [mk_alias "pytest" None]; async_main false false;
          class_C false].

(** A parser for the text of one tree. *)
Definition parse_text_of (tree : pymod) (src : string) : option pymod :=
  if String.eqb src (unparse_plain tree) then Some tree else None.

(** The same file with nothing left to remove. *)
Definition test_rates_plain : pymod :=
  Module
    [Import [mk_alias "pytest" None];
     ClassDef "Rates" []
       [FunctionDef "low" "" [Simple "return 10.0"] [] None] [];
     test_rates_def []].

End Ast.

(* ===================================================================== *)
(** ** Rendering the call arguments and the runner *)
(* ===================================================================== *)

Module Params.

Local Open Scope string_scope.

(** The values a test is called with.  [PyFunction] is a function made by
    [def] or [lambda], the only objects [inspect.isfunction] accepts;
    [PyBuiltin] is a built-in function such as [len], which is callable
    without being one. *)
Inductive pyobj : Type :=
| PyInt (n : Z)
| PyBool (b : bool)
| PyNone
| PyStr (s : string)
| PyFunction (name address : string)
| PyBuiltin (name : string).

Definition isfunction (v : pyobj) : bool :=
  match v with PyFunction _ _ => true | _ => false end.

Definition callable (v : pyobj) : bool :=
  match v with PyFunction _ _ | PyBuiltin _ => true | _ => false end.

(** [v.__name__], of the objects that have one. *)
Definition __name__ (v : pyobj) : string :=
  match v with
  | PyFunction n _ | PyBuiltin n => n
  | _ => ""
  end.

(** [str(v)], which is what an f-string field without conversion gives. *)
Definition str (v : pyobj) : string :=
  match v with
  | PyInt n => Py.str_int n
  | PyBool true => "True"
  | PyBool false => "False"
  | PyNone => "None"
  | PyStr s => s
  | PyFunction n a => "<function " ++ n ++ " at 0x" ++ a ++ ">"
  | PyBuiltin n => "<built-in function " ++ n ++ ">"
  end.

(** [repr(v)], the literal representation. *)
Definition repr (v : pyobj) : string :=
  match v with
  | PyStr s => Py.repr_str s
  | _ => str v
  end.

(** The field [{arg if not inspect.isfunction(arg) else arg.__name__}]. *)
Definition field (arg : pyobj) : string :=
  str (if negb (isfunction arg) then arg else PyStr (__name__ arg)).

(** [MPITestWrapper._params_as_str(self, *args, **kwargs)]; [kwargs] holds
    the keyword arguments in the order of the call. *)
Definition _params_as_str (args : list pyobj) (kwargs : list (string * pyobj))
  : string :=
  Py.join ", "
    (filter Py.truthy_str
       [Py.join ", " (map field args);
        Py.join ", "
          (map (fun kv => (fst kv ++ "=" ++ field (snd kv))%string) kwargs)]).

(** The wording of the specification: the positional arguments, then the
    keyword arguments as [key=value], one list separated by commas. *)
Definition call_arguments_text (args : list pyobj)
  (kwargs : list (string * pyobj)) : string :=
  Py.join ", "
    (map field args
     ++ map (fun kv => (fst kv ++ "=" ++ field (snd kv))%string) kwargs)%list.

(** The reading of the specification: a callable argument is rendered by
    its name, any other argument by its literal representation. *)
Definition rendered_as_specified (v : pyobj) : Prop :=
  field v = if callable v then __name__ v else repr v.

(** The text of that reading: each argument by its name when it is
    callable and by its literal representation otherwise, the positional
    arguments first, then the keyword arguments as [key=value], one list
    separated by commas. *)
Definition specified_rendering (v : pyobj) : string :=
  if callable v then __name__ v else repr v.

Definition specified_text (args : list pyobj)
  (kwargs : list (string * pyobj)) : string :=
  Py.join ", "
    (map specified_rendering args
     ++ map (fun kv => (fst kv ++ "=" ++ specified_rendering (snd kv))%string)
          kwargs)%list.

Definition is_string (v : pyobj) : bool :=
  match v with PyStr _ => true | _ => false end.

Definition newline : string := Py.newline.

(** [RUNNER_TEMPLATE.format(spike_lbl=.., multi_lbl=.., other_lbl=..,
    fcode=.., fname=.., params=..)], the template being dedented. *)
Definition RUNNER_TEMPLATE_format
  (spike_lbl multi_lbl other_lbl fcode fname params : string) : string :=
  "SPIKE_LABEL = '" ++ spike_lbl ++ "'" ++ newline
  ++ "MULTI_LABEL = '" ++ multi_lbl ++ "'" ++ newline
  ++ "OTHER_LABEL = '" ++ other_lbl ++ "'" ++ newline
  ++ newline
  ++ fcode ++ newline
  ++ newline
  ++ "if __name__ == '__main__':" ++ newline
  ++ "    " ++ fname ++ "(" ++ params ++ ")" ++ newline.

End Params.

(* ===================================================================== *)
(** ** The wrapper: launching, collecting, comparing *)
(* ===================================================================== *)

Module Harness.

Import Py.

(** The regular files of the temporary directory, name and content, in the
    order in which [Path.glob] yields them. *)
Definition directory : Type := list (string * string).

(** A [dict] keyed by numbers of processes.  It keeps the order of first
    insertion; assigning to a key that is present replaces its value. *)
Definition dict (V : Type) : Type := list (Z * V).

Fixpoint dict_set {V} (k : Z) (v : V) (d : dict V) : dict V :=
  match d with
  | [] => [(k, v)]
  | (k', v') :: d' =>
      if Z.eqb k k' then (k, v) :: d' else (k', v') :: dict_set k v d'
  end.

Fixpoint dict_get {V} (k : Z) (d : dict V) : option V :=
  match d with
  | [] => None
  | (k', v) :: d' => if Z.eqb k k' then Some v else dict_get k d'
  end.

Definition values {V} (d : dict V) : list V := map snd d.

(** What lies outside Python: the names of fresh temporary directories
    and the processes [mpirun] starts.  A launched command sees the files
    of its working directory, may change them, and ends with an exit
    status and what it wrote to standard output and standard error (the
    launcher itself is taken to be installed). *)
Class OS : Type := {
  env : Type;
  mkdtemp : env -> env * string;
  run_process :
    env -> list string -> string -> directory ->
    env * directory * (Z * string * string)
}.

(** [ast.unparse] *)
Class Unparser : Type := { unparse : Ast.pymod -> string }.

(** The part of pandas the wrapper calls:
    [pd.read_csv(f, sep="\t", comment="#")] on the content of [f],
    [pd.concat(objs, ignore_index=True)] on a first frame and the ones
    after it, [df.sort_values(by=..., ignore_index=True)], [df.columns]
    and [pd.testing.assert_frame_equal]. *)
Class Pandas : Type := {
  DataFrame : Type;
  read_csv : string -> exn + DataFrame;
  concat : DataFrame -> list DataFrame -> exn + DataFrame;
  sort_values : DataFrame -> list string -> exn + DataFrame;
  columns : DataFrame -> list string;
  assert_frame_equal : DataFrame -> DataFrame -> exn + unit
}.

(** [subprocess.CompletedProcess] *)
Record CompletedProcess : Type := mk_completed {
  cp_args : list string;
  cp_returncode : Z;
  cp_stdout : string;
  cp_stderr : string
}.

(** What a run of the wrapper does to the outside, in order. *)
Inductive event : Type :=
| Launch (cmd : list string) (cwd : string)
| Glob (dir pattern : string)
| Printed (text : string)
| PrintedRes (res : dict CompletedProcess)
| WriteFile (dir name : string).

Inductive wrapper_class : Type :=
| MPITestWrapper
| MPITestAssertEqual
| MPITestAssertCompletes.

(** A test function: its [__name__] and the tree of its source file. *)
Record func : Type := mk_func { f_name : string; f_tree : Ast.pymod }.

(** The argument [procs_lst] of the constructor. *)
Inductive procs_arg : Type :=
| Number (n : Z)
| NoneValue
| Levels (l : list Z).

(** Errors in pure code. *)
Definition bindE {A B} (r : exn + A) (k : A -> exn + B) : exn + B :=
  match r with
  | inr a => k a
  | inl e => inl e
  end.

Declare Scope py_scope.
Delimit Scope py_scope with py.

Notation "'let?' x ':=' r 'in' k" := (bindE r (fun x => k))
  (at level 10, x name, r at level 100, k at level 200) : py_scope.

Definition assertE (b : bool) (msg : string) : exn + unit :=
  if b then inr tt else inl (AssertionError msg).

Section Wrapper.

Context {os : OS} {up : Unparser} {pandas : Pandas}.

(** The objects of the wrapper classes. *)
Record self : Type := mk_self {
  cls : wrapper_class;
  _procs_lst : list Z;
  _debug : bool;
  _spike : option (dict (list DataFrame));
  _multi : option (dict (list DataFrame));
  _other : option (dict (list DataFrame))
}.

(** *** State and exceptions *)

Record state : Type := mk_state {
  st_env : env;
  st_files : directory;
  st_trace : list event
}.

Definition M (A : Type) : Type := state -> state * (exn + A).

Definition ret {A} (a : A) : M A := fun st => (st, inr a).

Definition bind {A B} (m : M A) (k : A -> M B) : M B :=
  fun st =>
    match m st with
    | (st', inr a) => k a st'
    | (st', inl e) => (st', inl e)
    end.

Definition raise {A} (e : exn) : M A := fun st => (st, inl e).

Definition lift {A} (r : exn + A) : M A := fun st => (st, r).

Notation "x <- m ;; k" := (bind m (fun x => k))
  (at level 61, m at next level, right associativity) : py_scope.
Notation "m ;; k" := (bind m (fun _ => k))
  (at level 61, right associativity) : py_scope.

Local Open Scope py_scope.

(** [try: m  except <class> as err: handler err], where [handler] tells
    the classes it catches. *)
Definition try_except {A} (m : M A) (handler : exn -> option (M A)) : M A :=
  fun st =>
    match m st with
    | (st', inl e) =>
        match handler e with
        | Some h => h st'
        | None => (st', inl e)
        end
    | r => r
    end.

Definition emit (ev : event) : M unit :=
  fun st =>
    (mk_state (st_env st) (st_files st) (st_trace st ++ [ev]), inr tt).

Definition print (text : string) : M unit := emit (Printed text).

(** *** Class attributes *)

Definition RUNNER : string := "runner.py".
Definition SPIKE_LABEL : string := "spike-{}".
Definition MULTI_LABEL : string := "multi-{}".
Definition OTHER_LABEL : string := "other-{}-{}.dat".

(** *** [MPITestWrapper.__init__] *)

Definition iter (procs_lst : procs_arg) : exn + list Z :=
  match procs_lst with
  | Levels l => inr l
  | Number _ => inl (TypeError "'int' object is not iterable")
  | NoneValue => inl (TypeError "'NoneType' object is not iterable")
  end.

Definition __init__ (c : wrapper_class) (procs_lst : procs_arg)
  (debug : bool) : M self :=
  match iter procs_lst with
  | inl (TypeError _) => raise (TypeError "procs_lst must be a list of numbers")
  | inl e => raise e
  | inr l => ret (mk_self c l debug None None None)
  end.

(** *** [MPITestWrapper._write_runner] *)

Fixpoint write_file (name content : string) (d : directory) : directory :=
  match d with
  | [] => [(name, content)]
  | (n, c) :: d' =>
      if String.eqb n name then (name, content) :: d'
      else (n, c) :: write_file name content d'
  end.

Definition _write_runner (tmpdirpath : string) (f : func)
  (args : list Params.pyobj) (kwargs : list (string * Params.pyobj))
  : M unit :=
  fun st =>
    let text :=
      Params.RUNNER_TEMPLATE_format SPIKE_LABEL MULTI_LABEL OTHER_LABEL
        (Ast._pure_test_func unparse (f_tree f))
        (f_name f)
        (Params._params_as_str args kwargs) in
    (mk_state (st_env st) (write_file RUNNER text (st_files st))
       (st_trace st ++ [WriteFile tmpdirpath RUNNER]),
     inr tt).

(** *** [MPITestWrapper.__call__]: the function [wrapper] *)

(** [tempfile.TemporaryDirectory(...)], with the keyword [delete] (l. 178)
    or, where the keyword is not known, without it (l. 180): a fresh,
    empty directory either way.  What differs is whether the directory is
    removed when the object is finalised, which happens once [wrapper] has
    returned or raised: the states below end with the last statement of
    [wrapper], and no statement here is about the files after it. *)
Definition TemporaryDirectory : M string :=
  fun st =>
    let (e, name) := mkdtemp (st_env st) in
    (mk_state e [] (st_trace st), inr name).

(** [subprocess.run(command, check=True, cwd=cwd, capture_output=True)] *)
Definition subprocess_run (command : list string) (cwd : string)
  : M CompletedProcess :=
  fun st =>
    let '(e, files, (returncode, out, err)) :=
      run_process (st_env st) command cwd (st_files st) in
    let st' := mk_state e files (st_trace st ++ [Launch command cwd]) in
    if Z.eqb returncode 0
    then (st', inr (mk_completed command returncode out err))
    else (st', inl (CalledProcessError returncode command out err)).

Definition mpirun_command (procs : Z) : list string :=
  ["mpirun"; "-np"; str_int procs; "--oversubscribe"; "python"; RUNNER].

Definition rule : string := repeat_str "-" 50.

(** The body of [except subprocess.CalledProcessError as err], up to
    [raise err]. *)
Definition report_failure (command : list string) (tmpdir_name : string)
  (err_stdout err_stderr : string) : M unit :=
  print Params.newline ;;
  print rule ;;
  print ("Running failed for: " ++ repr_str_list command) ;;
  print ("tmpdir            : " ++ tmpdir_name) ;;
  print rule ;;
  print "STDOUT" ;;
  print rule ;;
  out <- lift (decode_utf8 err_stdout) ;;
  print out ;;
  print rule ;;
  print "STDERR" ;;
  print rule ;;
  err <- lift (decode_utf8 err_stderr) ;;
  print err ;;
  print rule.

(** What that body prints when both streams decode. *)
Definition report_trace (command : list string) (tmpdir_name : string)
  (err_stdout err_stderr : string) : list event :=
  [Printed Params.newline; Printed rule;
   Printed ("Running failed for: " ++ repr_str_list command);
   Printed ("tmpdir            : " ++ tmpdir_name);
   Printed rule; Printed "STDOUT"; Printed rule; Printed err_stdout;
   Printed rule; Printed "STDERR"; Printed rule; Printed err_stderr; Printed rule].

(** [for procs in self._procs_lst: ...] *)
Fixpoint run_levels (tmpdir : string) (procs_lst : list Z)
  (res : dict CompletedProcess) : M (dict CompletedProcess) :=
  match procs_lst with
  | [] => ret res
  | procs :: rest =>
      let command := mpirun_command procs in
      r <- try_except (subprocess_run command tmpdir)
             (fun err =>
                match err with
                | CalledProcessError _ _ out e =>
                    Some (report_failure command tmpdir out e ;; raise err)
                | _ => None
                end) ;;
      run_levels tmpdir rest (dict_set procs r res)
  end.

(** *** [MPITestWrapper._collect_result_by_label] *)

Definition glob (tmpdirpath pattern : string) : M directory :=
  fun st =>
    (mk_state (st_env st) (st_files st)
       (st_trace st ++ [Glob tmpdirpath pattern]),
     inr (filter (fun f => fnmatch pattern (fst f)) (st_files st))).

(** [for f in ...: try: data.append(pd.read_csv(f, ...))
    except pd.errors.EmptyDataError: pass] *)
Fixpoint read_frames (files : directory) (data : list DataFrame)
  : exn + list DataFrame :=
  match files with
  | [] => inr data
  | f :: files' =>
      match read_csv (snd f) with
      | inr df => read_frames files' (data ++ [df])
      | inl EmptyDataError => read_frames files' data
      | inl e => inl e
      end
  end.

(** [for n_procs in self._procs_lst: ...] *)
Fixpoint collect_levels (tmpdirpath label : string) (procs_lst : list Z)
  (res : dict (list DataFrame)) : M (dict (list DataFrame)) :=
  match procs_lst with
  | [] => ret res
  | n_procs :: rest =>
      pattern <- lift (format label [str_int n_procs; "*"]) ;;
      files <- glob tmpdirpath pattern ;;
      data <- lift (read_frames files []) ;;
      collect_levels tmpdirpath label rest (dict_set n_procs data res)
  end.

(** The first four lines: the label with the rank part and the ending. *)
Definition complete_label (label : string) : exn + string :=
  if negb (endswith label "-{}-{}.dat") then
    let? _ := assertE (endswith label "-{}") "" in
    inr (label ++ "-{}.dat")%string
  else inr label.

Definition _collect_result_by_label (s : self) (tmpdirpath label : string)
  : M (option (dict (list DataFrame))) :=
  label <- lift (complete_label label) ;;
  pattern <- lift (format label ["*"; "*"]) ;;
  found <- glob tmpdirpath pattern ;;
  match found with
  | [] => ret None
  | _ :: _ =>
      res <- collect_levels tmpdirpath label (_procs_lst s) [] ;;
      ret (Some res)
  end.

(** *** [MPITestWrapper.collect_results] *)
Definition collect_results (s : self) (tmpdirpath : string) : M self :=
  spike <- _collect_result_by_label s tmpdirpath SPIKE_LABEL ;;
  multi <- _collect_result_by_label s tmpdirpath MULTI_LABEL ;;
  other <- _collect_result_by_label s tmpdirpath OTHER_LABEL ;;
  ret (mk_self (cls s) (_procs_lst s) (_debug s) spike multi other).

(** *** [MPITestAssertEqual.assert_correct_results] *)

(** Truth value of an attribute that is [None] or a [dict]. *)
Definition truthy {V} (d : option (dict V)) : bool :=
  match d with
  | Some (_ :: _) => true
  | _ => false
  end.

Definition values_of {V} (d : option (dict V)) : list V :=
  match d with
  | Some d => values d
  | None => []
  end.

(** [pd.concat(objs, ignore_index=True)]: no objects is a [ValueError]. *)
Definition pd_concat (objs : list DataFrame) : exn + DataFrame :=
  match objs with
  | [] => inl (ValueError "No objects to concatenate")
  | first :: more => concat first more
  end.

(** [pd.concat(frames, ignore_index=True).sort_values(by=by,
    ignore_index=True)] *)
Definition combined_sorted (keys : list string) (frames : list DataFrame)
  : exn + DataFrame :=
  let? combined := pd_concat frames in
  sort_values combined keys.

(** The list comprehension over [.values()]. *)
Fixpoint combine_levels (keys : list string)
  (per_level : list (list DataFrame)) : exn + list DataFrame :=
  match per_level with
  | [] => inr []
  | frames :: rest =>
      let? df := combined_sorted keys frames in
      let? dfs := combine_levels keys rest in
      inr (df :: dfs)
  end.

Definition spike_keys : list string := ["time_step"; "time_offset"; "sender"].

(** [for r in res[1:]: pd.testing.assert_frame_equal(res[0], r)] *)
Fixpoint assert_frames_equal (first : DataFrame) (others : list DataFrame)
  : exn + unit :=
  match others with
  | [] => inr tt
  | r :: others' =>
      let? _ := assert_frame_equal first r in
      assert_frames_equal first others'
  end.

(** [for res in all_res: ...] *)
Fixpoint check_all (n_levels : nat) (all_res : list (list DataFrame))
  : exn + unit :=
  match all_res with
  | [] => inr tt
  | res :: more =>
      let? _ := assertE (Nat.eqb (List.length res) n_levels)
                  "Could not collect data for all procs" in
      let? _ := match res with
                | [] => inr tt
                | first :: others => assert_frames_equal first others
                end in
      check_all n_levels more
  end.

(** The method after [self.collect_results(tmpdirpath)]. *)
Definition compare_collected (s : self) : exn + unit :=
  let? all_res :=
    if truthy (_spike s) then
      let? dfs := combine_levels spike_keys (values_of (_spike s)) in
      inr [dfs]
    else inr [] in
  if truthy (_multi s) then inl (NotImplementedError "MULTI is not ready yet")
  else
    let? all_res :=
      if truthy (_other s) then
        match values_of (_other s) with
        | [] => inl (OtherError "StopIteration" "")
        | [] :: _ => inl (IndexError "list index out of range")
        | (df :: _) :: _ =>
            let all_columns := columns df in
            let? dfs := combine_levels all_columns (values_of (_other s)) in
            inr (all_res ++ [dfs])
        end
      else inr all_res in
    let? _ := assertE (negb (Ast.is_nil all_res)) "No test data collected" in
    check_all (List.length (_procs_lst s)) all_res.

(** [assert_correct_results] of the three classes. *)
Definition assert_correct_results (s : self) (tmpdirpath : string) : M unit :=
  match cls s with
  | MPITestWrapper =>
      raise (AssertionError "Test-specific checks not implemented")
  | MPITestAssertEqual =>
      s' <- collect_results s tmpdirpath ;;
      lift (compare_collected s')
  | MPITestAssertCompletes => ret tt
  end.

(** *** The function [wrapper] that [__call__] returns *)

(** [wrapper] up to the end of the loop, for the levels given. *)
Definition launch_levels (f : func) (args : list Params.pyobj)
  (kwargs : list (string * Params.pyobj)) (levels : list Z)
  : M (string * dict CompletedProcess) :=
  tmpdir <- TemporaryDirectory ;;
  _write_runner tmpdir f args kwargs ;;
  res <- run_levels tmpdir levels [] ;;
  ret (tmpdir, res).

Definition wrapper (s : self) (f : func) (args : list Params.pyobj)
  (kwargs : list (string * Params.pyobj)) : M unit :=
  launched <- launch_levels f args kwargs (_procs_lst s) ;;
  let tmpdir := fst launched in
  (if _debug s then
     print (Params.newline ++ Params.newline) ;;
     emit (PrintedRes (snd launched)) ;;
     print (Params.newline ++ Params.newline ++ "TMPDIR: " ++ tmpdir
            ++ Params.newline ++ Params.newline)
   else ret tt) ;;
  assert_correct_results s tmpdir.

(** *** Notions for the statements *)

(** The three kinds of naming template. *)
Inductive kind : Type := Spike | Multi | Other.

Definition label_of (k : kind) : string :=
  match k with
  | Spike => SPIKE_LABEL
  | Multi => MULTI_LABEL
  | Other => OTHER_LABEL
  end.

Definition stem (k : kind) : string :=
  match k with
  | Spike => "spike"
  | Multi => "multi"
  | Other => "other"
  end.

(** The attribute [collect_results] stores the kind in. *)
Definition collected (k : kind) (s : self)
  : option (dict (list DataFrame)) :=
  match k with
  | Spike => _spike s
  | Multi => _multi s
  | Other => _other s
  end.

(** The pattern of a kind with both slots open, and with the level slot
    filled. *)
Definition any_level_pattern (k : kind) : string :=
  (stem k ++ "-*-*.dat")%string.

Definition level_pattern (k : kind) (n_procs : Z) : string :=
  (stem k ++ "-" ++ str_int n_procs ++ "-*.dat")%string.

Definition is_artifact (name : string) : bool :=
  fnmatch (any_level_pattern Spike) name
  || fnmatch (any_level_pattern Multi) name
  || fnmatch (any_level_pattern Other) name.

(** The frames of the files that parse, in order. *)
Definition parsed (files : directory) : list DataFrame :=
  flat_map (fun f => match read_csv (snd f) with
                     | inr df => [df]
                     | inl _ => []
                     end) files.

(** The frames of the files of a kind at a level. *)
Definition parsed_at (k : kind) (n_procs : Z) (files : directory)
  : list DataFrame :=
  parsed (filter (fun f => fnmatch (level_pattern k n_procs) (fst f)) files).

(** The parser either returns a frame or reports empty data. *)
Definition parses_or_empty (f : string * string) : Prop :=
  read_csv (snd f) = inl EmptyDataError \/ exists df, read_csv (snd f) = inr df.

Definition iterable (procs_lst : procs_arg) : bool :=
  match procs_lst with Levels _ => true | _ => false end.

(** The run configurations the specification calls invalid. *)
Definition invalid_configuration (procs_lst : procs_arg) : bool :=
  match procs_lst with
  | Levels (_ :: _) => false
  | _ => true
  end.

(** The reading of the specification: the constructor reports the
    configuration as an error. *)
Definition rejected_at_construction (procs_lst : procs_arg) : Prop :=
  forall c debug st, exists e, __init__ c procs_lst debug st = (st, inl e).

(** The reading of the specification: the working directory of a failed
    run can be read off the error that [wrapper] raises. *)
Definition error_carries_tmpdir : Prop :=
  exists path_of : exn -> string,
    forall s f args kwargs st st' st1 tmpdir rc cmd out err,
      TemporaryDirectory st = (st1, inr tmpdir) ->
      wrapper s f args kwargs st
      = (st', inl (CalledProcessError rc cmd out err)) ->
      path_of (CalledProcessError rc cmd out err) = tmpdir.

(** The first key column of the generic kind: the columns of the first
    frame of the first level. *)
Definition first_frame_columns (d : dict (list DataFrame)) : list string :=
  match values d with
  | (df :: _) :: _ => columns df
  | _ => []
  end.

(** The commands launched, read off a trace. *)
Definition launches (trace : list event) : list (list string) :=
  flat_map (fun ev => match ev with Launch cmd _ => [cmd] | _ => [] end)
    trace.

(** The patterns globbed, read off a trace. *)
Definition globs (trace : list event) : list string :=
  flat_map (fun ev => match ev with Glob _ pat => [pat] | _ => [] end) trace.

Definition is_print (ev : event) : bool :=
  match ev with
  | Printed _ | PrintedRes _ => true
  | _ => false
  end.

(** A trace without what was printed. *)
Definition actions (trace : list event) : list event :=
  filter (fun ev => negb (is_print ev)) trace.

(** [st'] comes from [st] by globbing in [tmpdirpath] and nothing else. *)
Definition only_globs (tmpdirpath : string) (st st' : state) : Prop :=
  st_env st' = st_env st
  /\ st_files st' = st_files st
  /\ exists patterns,
       st_trace st' = st_trace st ++ map (Glob tmpdirpath) patterns.

(** [st'] comes from [st] by printing and nothing else. *)
Definition only_prints (st st' : state) : Prop :=
  st_env st' = st_env st
  /\ st_files st' = st_files st
  /\ exists evs,
       st_trace st' = st_trace st ++ evs /\ forallb is_print evs = true.

(** Two states that differ in nothing but what was printed. *)
Definition same_but_prints (a b : state) : Prop :=
  st_env a = st_env b
  /\ st_files a = st_files b
  /\ actions (st_trace a) = actions (st_trace b).

(** A computation whose result and whose effects on files, environment
    and actions do not depend on what was printed before. *)
Definition print_blind {A} (m : M A) : Prop :=
  forall st1 st2,
    same_but_prints st1 st2 ->
    snd (m st1) = snd (m st2)
    /\ same_but_prints (fst (m st1)) (fst (m st2)).

(** The object with another debug flag. *)
Definition with_debug (debug : bool) (s : self) : self :=
  mk_self (cls s) (_procs_lst s) debug (_spike s) (_multi s) (_other s).

(** The name of the file of a kind that the process of a rank writes at a
    level. *)
Definition artifact_name (k : kind) (n_procs : Z) (rank : string) : string :=
  (stem k ++ "-" ++ str_int n_procs ++ "-" ++ rank ++ ".dat")%string.

End Wrapper.

End Harness.

(* ===================================================================== *)
(** ** A small platform to run the wrapper on *)
(* ===================================================================== *)

Module Sample.

Import Py Harness.

(** *** Tables of integers

    Frames whose cells are integers, as the recorders write them with
    [time_step], [time_offset] and [sender] columns.  [read_csv] follows
    pandas on such files: the text after a [#] is dropped, blank lines are
    skipped, the first line left is the header; when no line is left there
    are no columns to parse, which pandas reports as [EmptyDataError]. *)
Record frame : Type := mk_frame { cols : list string; rows : list (list Z) }.

Fixpoint split (sep : ascii) (s : string) : list string :=
  match s with
  | EmptyString => [EmptyString]
  | String c s' =>
      if Ascii.eqb c sep then EmptyString :: split sep s'
      else match split sep s' with
           | h :: t => String c h :: t
           | [] => [String c EmptyString]
           end
  end.

Fixpoint cut_comment (s : string) : string :=
  match s with
  | EmptyString => EmptyString
  | String c s' =>
      if Ascii.eqb c "#" then EmptyString else String c (cut_comment s')
  end.

Definition tab : ascii := ascii_of_nat 9.
Definition lf : ascii := ascii_of_nat 10.

Definition data_lines (text : string) : list string :=
  filter truthy_str (map cut_comment (split lf text)).

Definition parse_cell (s : string) : exn + Z :=
  match NilZero.int_of_string s with
  | Some d => inr (Z.of_int d)
  | None => inl (OtherError "ParserError" s)
  end.

Fixpoint parse_cells (l : list string) : exn + list Z :=
  match l with
  | [] => inr []
  | s :: l' =>
      match parse_cell s, parse_cells l' with
      | inr z, inr zs => inr (z :: zs)
      | inl e, _ => inl e
      | _, inl e => inl e
      end
  end.

Fixpoint parse_rows (l : list string) : exn + list (list Z) :=
  match l with
  | [] => inr []
  | s :: l' =>
      match parse_cells (split tab s), parse_rows l' with
      | inr r, inr rs => inr (r :: rs)
      | inl e, _ => inl e
      | _, inl e => inl e
      end
  end.

Definition read_table (text : string) : exn + frame :=
  match data_lines text with
  | [] => inl EmptyDataError
  | header :: data =>
      match parse_rows data with
      | inr rs => inr (mk_frame (split tab header) rs)
      | inl e => inl e
      end
  end.

Definition same_columns (a b : frame) : bool :=
  if list_eq_dec string_dec (cols a) (cols b) then true else false.

Definition concat_tables (first : frame) (more : list frame) : exn + frame :=
  if forallb (same_columns first) more
  then inr (mk_frame (cols first) (rows first ++ flat_map rows more))
  else inl (OtherError "NotModelled" "frames with different columns").

Fixpoint index_of (key : string) (cs : list string) : option nat :=
  match cs with
  | [] => None
  | c :: cs' =>
      if String.eqb c key then Some O else option_map S (index_of key cs')
  end.

Fixpoint key_indices (cs keys : list string) : exn + list nat :=
  match keys with
  | [] => inr []
  | k :: keys' =>
      match index_of k cs, key_indices cs keys' with
      | Some i, inr l => inr (i :: l)
      | None, _ => inl (KeyError k)
      | _, inl e => inl e
      end
  end.

(** [row_le idx r1 r2]: [r1] comes no later than [r2] by the columns
    [idx], the first deciding, the next breaking ties. *)
Fixpoint row_le (idx : list nat) (r1 r2 : list Z) : bool :=
  match idx with
  | [] => true
  | i :: idx' =>
      let a := nth i r1 0%Z in
      let b := nth i r2 0%Z in
      if Z.ltb a b then true
      else if Z.ltb b a then false
      else row_le idx' r1 r2
  end.

Fixpoint insert_row (idx : list nat) (r : list Z) (sorted : list (list Z))
  : list (list Z) :=
  match sorted with
  | [] => [r]
  | r' :: sorted' =>
      if row_le idx r r' then r :: sorted
      else r' :: insert_row idx r sorted'
  end.

Definition sort_rows (idx : list nat) (rs : list (list Z)) : list (list Z) :=
  fold_right (insert_row idx) [] rs.

Definition sort_table (df : frame) (keys : list string) : exn + frame :=
  match key_indices (cols df) keys with
  | inr idx => inr (mk_frame (cols df) (sort_rows idx (rows df)))
  | inl e => inl e
  end.

Definition tables_equal (a b : frame) : exn + unit :=
  if same_columns a b
     && if list_eq_dec (list_eq_dec Z.eq_dec) (rows a) (rows b)
        then true else false
  then inr tt
  else inl (AssertionError "DataFrame are different").

#[export] Instance int_tables : Pandas := {|
  DataFrame := frame;
  read_csv := read_table;
  concat := concat_tables;
  sort_values := sort_table;
  columns := cols;
  assert_frame_equal := tables_equal
|}.

#[export] Instance plain_unparser : Unparser := {|
  unparse := Ast.unparse_plain
|}.

(** *** Scripted processes

    The environment holds the name the next temporary directory gets and,
    for the launches to come, the files each one writes, its exit status
    and its output.  A launch beyond the script writes nothing and exits
    with status 0. *)
Record outcome : Type := mk_outcome {
  written : directory;
  status : Z;
  out_bytes : string;
  err_bytes : string
}.

Definition script : Type := (string * list outcome)%type.

#[export] Instance scripted : OS := {|
  env := script;
  mkdtemp := fun e => (e, fst e);
  run_process := fun e _ _ files =>
    match snd e with
    | [] => (e, files, (0%Z, EmptyString, EmptyString))
    | o :: more =>
        ((fst e, more), files ++ written o,
         (status o, out_bytes o, err_bytes o))
    end
|}.

Definition start (name : string) (outcomes : list outcome) : state :=
  mk_state (name, outcomes) [] [].

Definition header : string :=
  String.concat (String tab EmptyString) ["time_step"; "time_offset"; "sender"].

Definition line (cells : list Z) : string :=
  String.concat (String tab EmptyString) (map str_int cells).

Definition table (lines : list string) : string :=
  String.concat (String lf EmptyString) lines.

(** *** Files and runs *)

(** A spike file as a recorder writes it: a comment, the header, a line
    for each spike. *)
Definition spikes (events : list (list Z)) : string :=
  table ("# NEST spike recorder" :: header :: map line events).

(** A file with nothing but a comment, and one that stops at the header. *)
Definition comment_only : string := table ["# NEST spike recorder"].

Definition header_only : string := table ["# NEST spike recorder"; header].

Definition no_data_rows (text : string) : bool :=
  match data_lines text with
  | [] | [_] => true
  | _ => false
  end.

Definition rates_test : func := mk_func "test_rates" Ast.test_rates_file.

Definition assert_equal (levels : list Z) : self :=
  mk_self MPITestAssertEqual levels false None None None.

Definition assert_completes (levels : list Z) (debug : bool) : self :=
  mk_self MPITestAssertCompletes levels debug None None None.

Definition base_wrapper (levels : list Z) : self :=
  mk_self MPITestWrapper levels false None None None.

(** Bytes that are not UTF-8. *)
Definition garbled : string := String (ascii_of_nat 255) EmptyString.

Definition crash_garbled : outcome := mk_outcome [] 1 garbled "abort".

(** Two processes that write a multimeter file besides the spikes. *)
Definition two_processes_multi : outcome :=
  mk_outcome
    [("spike-2-0.dat", spikes [[3; 0; 5]; [1; 0; 5]; [2; 0; 6]]%Z);
     ("multi-2-0.dat", table [header])]
    0 EmptyString EmptyString.

(** One process writes the three spikes; two processes write the same
    spikes split over two files, in another order. *)
Definition one_process : outcome :=
  mk_outcome
    [("spike-1-0.dat", spikes [[1; 0; 5]; [2; 0; 6]; [3; 0; 5]]%Z)]
    0 EmptyString EmptyString.

Definition two_processes : outcome :=
  mk_outcome
    [("spike-2-0.dat", spikes [[3; 0; 5]; [1; 0; 5]]%Z);
     ("spike-2-1.dat", spikes [[2; 0; 6]]%Z)]
    0 EmptyString EmptyString.

(** Two processes where the second spike comes from another sender. *)
Definition two_processes_differ : outcome :=
  mk_outcome
    [("spike-2-0.dat", spikes [[3; 0; 5]; [1; 0; 5]]%Z);
     ("spike-2-1.dat", spikes [[2; 0; 7]]%Z)]
    0 EmptyString EmptyString.

(** Two processes that write files without spikes. *)
Definition two_processes_silent : outcome :=
  mk_outcome
    [("spike-2-0.dat", comment_only); ("spike-2-1.dat", comment_only)]
    0 EmptyString EmptyString.

(** A launch that fails. *)
Definition crash : outcome :=
  mk_outcome [] 1 "starting" "MPI_ABORT was invoked".

Definition tmp : string := "/tmp/tmpk3v9".

(** The directory after the launches of a script. *)
Definition directory_after (levels : list Z) (outcomes : list outcome)
  : directory :=
  st_files (fst (launch_levels rates_test [] [] levels (start tmp outcomes))).

(** A state with the files given, before anything is collected. *)
Definition at_files (files : directory) : state :=
  mk_state ((tmp, []) : script) files [].

(** The directory after one process has written spikes and two processes
    have written two files without any. *)
Definition silent_at_two : state :=
  at_files (directory_after [1; 2]%Z [one_process; two_processes_silent]).

(** The directory when level 2 is listed twice. *)
Definition level_two_twice : state :=
  at_files (directory_after [2; 2]%Z [two_processes]).

(** The directory with a multimeter file. *)
Definition with_multimeter : state :=
  at_files (directory_after [2]%Z [two_processes_multi]).

(** Spikes collected at one and at two processes, as [collect_results]
    leaves them in the attributes. *)
Definition collected_spikes : self :=
  match snd (collect_results (assert_equal [1; 2]%Z) tmp
               (at_files
                  (directory_after [1; 2]%Z [one_process; two_processes])))
  with
  | inr s => s
  | inl _ => assert_equal [1; 2]%Z
  end.

Definition sorted_spikes : frame :=
  mk_frame ["time_step"; "time_offset"; "sender"]%string
    [[1; 0; 5]; [2; 0; 6]; [3; 0; 5]]%Z.

(** The spikes of a level in one frame, in the order of the files: those
    of one process come sorted, those of two processes do not. *)
Definition concatenated_spikes (n : Z) : frame :=
  mk_frame ["time_step"; "time_offset"; "sender"]%string
    (if Z.eqb n 1 then [[1; 0; 5]; [2; 0; 6]; [3; 0; 5]]%Z
     else [[3; 0; 5]; [1; 0; 5]; [2; 0; 6]]%Z).

(** The same when the second spike of two processes has another sender:
    what is collected, the frame of each level and its sorted frame. *)
Definition collected_spikes_differ : self :=
  match snd (collect_results (assert_equal [1; 2]%Z) tmp
               (at_files
                  (directory_after [1; 2]%Z
                     [one_process; two_processes_differ])))
  with
  | inr s => s
  | inl _ => assert_equal [1; 2]%Z
  end.

Definition concatenated_differ (n : Z) : frame :=
  mk_frame ["time_step"; "time_offset"; "sender"]%string
    (if Z.eqb n 1 then [[1; 0; 5]; [2; 0; 6]; [3; 0; 5]]%Z
     else [[3; 0; 5]; [1; 0; 5]; [2; 0; 7]]%Z).

Definition sorted_differ (n : Z) : frame :=
  mk_frame ["time_step"; "time_offset"; "sender"]%string
    (if Z.eqb n 1 then [[1; 0; 5]; [2; 0; 6]; [3; 0; 5]]%Z
     else [[1; 0; 5]; [2; 0; 7]; [3; 0; 5]]%Z).

(** A directory in which the spike files of both levels stop at the
    header. *)
Definition header_only_at_both : state :=
  at_files [("spike-1-0.dat"%string, header_only);
            ("spike-2-0.dat"%string, header_only)].


(** The reading of the specification: a file without data rows, read for
    a level, has an empty frame in the list of that level. *)
Definition file_without_rows_gives_empty_frame : Prop :=
  forall (s : self) (tmpdirpath : string) (st : state) (k : kind) (n : Z)
         (f : string * string),
    In n (_procs_lst s) ->
    st_files st = [f] ->
    fnmatch (level_pattern k n) (fst f) = true ->
    no_data_rows (snd f) = true ->
    exists st' d frames df,
      _collect_result_by_label s tmpdirpath (label_of k) st
      = (st', inr (Some d))
      /\ dict_get n d = Some frames
      /\ In df frames /\ rows df = [].

End Sample.

(* ===================================================================== *)
(** * Properties *)
(* ===================================================================== *)

(** ** Source isolation *)

Module AstProps.

Import Ast.

(** Induction over statements with the statements of every block as
    induction hypotheses. *)
Section StmtInduction.

Variable P : stmt -> Prop.
Variable Q : excepthandler -> Prop.
Variable R : match_case -> Prop.

Hypothesis HFunctionDef :
  forall n a b d r, Forall P b -> P (FunctionDef n a b d r).
Hypothesis HAsyncFunctionDef :
  forall n a b d r, Forall P b -> P (AsyncFunctionDef n a b d r).
Hypothesis HClassDef : forall n bs b d, Forall P b -> P (ClassDef n bs b d).
Hypothesis HImport : forall names, P (Import names).
Hypothesis HImportFrom : forall m names l, P (ImportFrom m names l).
Hypothesis HIf : forall t b o, Forall P b -> Forall P o -> P (If t b o).
Hypothesis HFor : forall t i b o, Forall P b -> Forall P o -> P (For t i b o).
Hypothesis HWhile : forall t b o, Forall P b -> Forall P o -> P (While t b o).
Hypothesis HWith : forall i b, Forall P b -> P (With i b).
Hypothesis HTry :
  forall b hs o f,
    Forall P b -> Forall Q hs -> Forall P o -> Forall P f -> P (Try b hs o f).
Hypothesis HAsyncFor :
  forall t i b o, Forall P b -> Forall P o -> P (AsyncFor t i b o).
Hypothesis HAsyncWith : forall i b, Forall P b -> P (AsyncWith i b).
Hypothesis HMatch : forall e cs, Forall R cs -> P (Match e cs).
Hypothesis HTryStar :
  forall b hs o f,
    Forall P b -> Forall Q hs -> Forall P o -> Forall P f ->
    P (TryStar b hs o f).
Hypothesis HSimple : forall src, P (Simple src).
Hypothesis HExceptHandler :
  forall t n b, Forall P b -> Q (ExceptHandler t n b).
Hypothesis HMatchCase :
  forall p g b, Forall P b -> R (MatchCase p g b).

Fixpoint stmt_induction (s : stmt) : P s :=
  let block :=
    fix block (l : list stmt) : Forall P l :=
      match l with
      | [] => Forall_nil P
      | x :: l' => Forall_cons x (stmt_induction x) (block l')
      end in
  match s with
  | FunctionDef n a b d r => HFunctionDef n a b d r (block b)
  | AsyncFunctionDef n a b d r => HAsyncFunctionDef n a b d r (block b)
  | ClassDef n bs b d => HClassDef n bs b d (block b)
  | Import names => HImport names
  | ImportFrom m names l => HImportFrom m names l
  | If t b o => HIf t b o (block b) (block o)
  | For t i b o => HFor t i b o (block b) (block o)
  | While t b o => HWhile t b o (block b) (block o)
  | With i b => HWith i b (block b)
  | Try b hs o f =>
      HTry b hs o f (block b)
        ((fix handlers (l : list excepthandler) : Forall Q l :=
            match l with
            | [] => Forall_nil Q
            | h :: l' => Forall_cons h (handler_induction h) (handlers l')
            end) hs)
        (block o) (block f)
  | AsyncFor t i b o => HAsyncFor t i b o (block b) (block o)
  | AsyncWith i b => HAsyncWith i b (block b)
  | Match e cs =>
      HMatch e cs
        ((fix cases (l : list match_case) : Forall R l :=
            match l with
            | [] => Forall_nil R
            | c :: l' => Forall_cons c (case_induction c) (cases l')
            end) cs)
  | TryStar b hs o f =>
      HTryStar b hs o f (block b)
        ((fix handlers (l : list excepthandler) : Forall Q l :=
            match l with
            | [] => Forall_nil Q
            | h :: l' => Forall_cons h (handler_induction h) (handlers l')
            end) hs)
        (block o) (block f)
  | Simple src => HSimple src
  end
with handler_induction (h : excepthandler) : Q h :=
  match h with
  | ExceptHandler t n b =>
      HExceptHandler t n b
        ((fix block (l : list stmt) : Forall P l :=
            match l with
            | [] => Forall_nil P
            | x :: l' => Forall_cons x (stmt_induction x) (block l')
            end) b)
  end
with case_induction (c : match_case) : R c :=
  match c with
  | MatchCase p g b =>
      HMatchCase p g b
        ((fix block (l : list stmt) : Forall P l :=
            match l with
            | [] => Forall_nil P
            | x :: l' => Forall_cons x (stmt_induction x) (block l')
            end) b)
  end.

End StmtInduction.

(** *** [generic_visit] on lists *)

Lemma visit_list_nil {A} (v : A -> option A) : visit_list v [] = [].
Proof. reflexivity. Qed.

Lemma visit_list_cons {A} (v : A -> option A) x l :
  visit_list v (x :: l)
  = match v x with
    | Some x' => x' :: visit_list v l
    | None => visit_list v l
    end.
Proof. reflexivity. Qed.

Lemma visit_list_fixed {A} (v : A -> option A) (ok : A -> bool) l :
  Forall (fun x => ok x = true -> v x = Some x) l ->
  forallb ok l = true -> visit_list v l = l.
Proof.
  induction 1 as [|x l Hx _ IH]; intros Hok; [reflexivity|].
  cbn [forallb] in Hok. apply andb_true_iff in Hok as [Hx' Hl].
  rewrite visit_list_cons, (Hx Hx'), (IH Hl). reflexivity.
Qed.

Lemma visit_list_post {A} (v : A -> option A) (ok : A -> bool) l :
  Forall (fun x => forall x', v x = Some x' -> ok x' = true) l ->
  forallb ok (visit_list v l) = true.
Proof.
  induction 1 as [|x l Hx _ IH]; [reflexivity|].
  rewrite visit_list_cons. destruct (v x) as [x'|] eqn:E; [|exact IH].
  cbn [forallb]. rewrite (Hx x' eq_refl), IH. reflexivity.
Qed.

Lemma visit_list_In {A} (v : A -> option A) l x x' :
  In x l -> v x = Some x' -> In x' (visit_list v l).
Proof.
  induction l as [|y l IH]; intros Hin Hv; [contradiction|].
  rewrite visit_list_cons. destruct Hin as [->|Hin].
  - rewrite Hv. left. reflexivity.
  - destruct (v y); [right|]; auto.
Qed.

Lemma visit_list_In_inv {A} (v : A -> option A) l x' :
  In x' (visit_list v l) -> exists x, In x l /\ v x = Some x'.
Proof.
  induction l as [|y l IH]; intros Hin; [contradiction|].
  rewrite visit_list_cons in Hin. destruct (v y) as [y'|] eqn:E.
  - destruct Hin as [<-|Hin].
    + exists y. split; [left; reflexivity|exact E].
    + destruct (IH Hin) as (x & Hx & Hv). exists x. split; [right|]; auto.
  - destruct (IH Hin) as (x & Hx & Hv). exists x. split; [right|]; auto.
Qed.

Lemma forallb_weaken {A} (p q : A -> bool) l :
  Forall (fun x => p x = true -> q x = true) l ->
  forallb p l = true -> forallb q l = true.
Proof.
  induction 1 as [|x l Hx _ IH]; intros Hp; [reflexivity|].
  cbn [forallb] in *. apply andb_true_iff in Hp as [H1 H2].
  rewrite (Hx H1), (IH H2). reflexivity.
Qed.

(** *** The transformer on statements *)

Ltac split_andb :=
  repeat match goal with
         | H : (_ && _)%bool = true |- _ => apply andb_true_iff in H as [? ?]
         end.

(** A statement with nothing to remove is returned as it is. *)
Lemma visit_isolated s : isolated s = true -> visit s = Some s.
Proof.
  revert s.
  apply (stmt_induction
           (fun s => isolated s = true -> visit s = Some s)
           (fun h => isolated_handler h = true -> visit_handler h = Some h)
           (fun c => isolated_case c = true -> visit_case c = Some c));
    cbn [isolated isolated_handler isolated_case
         visit visit_handler visit_case]; intros;
    split_andb;
    repeat match goal with
           | HF : Forall _ ?l, Hb : forallb _ ?l = true |- _ =>
               rewrite (visit_list_fixed _ _ l HF Hb); clear HF
           end;
    try reflexivity.
  - destruct d; [reflexivity|discriminate].
  - rewrite H. reflexivity.
  - rewrite H. reflexivity.
Qed.

(** What the transformer returns has nothing left to remove. *)
Lemma visit_post s : forall s', visit s = Some s' -> isolated s' = true.
Proof.
  revert s.
  apply (stmt_induction
           (fun s => forall s', visit s = Some s' -> isolated s' = true)
           (fun h => forall h', visit_handler h = Some h' ->
                                isolated_handler h' = true)
           (fun c => forall c', visit_case c = Some c' ->
                                isolated_case c' = true));
    cbn [visit visit_handler visit_case]; intros;
    repeat match goal with
           | H : Some _ = Some _ |- _ => injection H as <-
           end;
    cbn [isolated isolated_handler isolated_case];
    repeat match goal with
           | HF : Forall _ ?l |- _ =>
               rewrite (visit_list_post _ _ l HF); clear HF
           end;
    try reflexivity.
  - destruct (imports_MPITest names) eqn:E; cbn in H; [discriminate|].
    injection H as <-. cbn. rewrite E. reflexivity.
  - destruct (imports_MPITest names) eqn:E; cbn in H; [discriminate|].
    injection H as <-. cbn. rewrite E. reflexivity.
Qed.

(** A source without any decorator and without [MPITest*] import has
    nothing to remove. *)
Lemma plain_isolated s : plain s = true -> isolated s = true.
Proof.
  revert s.
  apply (stmt_induction
           (fun s => plain s = true -> isolated s = true)
           (fun h => plain_handler h = true -> isolated_handler h = true)
           (fun c => plain_case c = true -> isolated_case c = true));
    cbn [plain plain_handler plain_case
         isolated isolated_handler isolated_case]; intros;
    split_andb;
    repeat match goal with
           | HF : Forall _ ?l, Hb : forallb _ ?l = true |- _ =>
               rewrite (forallb_weaken _ _ l HF Hb); clear HF
           end;
    auto.
Qed.

Lemma visit_Module_fixed tree :
  forallb isolated (mod_body tree) = true -> visit_Module tree = tree.
Proof.
  destruct tree as [b]. unfold visit_Module. cbn [mod_body]. intros H.
  rewrite (visit_list_fixed visit isolated); auto.
  apply Forall_forall. intros s _. apply visit_isolated.
Qed.

Lemma visit_Module_post tree :
  forallb isolated (mod_body (visit_Module tree)) = true.
Proof.
  destruct tree as [b]. cbn [visit_Module mod_body].
  apply visit_list_post, Forall_forall. intros s _. apply visit_post.
Qed.

Lemma visit_Module_idempotent tree :
  visit_Module (visit_Module tree) = visit_Module tree.
Proof. apply visit_Module_fixed, visit_Module_post. Qed.

(** C2, as the specification words it, fails: isolating the source file
    of [test_rates] changes the class [Rates], which is neither the
    definition of the procedure nor an import: the decorator of its method
    [low] is removed as well. *)
Lemma isolation_touches_other_definitions :
  ~ only_procedure_and_imports_touched "test_rates" test_rates_file.
Proof.
  intros H.
  assert (Hin : In rates_class (mod_body (visit_Module test_rates_file))).
  { apply H; [cbn; tauto|reflexivity|reflexivity]. }
  cbn in Hin.
  destruct Hin as [Hin|[Hin|[Hin|[]]]]; discriminate Hin.
Qed.

(** The transformer searches the blocks of [async def], [async for],
    [async with], [match] and [try] with [except*]. *)
Example compound_statements_are_searched :
  visit_Module async_file = async_file_isolated.
Proof. reflexivity. Qed.

(** A block whose only statement is removed is left without statement. *)
Example block_can_become_empty :
  visit (If (Expr "True")
           [ImportFrom (Some "mpi_test_wrapper")
              [mk_alias "MPITestAssertEqual" None] 0] [])
  = Some (If (Expr "True") [] []).
Proof. reflexivity. Qed.

(** *** What the transformer reaches, and what it leaves as it is *)

Lemma reached_after_visit_list {A B} (v : A -> option A)
      (f : A -> list B) (k : B -> list B) (l : list A) :
  Forall (fun x => match v x with
                   | Some x' => f x' = flat_map k (f x)
                   | None => flat_map k (f x) = []
                   end) l ->
  flat_map f (visit_list v l) = flat_map k (flat_map f l).
Proof.
  induction 1 as [|x l Hx _ IH]; [reflexivity|].
  rewrite visit_list_cons. cbn [flat_map]. rewrite flat_map_app.
  destruct (v x) as [x'|].
  - cbn [flat_map]. rewrite Hx, IH. reflexivity.
  - rewrite Hx, IH. reflexivity.
Qed.

(** The reached definitions and imports of the visit of a statement are
    those of the statement, without the [MPITest*] imports and without
    decorators. *)
Lemma reached_after_visit (s : stmt) :
  match visit s with
  | Some s' => reached s' = flat_map without_harness (reached s)
  | None => flat_map without_harness (reached s) = []
  end.
Proof.
  revert s.
  apply (stmt_induction
           (fun s => match visit s with
                     | Some s' =>
                         reached s' = flat_map without_harness (reached s)
                     | None => flat_map without_harness (reached s) = []
                     end)
           (fun h => match visit_handler h with
                     | Some h' =>
                         reached_handler h'
                         = flat_map without_harness (reached_handler h)
                     | None =>
                         flat_map without_harness (reached_handler h) = []
                     end)
           (fun c => match visit_case c with
                     | Some c' =>
                         reached_case c'
                         = flat_map without_harness (reached_case c)
                     | None =>
                         flat_map without_harness (reached_case c) = []
                     end));
    cbn [visit visit_handler visit_case]; intros;
    try (unfold without_harness; cbn;
         destruct (imports_MPITest names); reflexivity);
    cbn [reached reached_handler reached_case];
    rewrite ?flat_map_app;
    repeat match goal with
           | HF : Forall _ ?l |- _ =>
               rewrite (reached_after_visit_list _ _ _ l HF); clear HF
           end;
    reflexivity.
Qed.

Lemma erase_after_visit_list {A} (v e : A -> option A) (l : list A) :
  Forall (fun x => match v x with
                   | Some x' => e x' = e x
                   | None => e x = None
                   end) l ->
  visit_list e (visit_list v l) = visit_list e l.
Proof.
  induction 1 as [|x l Hx _ IH]; [reflexivity|].
  rewrite !visit_list_cons. destruct (v x) as [x'|].
  - rewrite visit_list_cons, Hx, IH. reflexivity.
  - rewrite Hx. exact IH.
Qed.

Lemma erase_after_visit (s : stmt) :
  match visit s with
  | Some s' => erase s' = erase s
  | None => erase s = None
  end.
Proof.
  revert s.
  apply (stmt_induction
           (fun s => match visit s with
                     | Some s' => erase s' = erase s
                     | None => erase s = None
                     end)
           (fun h => match visit_handler h with
                     | Some h' => erase_handler h' = erase_handler h
                     | None => erase_handler h = None
                     end)
           (fun c => match visit_case c with
                     | Some c' => erase_case c' = erase_case c
                     | None => erase_case c = None
                     end));
    cbn [visit visit_handler visit_case]; intros;
    try (destruct (negb (imports_MPITest names)); reflexivity);
    cbn [erase erase_handler erase_case];
    repeat match goal with
           | HF : Forall _ ?l |- _ =>
               rewrite (erase_after_visit_list _ _ l HF); clear HF
           end;
    reflexivity.
Qed.

(** C2, amended: source isolation works on the tree of the whole source
    file of the procedure.  Of the function definitions ([def]) and import
    statements outside the body of every [def] (at module level, in class
    bodies, in the bodies of [async def] and in the blocks of compound
    statements, at any depth), taken in source order, the output holds
    every function definition with its name, arguments, body and return
    annotation as they were and without decorators, and every import
    statement that names no [MPITest*] entity, and no import statement
    that names one.  Apart from import statements and decorators of
    function definitions the output is the tree of the input.  In
    particular no reached function definition of the output has a
    decorator and no reached import names an [MPITest*] entity; a
    statement of the file that had none of these is in the output as it
    was; a function definition of the file is in the output without
    decorators and with its body unvisited; and every statement of the
    output is the visit of a statement of the input. *)
Theorem isolation_clears_reached_decorators_and_imports (tree : pymod) :
  let out := mod_body (visit_Module tree) in
  flat_map reached out
  = flat_map without_harness (flat_map reached (mod_body tree))
  /\ visit_list erase out = visit_list erase (mod_body tree)
  /\ forallb isolated out = true
  /\ (forall s, In s (mod_body tree) -> isolated s = true -> In s out)
  /\ (forall n a b d r,
        In (FunctionDef n a b d r) (mod_body tree) ->
        In (FunctionDef n a b [] r) out)
  /\ (forall s', In s' out ->
                 exists s, In s (mod_body tree) /\ visit s = Some s').
Proof.
  cbv zeta. destruct tree as [body]. cbn [visit_Module mod_body].
  split; [|split; [|split; [|split; [|split]]]].
  - apply reached_after_visit_list, Forall_forall. intros s _.
    apply reached_after_visit.
  - apply erase_after_visit_list, Forall_forall. intros s _.
    apply erase_after_visit.
  - apply (visit_Module_post (Module body)).
  - intros s Hin Hs. apply (visit_list_In visit body s s Hin).
    apply visit_isolated, Hs.
  - intros n a b d r Hin.
    apply (visit_list_In visit body _ _ Hin). reflexivity.
  - intros s'. apply visit_list_In_inv.
Qed.

(** On the file of [test_rates]: the method [low] of the class [Rates]
    and [test_rates] itself lose their decorators, the import of the
    harness is gone and that of [pytest] stays; the import inside the body
    of [test_rates] is not reached.  On the file with the other compound
    statements: the definitions in the blocks of [async def], [async for],
    [match] and in the class lose their decorators and keep their
    bodies. *)
Lemma isolation_clears_reached_decorators_and_imports_run :
  let out := mod_body (visit_Module test_rates_file) in
  flat_map reached out
  = [Import [mk_alias "pytest" None];
     FunctionDef "low" "" [Simple "return 10.0"] [] None;
     test_rates_def []]
  /\ In (ClassDef "Rates" []
           [FunctionDef "low" "" [Simple "return 10.0"] [] None] []) out
  /\ In (Import [mk_alias "pytest" None]) out
  /\ In (test_rates_def []) out
  /\ flat_map reached (mod_body (visit_Module async_file))
     = [Import [mk_alias "pytest" None];
        FunctionDef "inner" "" [Simple "pass"] [] None;
        FunctionDef "g" "" [Import [mk_alias "MPITestZ" None]] [] None;
        FunctionDef "h" "" [Simple "pass"] [] None;
        Import [mk_alias "json" None];
        FunctionDef "low" "" [Simple "return 1"] [] None].
Proof.
  destruct (isolation_clears_reached_decorators_and_imports test_rates_file)
    as (H1 & _ & _ & H4 & H5 & _).
  split; [exact H1|]. split; [cbn; tauto|]. split; [|split].
  - apply H4; [cbn; tauto|reflexivity].
  - apply (H5 "test_rates" ""%string _
             [Expr "pytest.mark.skipif_incompatible_mpi";
              Expr "MPITestAssertEqual([1, 2, 4])"] None).
    cbn. tauto.
  - exact (proj1 (isolation_clears_reached_decorators_and_imports
                    async_file)).
Defined.

(** C8: when the source of a procedure holds no decorator and no import
    of an [MPITest*] entity, isolating it gives the text of its tree
    unchanged, and isolating the result again gives the same text, for
    any printer in the place of [ast.unparse]. *)
Theorem isolation_idempotent (unparse : pymod -> string) (tree : pymod) :
  forallb plain (mod_body tree) = true ->
  _pure_test_func unparse tree = unparse tree
  /\ _pure_test_func unparse (visit_Module tree)
     = _pure_test_func unparse tree.
Proof.
  intros Hplain. unfold _pure_test_func.
  assert (Hfix : visit_Module tree = tree).
  { apply visit_Module_fixed.
    apply (forallb_weaken plain isolated); [|exact Hplain].
    apply Forall_forall. intros s _. apply plain_isolated. }
  rewrite visit_Module_idempotent, Hfix. split; reflexivity.
Qed.

Lemma isolation_idempotent_run :
  forallb plain (mod_body test_rates_plain) = true
  /\ _pure_test_func unparse_plain test_rates_plain
     = unparse_plain test_rates_plain
  /\ _pure_test_func unparse_plain (visit_Module test_rates_plain)
     = _pure_test_func unparse_plain test_rates_plain.
Proof.
  split; [reflexivity|].
  apply (isolation_idempotent unparse_plain test_rates_plain).
  reflexivity.
Defined.

End AstProps.

(** ** Strings *)

Module PyProps.

Import Py.

Local Open Scope string_scope.

Lemma endswith_intro (p suf : string) : endswith (p ++ suf) suf = true.
Proof.
  induction p as [|c p IH]; cbn.
  - destruct suf; cbn; [reflexivity|].
    rewrite Ascii.eqb_refl, String.eqb_refl. reflexivity.
  - rewrite IH. apply orb_true_r.
Qed.

Lemma endswith_elim (s suf : string) :
  endswith s suf = true -> exists p, s = p ++ suf.
Proof.
  induction s as [|c s IH]; cbn [endswith]; intros H.
  - apply orb_true_iff in H as [H|H]; [|discriminate].
    apply String.eqb_eq in H. exists "". now subst.
  - apply orb_true_iff in H as [H|H].
    + apply String.eqb_eq in H. exists "". now subst.
    + destruct (IH H) as [p ->]. exists (String c p). reflexivity.
Qed.

Lemma append_assoc (a b c : string) : (a ++ b) ++ c = a ++ b ++ c.
Proof. induction a as [|ch a IH]; cbn; [reflexivity|now rewrite IH]. Qed.

(** [str] tells integers apart. *)
Lemma str_int_inj (a b : Z) : str_int a = str_int b -> a = b.
Proof.
  unfold str_int. intros E.
  assert (E' : Some (Z.to_int a) = Some (Z.to_int b)).
  { rewrite <- (NilEmpty.isi (Z.to_int a)), <- (NilEmpty.isi (Z.to_int b)).
    now rewrite E. }
  injection E' as E'.
  rewrite <- (DecimalZ.of_to a), <- (DecimalZ.of_to b). now rewrite E'.
Qed.

End PyProps.

(** ** Argument rendering *)

Module ParamsProps.

Import Params.

Local Open Scope string_scope.

Lemma truthy_str_true s : Py.truthy_str s = true <-> s <> "".
Proof. destruct s; cbn; split; congruence. Qed.

Lemma join_cons sep x y l :
  Py.join sep (x :: y :: l) = x ++ sep ++ Py.join sep (y :: l).
Proof. reflexivity. Qed.

Lemma append_nil_r (a : string) : a ++ "" = a.
Proof. induction a as [|ch a IH]; cbn; [reflexivity|now rewrite IH]. Qed.

Lemma append_nonempty_l (a b : string) : a <> "" -> a ++ b <> "".
Proof. destruct a; cbn; congruence. Qed.

Lemma join_app sep (l1 l2 : list string) :
  l1 <> [] -> l2 <> [] ->
  Py.join sep (l1 ++ l2)%list = Py.join sep l1 ++ sep ++ Py.join sep l2.
Proof.
  intros H1 H2. induction l1 as [|x l1 IH]; [congruence|].
  destruct l1 as [|y l1].
  - destruct l2 as [|z l2]; [congruence|]. reflexivity.
  - change ((x :: y :: l1) ++ l2)%list with (x :: y :: (l1 ++ l2))%list.
    rewrite !join_cons.
    change (y :: (l1 ++ l2))%list with ((y :: l1) ++ l2)%list.
    rewrite IH by congruence. now rewrite !PyProps.append_assoc.
Qed.

Lemma join_nonempty sep x l : x <> "" -> Py.join sep (x :: l) <> "".
Proof.
  intros Hx. destruct l; [exact Hx|].
  rewrite join_cons. now apply append_nonempty_l.
Qed.

Lemma keyword_nonempty (kv : string * pyobj) :
  fst kv ++ "=" ++ field (snd kv) <> "".
Proof. destruct (fst kv); cbn; congruence. Qed.

(** C4, as the specification words it, fails: the built-in [len] is
    callable, yet it is rendered as [<built-in function len>], not by its
    name. *)
Lemma builtin_not_rendered_by_name :
  callable (PyBuiltin "len") = true /\ ~ rendered_as_specified (PyBuiltin "len").
Proof. split; [reflexivity|]. unfold rendered_as_specified. cbn. congruence. Qed.

(** A string argument is rendered without its quotes. *)
Example string_rendered_by_str :
  field (PyStr "abc") = "abc" /\ repr (PyStr "abc") = "'abc'".
Proof. split; reflexivity. Qed.

(** Without a positional argument that renders as the empty text, the
    rendered arguments are one list: the positional ones, then the keyword
    ones as [key=value]. *)
Lemma params_as_str_flat
  (args : list pyobj) (kwargs : list (string * pyobj)) :
  (forall a, In a args -> field a <> "") ->
  _params_as_str args kwargs = call_arguments_text args kwargs.
Proof.
  intros Hargs.
  unfold _params_as_str, call_arguments_text.
  set (kw := map (fun kv => fst kv ++ "=" ++ field (snd kv)) kwargs).
  destruct args as [|a args].
  - cbn [map app filter Py.join Py.truthy_str].
    destruct (Py.truthy_str (Py.join ", " kw)) eqn:E; [reflexivity|].
    destruct (Py.join ", " kw); [reflexivity|discriminate].
  - assert (Ha : Py.join ", " (map field (a :: args)) <> "").
    { apply join_nonempty, Hargs. left. reflexivity. }
    cbn [filter]. apply truthy_str_true in Ha as Ha'. rewrite Ha'.
    destruct kwargs as [|kv kwargs].
    + subst kw. cbn [map filter Py.join Py.truthy_str].
      now rewrite app_nil_r.
    + assert (Hk : Py.join ", " kw <> "").
      { subst kw. cbn [map]. apply join_nonempty, keyword_nonempty. }
      apply truthy_str_true in Hk as Hk'. rewrite Hk'.
      rewrite join_app; [|cbn; congruence|subst kw; cbn; congruence].
      cbn [Py.join]. reflexivity.
Qed.

Lemma str_int_nonempty (n : Z) : Py.str_int n <> "".
Proof.
  unfold Py.str_int. destruct n as [|p|p]; cbn; try discriminate.
  pose proof (DecimalPos.Unsigned.to_uint_nonnil p) as Hp.
  destruct (Pos.to_uint p); cbn; congruence.
Qed.

(** A Python function, and an argument that is neither callable nor a
    string, is rendered as the specification words it. *)
Lemma field_as_specified (v : pyobj) :
  isfunction v = true \/ (callable v = false /\ is_string v = false) ->
  field v = specified_rendering v.
Proof.
  intros [H|[H1 H2]]; destruct v; try discriminate; reflexivity.
Qed.

Lemma field_nonempty (v : pyobj) :
  isfunction v = true \/ (callable v = false /\ is_string v = false) ->
  (isfunction v = true -> __name__ v <> "") ->
  field v <> "".
Proof.
  intros [H|[H1 H2]] Hn; destruct v; try discriminate.
  - exact (Hn eq_refl).
  - apply str_int_nonempty.
  - destruct b; discriminate.
Qed.

(** C4, amended: argument rendering produces the call-argument text with
    the positional arguments first and the keyword arguments as
    [key=value] pairs after them, where every argument that is a Python
    function ([inspect.isfunction]: made by [def] or [lambda], with its
    name) is rendered by its name and every argument that is neither
    callable nor a string (an integer, a boolean, [None]) by its literal
    representation; the arguments [(3, key=4)] of [f] give the call
    [f(3, key=4)] and a function named [myfunc] gives [myfunc]. *)
Theorem params_positional_then_keywords
  (args : list pyobj) (kwargs : list (string * pyobj)) :
  (forall v, In v (args ++ map snd kwargs)%list ->
             isfunction v = true
             \/ (callable v = false /\ is_string v = false)) ->
  (forall v, In v args -> isfunction v = true -> __name__ v <> "") ->
  _params_as_str args kwargs = specified_text args kwargs
  /\ "f" ++ "(" ++ _params_as_str [PyInt 3] [("key", PyInt 4)] ++ ")"
     = "f(3, key=4)"
  /\ (forall address, _params_as_str [PyFunction "myfunc" address] []
                      = "myfunc").
Proof.
  intros Hdom Hname. split; [|split; reflexivity].
  rewrite params_as_str_flat.
  - unfold call_arguments_text, specified_text. f_equal. f_equal.
    + apply map_ext_in. intros v Hv. apply field_as_specified, Hdom.
      apply in_or_app. left. exact Hv.
    + apply map_ext_in. intros kv Hkv. f_equal. f_equal.
      apply field_as_specified, Hdom. apply in_or_app. right.
      apply in_map. exact Hkv.
  - intros a Ha. apply field_nonempty.
    + apply Hdom, in_or_app. left. exact Ha.
    + apply Hname, Ha.
Qed.

Lemma params_positional_then_keywords_run :
  _params_as_str [PyInt 3; PyFunction "myfunc" "7f3a"]
    [("key", PyInt 4); ("flag", PyBool true); ("seed", PyNone)]
  = "3, myfunc, key=4, flag=True, seed=None".
Proof.
  refine (eq_trans
            (proj1 (params_positional_then_keywords
                      [PyInt 3; PyFunction "myfunc" "7f3a"]
                      [("key", PyInt 4); ("flag", PyBool true);
                       ("seed", PyNone)] _ _))
            eq_refl).
  - intros v [<-|[<-|[<-|[<-|[<-|[]]]]]]; cbn; auto.
  - intros v [<-|[<-|[]]] H; cbn in *; discriminate.
Defined.

End ParamsProps.


(** ** The wrapper *)

Module HarnessProps.

Import Py Harness.

Section Facts.

Context {os : OS} {up : Unparser} {pandas : Pandas}.

(** *** Dictionaries *)

Lemma dict_get_set_same {V} (k : Z) (v : V) d :
  dict_get k (dict_set k v d) = Some v.
Proof.
  induction d as [|[k' v'] d IH]; cbn.
  - now rewrite Z.eqb_refl.
  - destruct (Z.eqb k k') eqn:E; cbn; rewrite ?E, ?Z.eqb_refl; auto.
Qed.

Lemma dict_get_set_other {V} (k k' : Z) (v : V) d :
  k' <> k -> dict_get k' (dict_set k v d) = dict_get k' d.
Proof.
  intros Hne. induction d as [|[k0 v0] d IH]; cbn.
  - destruct (Z.eqb k' k) eqn:E; [apply Z.eqb_eq in E; congruence|reflexivity].
  - destruct (Z.eqb k k0) eqn:E; cbn.
    + apply Z.eqb_eq in E. subst k0.
      destruct (Z.eqb k' k) eqn:E'; [apply Z.eqb_eq in E'; congruence|].
      reflexivity.
    + destruct (Z.eqb k' k0); auto.
Qed.

Lemma filter_none {A} (p : A -> bool) l :
  (forall x, In x l -> p x = false) -> filter p l = [].
Proof.
  induction l as [|x l IH]; intros H; [reflexivity|].
  cbn. rewrite (H x (or_introl eq_refl)). apply IH. intros y Hy.
  apply H. now right.
Qed.

(** *** Labels and patterns *)

Lemma complete_label_of (k : kind) :
  complete_label (label_of k) = inr (stem k ++ "-{}-{}.dat")%string.
Proof. destruct k; reflexivity. Qed.

Lemma format_any_level (k : kind) :
  format (stem k ++ "-{}-{}.dat") ["*"; "*"]%string
  = inr (any_level_pattern k).
Proof. destruct k; reflexivity. Qed.

Lemma format_level (k : kind) (n : Z) :
  format (stem k ++ "-{}-{}.dat") [str_int n; "*"%string]
  = inr (level_pattern k n).
Proof. destruct k; reflexivity. Qed.

(** C7, amended: a [procs_lst] that is not iterable is reported as a
    [TypeError] by the constructor, which leaves the world as it is, so
    before any process is spawned; a list of levels, the empty list
    included, is accepted by the constructor. *)
Theorem init_rejects_what_is_not_iterable
  (c : wrapper_class) (procs_lst : procs_arg) (debug : bool) (st : state) :
  (iterable procs_lst = false ->
   __init__ c procs_lst debug st
   = (st, inl (TypeError "procs_lst must be a list of numbers")))
  /\ (forall l, procs_lst = Levels l ->
                __init__ c procs_lst debug st
                = (st, inr (mk_self c l debug None None None))).
Proof.
  split.
  - destruct procs_lst; cbn; intros; [reflexivity|reflexivity|discriminate].
  - intros l ->. reflexivity.
Qed.

(** The globs of the loop over the levels: one pattern per level, made
    from the label and the level. *)
Lemma collect_levels_globs (tmpdirpath label : string) (procs_lst : list Z) :
  forall (res : dict (list DataFrame)) (st : state),
  exists st' r patterns,
    collect_levels tmpdirpath label procs_lst res st = (st', r)
    /\ st_trace st' = st_trace st ++ map (Glob tmpdirpath) patterns
    /\ forall p, In p patterns ->
                 exists n, In n procs_lst
                           /\ format label [str_int n; "*"%string] = inr p.
Proof.
  induction procs_lst as [|m rest IH]; intros res st.
  - exists st, (inr res), []. cbn. rewrite app_nil_r.
    repeat split. intros p [].
  - cbn [collect_levels]. unfold bind at 1, lift at 1.
    destruct (format label [str_int m; "*"%string]) as [e|pat] eqn:F.
    + exists st, (inl e), []. cbn. rewrite app_nil_r.
      repeat split. intros p [].
    + unfold bind at 1, glob at 1. unfold bind at 1, lift at 1.
      destruct (read_frames _ []) as [e|data].
      * eexists _, (inl e), [pat]. cbn [st_trace map].
        repeat split. intros p [<-|[]]. exists m. split; [left|]; auto.
      * match goal with
        | |- context [collect_levels _ _ rest ?d ?st1] =>
            destruct (IH d st1) as (st' & r & patterns & E & Ht & Hp)
        end.
        exists st', r, (pat :: patterns). rewrite E.
        split; [reflexivity|]. split.
        -- rewrite Ht. cbn [st_trace map]. rewrite <- app_assoc. reflexivity.
        -- intros p [<-|Hin].
           ++ exists m. split; [left|]; auto.
           ++ destruct (Hp p Hin) as (n & Hn & Hf).
              exists n. split; [right|]; auto.
Qed.

(** C9: a label that ends neither with [-{}-{}.dat] nor with [-{}] makes
    the collector fail with an [AssertionError] in the state it started
    in, so before any glob.  A label that ends with one of the two passes
    the assertion: the collector goes on with the label itself when it
    ends with [-{}-{}.dat] and with the label followed by [-{}.dat]
    otherwise, which ends with [-{}-{}.dat] as well; its first glob is for
    that label with [*] for both fields, and each further glob is for that
    label with a configured level and [*].  So the label asserted is the
    one of the two-field form that names the files looked for. *)
Theorem label_suffix_is_asserted
  (s : self) (tmpdirpath label : string) (st : state) :
  (endswith label "-{}-{}.dat" = false -> endswith label "-{}" = false ->
   _collect_result_by_label s tmpdirpath label st
   = (st, inl (AssertionError "")))
  /\ (endswith label "-{}-{}.dat" = true \/ endswith label "-{}" = true ->
      let label' := if endswith label "-{}-{}.dat" then label
                    else (label ++ "-{}.dat")%string in
      complete_label label = inr label'
      /\ endswith label' "-{}-{}.dat" = true
      /\ (forall e, format label' ["*"; "*"]%string = inl e ->
                    _collect_result_by_label s tmpdirpath label st
                    = (st, inl e))
      /\ (forall pattern,
            format label' ["*"; "*"]%string = inr pattern ->
            exists st' r patterns,
              _collect_result_by_label s tmpdirpath label st = (st', r)
              /\ st_trace st'
                 = st_trace st
                   ++ Glob tmpdirpath pattern
                      :: map (Glob tmpdirpath) patterns
              /\ forall p, In p patterns ->
                           exists n,
                             In n (_procs_lst s)
                             /\ format label' [str_int n; "*"%string]
                                = inr p)).
Proof.
  split.
  - intros H1 H2.
    unfold _collect_result_by_label, bind, lift, complete_label.
    rewrite H1, H2. reflexivity.
  - intros H. cbv zeta.
    set (label' := if endswith label "-{}-{}.dat" then label
                   else (label ++ "-{}.dat")%string).
    assert (Hc : complete_label label = inr label').
    { unfold complete_label, label'.
      destruct (endswith label "-{}-{}.dat"); cbn; [reflexivity|].
      destruct H as [H|H]; [discriminate|]. rewrite H. reflexivity. }
    assert (He : endswith label' "-{}-{}.dat" = true).
    { unfold label'. destruct (endswith label "-{}-{}.dat") eqn:E1;
        [exact E1|].
      destruct H as [H|H]; [discriminate|].
      destruct (PyProps.endswith_elim _ _ H) as [p ->].
      rewrite PyProps.append_assoc.
      apply (PyProps.endswith_intro p "-{}-{}.dat"). }
    split; [exact Hc|]. split; [exact He|]. split.
    + intros e F. unfold _collect_result_by_label.
      unfold bind at 1, lift at 1. rewrite Hc.
      unfold bind at 1, lift at 1. rewrite F. reflexivity.
    + intros pattern F. unfold _collect_result_by_label.
      unfold bind at 1, lift at 1. rewrite Hc.
      unfold bind at 1, lift at 1. rewrite F.
      unfold bind at 1, glob at 1.
      destruct (filter _ (st_files st)) as [|f found].
      * eexists _, (inr None), []. unfold ret. cbn [st_trace map].
        repeat split. intros p [].
      * unfold bind at 1.
        match goal with
        | |- context [collect_levels _ _ _ ?d ?st1] =>
            destruct (collect_levels_globs tmpdirpath label'
                        (_procs_lst s) d st1)
              as (st' & r & patterns & E & Ht & Hp)
        end.
        rewrite E. cbn [st_trace] in Ht.
        destruct r as [e|res].
        -- exists st', (inl e), patterns.
           split; [reflexivity|]. split; [|exact Hp].
           rewrite Ht, <- app_assoc. reflexivity.
        -- exists st', (inr (Some res)), patterns. unfold ret.
           split; [reflexivity|]. split; [|exact Hp].
           rewrite Ht, <- app_assoc. reflexivity.
Qed.

(** *** Kinds without any file *)

Lemma collect_absent (k : kind) (s : self) (tmpdirpath : string) (st : state) :
  (forall f, In f (st_files st) ->
             fnmatch (any_level_pattern k) (fst f) = false) ->
  _collect_result_by_label s tmpdirpath (label_of k) st
  = (mk_state (st_env st) (st_files st)
       (st_trace st ++ [Glob tmpdirpath (any_level_pattern k)]),
     inr None).
Proof.
  intros Hnone.
  unfold _collect_result_by_label, bind, lift.
  rewrite complete_label_of, format_any_level.
  unfold glob; cbn [st_files st_env st_trace].
  rewrite (filter_none _ _ Hnone). reflexivity.
Qed.

(** C6: when no file of the working directory matches any of the three
    naming templates, [assert_correct_results] of [MPITestAssertEqual]
    raises the [AssertionError] "No test data collected". *)
Theorem no_data_collected_is_an_error
  (s : self) (tmpdirpath : string) (st : state) :
  cls s = MPITestAssertEqual ->
  (forall f, In f (st_files st) -> is_artifact (fst f) = false) ->
  exists st',
    assert_correct_results s tmpdirpath st
    = (st', inl (AssertionError "No test data collected")).
Proof.
  intros Hcls Hnone.
  assert (Hk : forall k f, In f (st_files st) ->
                           fnmatch (any_level_pattern k) (fst f) = false).
  { intros k f Hf. specialize (Hnone f Hf). unfold is_artifact in Hnone.
    apply orb_false_iff in Hnone as [Hnone Ho].
    apply orb_false_iff in Hnone as [Hs Hm]. destruct k; assumption. }
  unfold assert_correct_results. rewrite Hcls.
  unfold collect_results, bind.
  change SPIKE_LABEL with (label_of Spike).
  change MULTI_LABEL with (label_of Multi).
  change OTHER_LABEL with (label_of Other).
  rewrite (collect_absent Spike s tmpdirpath st (Hk Spike)).
  rewrite (collect_absent Multi); [|exact (Hk Multi)].
  rewrite (collect_absent Other); [|exact (Hk Other)].
  eexists. reflexivity.
Qed.

(** *** Launching the levels *)

Lemma launches_app (a b : list event) :
  launches (a ++ b) = launches a ++ launches b.
Proof. apply flat_map_app. Qed.

Lemma run_levels_app tmpdir (l1 l2 : list Z) :
  forall res st,
    run_levels tmpdir (l1 ++ l2) res st
    = match run_levels tmpdir l1 res st with
      | (st1, inr res1) => run_levels tmpdir l2 res1 st1
      | (st1, inl e) => (st1, inl e)
      end.
Proof.
  induction l1 as [|n l1 IH]; intros res st; [reflexivity|].
  cbn [app run_levels]. unfold bind at 1 3.
  match goal with |- context [try_except ?m ?h st] =>
    destruct (try_except m h st) as [st1 [e|r]] end;
    [reflexivity|apply IH].
Qed.

Lemma then_raise_fails {A B} (m : M A) (e : exn) (st : state) :
  exists st' e', bind m (fun _ => raise (A:=B) e) st = (st', inl e').
Proof.
  unfold bind, raise. destruct (m st) as [st' [e'|a]]; eauto.
Qed.

Lemma run_levels_launches tmpdir (l : list Z) :
  forall res st st' res',
    run_levels tmpdir l res st = (st', inr res') ->
    launches (st_trace st') = launches (st_trace st) ++ map mpirun_command l.
Proof.
  induction l as [|n l IH]; intros res st st' res' H.
  - injection H as <- _. cbn. now rewrite app_nil_r.
  - cbn [run_levels] in H. unfold bind at 1 in H.
    unfold try_except, subprocess_run in H.
    destruct (run_process (st_env st) (mpirun_command n) tmpdir (st_files st))
      as [[e files] [[rc out] err]].
    destruct (Z.eqb rc 0).
    + apply IH in H. rewrite H. cbn [st_trace map].
      rewrite launches_app. cbn. now rewrite <- app_assoc.
    + match type of H with context [bind ?m (fun _ => raise ?x) ?s] =>
        destruct (then_raise_fails (B:=CompletedProcess) m x s)
          as (st2 & e2 & E) end.
      rewrite E in H. discriminate H.
Qed.

Lemma bind_print {A} (text : string) (k : unit -> M A) e files trace :
  bind (print text) k (mk_state e files trace)
  = k tt (mk_state e files (trace ++ [Printed text])).
Proof. reflexivity. Qed.

Lemma bind_lift_inr {A B} (a : A) (k : A -> M B) (st : state) :
  bind (lift (inr a)) k st = k a st.
Proof. reflexivity. Qed.

Lemma report_failure_run command tmpdir out err (st : state) :
  utf8_valid out = true -> utf8_valid err = true ->
  report_failure command tmpdir out err st
  = (mk_state (st_env st) (st_files st)
       (st_trace st ++ report_trace command tmpdir out err),
     inr tt).
Proof.
  intros Hout Herr. destruct st as [e files trace].
  unfold report_failure, decode_utf8. rewrite Hout, Herr.
  repeat (first [rewrite bind_print | rewrite bind_lift_inr]; cbv beta).
  unfold print, emit. cbn [st_env st_files st_trace].
  unfold report_trace. rewrite <- !app_assoc. reflexivity.
Qed.

Lemma run_levels_fails tmpdir (n : Z) (post : list Z) res st1 e2 d2 rc out err :
  run_process (st_env st1) (mpirun_command n) tmpdir (st_files st1)
  = (e2, d2, (rc, out, err)) ->
  rc <> 0%Z ->
  utf8_valid out = true -> utf8_valid err = true ->
  run_levels tmpdir (n :: post) res st1
  = (mk_state e2 d2
       (st_trace st1
        ++ Launch (mpirun_command n) tmpdir
           :: report_trace (mpirun_command n) tmpdir out err),
     inl (CalledProcessError rc (mpirun_command n) out err)).
Proof.
  intros Hrun Hrc Hout Herr.
  cbn [run_levels]. unfold bind at 1. unfold try_except, subprocess_run.
  rewrite Hrun.
  destruct (Z.eqb rc 0) eqn:E; [apply Z.eqb_eq in E; contradiction|].
  unfold bind. rewrite (report_failure_run _ _ _ _ _ Hout Herr).
  unfold raise. cbn [st_env st_files st_trace].
  rewrite <- app_assoc. reflexivity.
Qed.

(** C3, amended: when the levels before [n] have run with exit status 0
    and the launch at level [n] exits with a status other than 0, having
    written well-formed UTF-8, then [wrapper] raises the
    [CalledProcessError] of that launch, which carries the exit status,
    the command and the two captured streams; the command names the level
    as its [-np] argument and no other level gives the same command; the
    launches of the run are those of the levels up to [n], so that no
    later level is attempted; and the name of the working directory is
    printed before the error is raised again. *)
Theorem fail_fast_at_first_failing_level
  (s : self) (f : func) (args : list Params.pyobj)
  (kwargs : list (string * Params.pyobj)) (st0 st1 : state)
  (pre post : list Z) (n : Z) (tmpdir : string)
  (res1 : dict CompletedProcess) (e2 : env) (d2 : directory)
  (rc : Z) (out err : string) :
  _procs_lst s = pre ++ n :: post ->
  launch_levels f args kwargs pre st0 = (st1, inr (tmpdir, res1)) ->
  run_process (st_env st1) (mpirun_command n) tmpdir (st_files st1)
  = (e2, d2, (rc, out, err)) ->
  rc <> 0%Z ->
  utf8_valid out = true -> utf8_valid err = true ->
  exists st2,
    wrapper s f args kwargs st0
    = (st2, inl (CalledProcessError rc (mpirun_command n) out err))
    /\ nth 2 (mpirun_command n) EmptyString = str_int n
    /\ (forall m, mpirun_command m = mpirun_command n -> m = n)
    /\ launches (st_trace st2)
       = launches (st_trace st0) ++ map mpirun_command (pre ++ [n])
    /\ In (Printed ("tmpdir            : " ++ tmpdir)) (st_trace st2).
Proof.
  intros Hlst Hpre Hrun Hrc Hout Herr.
  unfold launch_levels, bind, TemporaryDirectory in Hpre.
  unfold wrapper, bind, launch_levels, bind, TemporaryDirectory.
  rewrite Hlst.
  destruct (mkdtemp (st_env st0)) as [e0 name].
  unfold _write_runner in *. cbn [st_env st_files st_trace] in *.
  rewrite run_levels_app.
  match type of Hpre with
  | match run_levels ?t pre ?r ?st with _ => _ end = _ =>
      destruct (run_levels t pre r st) as [st1' [e'|res]] eqn:Hlv;
      [discriminate Hpre|]
  end.
  unfold ret in Hpre. injection Hpre as -> -> ->.
  rewrite (run_levels_fails tmpdir n post res1 st1 e2 d2 rc out err
             Hrun Hrc Hout Herr).
  eexists. split; [reflexivity|].
  split; [reflexivity|]. split.
  - intros m Hm. injection Hm as Hm. now apply PyProps.str_int_inj.
  - cbn [st_trace]. split.
    + rewrite launches_app, (run_levels_launches _ _ _ _ _ _ Hlv).
      cbn [st_trace]. rewrite launches_app, map_app.
      change (launches [WriteFile tmpdir RUNNER]) with (@nil (list string)).
      change (launches (Launch (mpirun_command n) tmpdir
                          :: report_trace (mpirun_command n) tmpdir out err))
        with [mpirun_command n].
      cbn [map]. now rewrite app_nil_r, <- app_assoc.
    + apply in_or_app. right. right. unfold report_trace.
      do 3 right. left. reflexivity.
Qed.

(** *** Collecting *)

Lemma read_frames_parsed (files : directory) :
  Forall parses_or_empty files ->
  forall data, read_frames files data = inr (data ++ parsed files).
Proof.
  induction 1 as [|f files Hf _ IH]; intros data.
  - cbn. now rewrite app_nil_r.
  - cbn [read_frames]. unfold parsed. cbn [flat_map].
    destruct Hf as [E|[df E]]; rewrite E.
    + apply IH.
    + rewrite IH. cbn. now rewrite <- app_assoc.
Qed.

Lemma collect_levels_ok (k : kind) (tmpdirpath : string) (levels : list Z) :
  forall res st,
    (forall n f, In n levels -> In f (st_files st) ->
                 fnmatch (level_pattern k n) (fst f) = true ->
                 parses_or_empty f) ->
    exists st' res',
      collect_levels tmpdirpath (stem k ++ "-{}-{}.dat") levels res st
      = (st', inr res')
      /\ st_files st' = st_files st
      /\ (forall n, In n levels ->
                    dict_get n res' = Some (parsed_at k n (st_files st)))
      /\ (forall n, ~ In n levels -> dict_get n res' = dict_get n res).
Proof.
  induction levels as [|m levels IH]; intros res st Hread.
  - exists st, res. cbn. repeat split; auto. intros n [].
  - cbn [collect_levels]. unfold bind at 1, lift at 1.
    rewrite format_level. unfold bind at 1, glob at 1.
    cbn [st_env st_files st_trace]. unfold bind at 1, lift at 1.
    rewrite read_frames_parsed.
    2:{ apply Forall_forall. intros f Hf. apply filter_In in Hf as [Hf Hm].
        apply (Hread m f); [left; reflexivity|exact Hf|exact Hm]. }
    cbn [app].
    match goal with |- context [collect_levels _ _ levels ?r ?s] =>
      destruct (IH r s) as (st' & res' & E & Hfiles & Hin & Hout) end.
    { intros n f Hn Hf. apply Hread; [right; exact Hn|exact Hf]. }
    cbn [st_files] in *.
    exists st', res'. split; [exact E|]. split; [exact Hfiles|]. split.
    + intros n Hn. destruct (in_dec Z.eq_dec n levels) as [Hl|Hl].
      * apply Hin, Hl.
      * destruct Hn as [->|Hn]; [|contradiction].
        rewrite (Hout n Hl). apply dict_get_set_same.
    + intros n Hn. rewrite Hout by (intros Hl; apply Hn; right; exact Hl).
      apply dict_get_set_other. intros ->. apply Hn. left. reflexivity.
Qed.

Lemma collect_present (k : kind) (s : self) (tmpdirpath : string) (st : state) :
  (exists f, In f (st_files st)
             /\ fnmatch (any_level_pattern k) (fst f) = true) ->
  (forall n f, In n (_procs_lst s) -> In f (st_files st) ->
               fnmatch (level_pattern k n) (fst f) = true ->
               parses_or_empty f) ->
  exists st' d,
    _collect_result_by_label s tmpdirpath (label_of k) st
    = (st', inr (Some d))
    /\ st_files st' = st_files st
    /\ forall n, In n (_procs_lst s) ->
                 dict_get n d = Some (parsed_at k n (st_files st)).
Proof.
  intros (f0 & Hf0 & Hm0) Hread.
  unfold _collect_result_by_label, bind, lift.
  rewrite complete_label_of, format_any_level.
  unfold glob at 1. cbn [st_env st_files st_trace].
  destruct (filter (fun f => fnmatch (any_level_pattern k) (fst f))
              (st_files st)) as [|f1 found] eqn:Efound.
  { assert (Hin : In f0 (filter (fun f => fnmatch (any_level_pattern k) (fst f))
                           (st_files st))) by (apply filter_In; auto).
    rewrite Efound in Hin. destruct Hin. }
  match goal with |- context [collect_levels _ _ _ ?r ?s0] =>
    destruct (collect_levels_ok k tmpdirpath (_procs_lst s) r s0)
      as (st' & d & E & Hfiles & Hin & _) end.
  { exact Hread. }
  rewrite E. exists st', d. cbn [st_files] in *. unfold ret. auto.
Qed.

(** What [_collect_result_by_label] gives for a kind, in both cases. *)
Lemma collect_kind (k : kind) (s : self) (tmpdirpath : string) (st : state) :
  (forall n f, In n (_procs_lst s) -> In f (st_files st) ->
               fnmatch (level_pattern k n) (fst f) = true ->
               parses_or_empty f) ->
  exists st' r,
    _collect_result_by_label s tmpdirpath (label_of k) st = (st', inr r)
    /\ st_files st' = st_files st
    /\ ((exists f, In f (st_files st)
                   /\ fnmatch (any_level_pattern k) (fst f) = true) ->
        exists d, r = Some d
                  /\ forall n, In n (_procs_lst s) ->
                       dict_get n d = Some (parsed_at k n (st_files st))).
Proof.
  intros Hread.
  destruct (existsb (fun f => fnmatch (any_level_pattern k) (fst f))
              (st_files st)) eqn:Ex.
  - apply existsb_exists in Ex.
    destruct (collect_present k s tmpdirpath st Ex Hread)
      as (st' & d & E & Hf & Hd).
    exists st', (Some d). repeat split; auto. intros _. exists d. auto.
  - rewrite collect_absent.
    + eexists _, None. repeat split. intros (f & Hf & Hm).
      assert (existsb (fun f => fnmatch (any_level_pattern k) (fst f))
                (st_files st) = true) by (apply existsb_exists; eauto).
      congruence.
    + intros f Hf. destruct (fnmatch (any_level_pattern k) (fst f)) eqn:E; auto.
      assert (existsb (fun f => fnmatch (any_level_pattern k) (fst f))
                (st_files st) = true) by (apply existsb_exists; eauto).
      congruence.
Qed.

(** C5, amended: when some file of the directory matches the template of
    a kind and every file that the collector parses for that kind either
    parses or is reported as empty data, the collector returns, for each
    configured level, the frames of the files that parse, in the order of
    the files: a file reported as empty data raises no error and adds no
    frame, a file that parses adds its frame, an empty frame as well. *)
Theorem empty_data_is_skipped_without_error
  (k : kind) (s : self) (tmpdirpath : string) (st : state) :
  (exists f, In f (st_files st)
             /\ fnmatch (any_level_pattern k) (fst f) = true) ->
  (forall n f, In n (_procs_lst s) -> In f (st_files st) ->
               fnmatch (level_pattern k n) (fst f) = true ->
               parses_or_empty f) ->
  exists st' d,
    _collect_result_by_label s tmpdirpath (label_of k) st
    = (st', inr (Some d))
    /\ forall n, In n (_procs_lst s) ->
                 dict_get n d = Some (parsed_at k n (st_files st)).
Proof.
  intros Hex Hread.
  destruct (collect_present k s tmpdirpath st Hex Hread)
    as (st' & d & E & _ & Hd).
  exists st', d. auto.
Qed.

(** *** The keys of a collected kind *)

Lemma dict_set_new_key {V} (k : Z) (v : V) (d : dict V) :
  ~ In k (map fst d) -> map fst (dict_set k v d) = map fst d ++ [k].
Proof.
  induction d as [|[k' v'] d IH]; cbn; intros Hk; [reflexivity|].
  destruct (Z.eqb k k') eqn:E.
  - apply Z.eqb_eq in E. exfalso. apply Hk. left. congruence.
  - cbn. rewrite IH; [reflexivity|]. intros Hin. apply Hk. now right.
Qed.

Lemma collect_levels_keys (tmpdirpath label : string) (levels : list Z) :
  forall res st st' res',
    NoDup levels ->
    (forall n, In n levels -> ~ In n (map fst res)) ->
    collect_levels tmpdirpath label levels res st = (st', inr res') ->
    map fst res' = map fst res ++ levels.
Proof.
  induction levels as [|m levels IH]; intros res st st' res' Hnd Hnew H.
  - injection H as _ <-. now rewrite app_nil_r.
  - cbn [collect_levels] in H. unfold bind, lift, glob in H.
    destruct (format label [str_int m; "*"%string]) as [e|pat];
      [discriminate H|].
    destruct (read_frames _ []) as [e|data]; [discriminate H|].
    apply IH in H.
    + rewrite H, dict_set_new_key by (apply Hnew; now left).
      now rewrite <- app_assoc.
    + now inversion Hnd.
    + intros n Hn. rewrite dict_set_new_key by (apply Hnew; now left).
      intros Hin. apply in_app_or in Hin as [Hin|[<-|[]]].
      * apply (Hnew n); [now right|exact Hin].
      * inversion Hnd; contradiction.
Qed.

(** With distinct levels, a kind that is collected has one entry for each
    level, in the order of the levels. *)
Lemma collected_keys_are_levels (s : self) (tmpdirpath label : string)
  (st st' : state) d :
  NoDup (_procs_lst s) ->
  _collect_result_by_label s tmpdirpath label st = (st', inr (Some d)) ->
  map fst d = _procs_lst s.
Proof.
  intros Hnd H. unfold _collect_result_by_label, bind, lift, glob in H.
  destruct (complete_label label) as [e|label']; [discriminate H|].
  destruct (format label' ["*"; "*"]%string) as [e|pat]; [discriminate H|].
  cbn [st_env st_files st_trace] in H.
  destruct (filter _ (st_files st)) as [|f found]; [discriminate H|].
  match type of H with
  | match collect_levels ?t ?l ?lv ?r ?s0 with _ => _ end = _ =>
      destruct (collect_levels t l lv r s0) as [st1 [e|res]] eqn:E;
      [discriminate H|]
  end.
  unfold ret in H. injection H as _ <-.
  apply collect_levels_keys in E; auto.
Qed.

(** *** Comparing *)








Lemma combine_levels_ok keys (d : dict (list DataFrame)) (cs : Z -> DataFrame) :
  (forall n frames, In (n, frames) d ->
                    combined_sorted keys frames = inr (cs n)) ->
  combine_levels keys (values d) = inr (map cs (map fst d)).
Proof.
  induction d as [|[n frames] d IH]; intros H; [reflexivity|].
  cbn [values map snd fst combine_levels].
  rewrite (H n frames (or_introl eq_refl)). cbn [bindE].
  unfold values in IH. rewrite IH; [reflexivity|].
  intros m fr Hm. apply H. now right.
Qed.

Lemma assert_frames_equal_iff (first : DataFrame) (others : list DataFrame) :
  assert_frames_equal first others = inr tt
  <-> forall r, In r others -> assert_frame_equal first r = inr tt.
Proof.
  induction others as [|r others IH]; cbn [assert_frames_equal].
  - split; [intros _ r []|reflexivity].
  - destruct (assert_frame_equal first r) as [e|[]] eqn:E; cbn [bindE].
    + split; [discriminate|]. intros H.
      specialize (H r (or_introl eq_refl)). congruence.
    + rewrite IH. split.
      * intros H x [<-|Hx]; auto.
      * intros H x Hx. apply H. now right.
Qed.

Lemma check_all_cons (levels : list Z) (cs : Z -> DataFrame) more :
  check_all (List.length levels) (map cs levels :: more) = inr tt
  <-> (forall n, In n (tl levels) ->
                 assert_frame_equal (cs (hd 0%Z levels)) (cs n) = inr tt)
      /\ check_all (List.length levels) more = inr tt.
Proof.
  cbn [check_all]. rewrite length_map, Nat.eqb_refl. cbn [assertE bindE].
  destruct levels as [|h t]; cbn [map hd tl].
  - cbn [bindE]. split; [intros H; split; [intros n []|exact H]|tauto].
  - destruct (assert_frames_equal (cs h) (map cs t)) as [e|[]] eqn:E;
      cbn [bindE].
    + split; [discriminate|]. intros [H _].
      assert (assert_frames_equal (cs h) (map cs t) = inr tt).
      { apply assert_frames_equal_iff. intros r Hr.
        apply in_map_iff in Hr as (n & <- & Hn). auto. }
      congruence.
    + pose proof (proj1 (assert_frames_equal_iff _ _) E) as E'.
      split; [|tauto].
      intros H. split; [|exact H]. intros n Hn. apply E'.
      now apply in_map.
Qed.

(** The comparison in terms of what [combined_sorted] gives for the
    frames of each level. *)
Lemma compare_collected_passes_iff
  (s : self) (cs_spike cs_other : Z -> DataFrame) :
  truthy (_multi s) = false ->
  (forall d, _spike s = Some d ->
             map fst d = _procs_lst s
             /\ forall n frames,
                  In (n, frames) d ->
                  combined_sorted spike_keys frames = inr (cs_spike n)) ->
  (forall d, _other s = Some d ->
             map fst d = _procs_lst s
             /\ forall n frames,
                  In (n, frames) d ->
                  combined_sorted (first_frame_columns d) frames
                  = inr (cs_other n)) ->
  let first := hd 0%Z (_procs_lst s) in
  let equal_to_first (cs : Z -> DataFrame) :=
    forall n, In n (tl (_procs_lst s)) ->
              assert_frame_equal (cs first) (cs n) = inr tt in
  compare_collected s = inr tt
  <-> (truthy (_spike s) = true \/ truthy (_other s) = true)
      /\ (truthy (_spike s) = true -> equal_to_first cs_spike)
      /\ (truthy (_other s) = true -> equal_to_first cs_other).
Proof.
  intros Hmulti Hspike Hother first equal_to_first.
  unfold compare_collected. rewrite Hmulti.
  assert (Hs : truthy (_spike s) = true ->
               (if truthy (_spike s)
                then bindE (combine_levels spike_keys (values_of (_spike s)))
                       (fun dfs => inr [dfs])
                else inr [])
               = inr [map cs_spike (_procs_lst s)]).
  { intros Ht. rewrite Ht. destruct (_spike s) as [d|]; [|discriminate].
    destruct (Hspike d eq_refl) as [Hkeys Hcs]. cbn [values_of].
    rewrite (combine_levels_ok _ _ _ Hcs), Hkeys. reflexivity. }
  assert (Ho : forall all_res,
             truthy (_other s) = true ->
             (if truthy (_other s)
              then match values_of (_other s) with
                   | [] => inl (OtherError "StopIteration" "")
                   | [] :: _ => inl (IndexError "list index out of range")
                   | (df :: _) :: _ =>
                       bindE (combine_levels (columns df)
                                (values_of (_other s)))
                         (fun dfs => inr (all_res ++ [dfs]))
                   end
              else inr all_res)
             = inr (all_res ++ [map cs_other (_procs_lst s)])).
  { intros all_res Ht. rewrite Ht.
    destruct (_other s) as [d|]; [|discriminate].
    destruct (Hother d eq_refl) as [Hkeys Hcs]. cbn [values_of].
    pose proof (combine_levels_ok _ _ _ Hcs) as Hc. rewrite Hkeys in Hc.
    destruct d as [|[n0 frames0] d']; [discriminate|].
    pose proof (Hcs n0 frames0 (or_introl eq_refl)) as H0.
    destruct frames0 as [|df frames0]; [discriminate H0|].
    unfold first_frame_columns in Hc. cbn [values map snd] in Hc |- *.
    rewrite Hc. reflexivity. }
  destruct (truthy (_spike s)) eqn:Es; [rewrite (Hs eq_refl)|];
    cbn [bindE]; (destruct (truthy (_other s)) eqn:Eo;
                  [rewrite (Ho _ eq_refl)|]); cbn [bindE app Ast.is_nil negb assertE].
  - rewrite check_all_cons, check_all_cons. cbn [check_all].
    unfold equal_to_first, first. intuition.
  - rewrite check_all_cons. cbn [check_all].
    unfold equal_to_first, first. intuition discriminate.
  - rewrite check_all_cons. cbn [check_all].
    unfold equal_to_first, first. intuition discriminate.
  - split; [discriminate|]. intros [[H|H] _]; discriminate H.
Qed.

(** C1: on collected artifacts without data of the multimeter kind, in
    which every kind present has its entries in the order of the
    configured levels and, for every level, the frames collected
    concatenate, in their order, to one frame and that frame sorts by the
    key of the kind ([time_step], [time_offset], [sender], in this order,
    for spikes; the columns of the first frame of the first level, in
    their order, for the generic kind), the comparison passes exactly
    when some kind is present and, for every kind present, the sorted
    concatenation of the first level is equal, by [assert_frame_equal], to
    the sorted concatenation of every level after it. *)
Theorem equivalence_compares_combined_sorted_frames
  (s : self) (cat_spike cs_spike cat_other cs_other : Z -> DataFrame)
  (df0 : DataFrame) :
  truthy (_multi s) = false ->
  (forall d, _spike s = Some d ->
             map fst d = _procs_lst s
             /\ forall n frames,
                  In (n, frames) d ->
                  exists first more,
                    frames = first :: more
                    /\ concat first more = inr (cat_spike n)
                    /\ sort_values (cat_spike n)
                         ["time_step"; "time_offset"; "sender"]%string
                       = inr (cs_spike n)) ->
  (forall d, _other s = Some d ->
             map fst d = _procs_lst s
             /\ (forall n0 frames0 rest,
                   d = (n0, frames0) :: rest ->
                   exists more0, frames0 = df0 :: more0)
             /\ forall n frames,
                  In (n, frames) d ->
                  exists first more,
                    frames = first :: more
                    /\ concat first more = inr (cat_other n)
                    /\ sort_values (cat_other n) (columns df0)
                       = inr (cs_other n)) ->
  let first := hd 0%Z (_procs_lst s) in
  let equal_to_first (cs : Z -> DataFrame) :=
    forall n, In n (tl (_procs_lst s)) ->
              assert_frame_equal (cs first) (cs n) = inr tt in
  compare_collected s = inr tt
  <-> (truthy (_spike s) = true \/ truthy (_other s) = true)
      /\ (truthy (_spike s) = true -> equal_to_first cs_spike)
      /\ (truthy (_other s) = true -> equal_to_first cs_other).
Proof.
  intros Hmulti Hspike Hother.
  apply compare_collected_passes_iff; [exact Hmulti| |].
  - intros d E. destruct (Hspike d E) as [Hkeys Hcs].
    split; [exact Hkeys|]. intros n frames Hin.
    destruct (Hcs n frames Hin) as (first & more & -> & Hcat & Hsort).
    unfold combined_sorted, pd_concat. rewrite Hcat. exact Hsort.
  - intros d E. destruct (Hother d E) as (Hkeys & Hfirst & Hcs).
    split; [exact Hkeys|]. intros n frames Hin.
    destruct (Hcs n frames Hin) as (first & more & -> & Hcat & Hsort).
    unfold combined_sorted, pd_concat. rewrite Hcat. cbn [bindE].
    destruct d as [|[n0 frames0] rest]; [contradiction|].
    destruct (Hfirst n0 frames0 rest eq_refl) as [more0 ->].
    exact Hsort.
Qed.

End Facts.

End HarnessProps.

(** ** The statements on the sample platform *)

Module Runs.

Import Py Harness Sample HarnessProps.

Local Open Scope Z_scope.

(** Same spikes from one and from two processes, in another order of
    rows: the comparison passes. *)
Example row_order_does_not_matter :
  snd (wrapper (assert_equal [1; 2]) rates_test [] []
         (start tmp [one_process; two_processes]))
  = inr tt.
Proof. vm_compute. reflexivity. Qed.

(** Another sender at two processes: the comparison fails. *)
Example other_sender_is_detected :
  snd (wrapper (assert_equal [1; 2]) rates_test [] []
         (start tmp [one_process; two_processes_differ]))
  = inl (AssertionError "DataFrame are different").
Proof. vm_compute. reflexivity. Qed.

(** A level given twice has one entry in the collected data, and the
    comparison asks for as many entries as levels. *)
Example repeated_level_is_refused :
  snd (wrapper (assert_equal [2; 2]) rates_test [] []
         (start tmp [two_processes]))
  = inl (AssertionError "Could not collect data for all procs").
Proof. vm_compute. reflexivity. Qed.

(** A file that stops at the header parses to a frame without rows. *)
Example header_only_parses :
  read_csv header_only
  = inr (mk_frame ["time_step"; "time_offset"; "sender"]%string []).
Proof. vm_compute. reflexivity. Qed.

(** C7, as the specification words it, fails: the empty list of levels is
    an invalid configuration, and the constructor accepts it. *)
Lemma empty_levels_accepted_at_construction :
  invalid_configuration (Levels []) = true
  /\ ~ rejected_at_construction (Levels []).
Proof.
  split; [reflexivity|]. intros H.
  destruct (H MPITestAssertEqual false (start tmp [])) as [e He].
  discriminate He.
Qed.

Lemma init_rejects_what_is_not_iterable_run :
  __init__ MPITestAssertEqual (Number 4) false (start tmp [])
  = (start tmp [], inl (TypeError "procs_lst must be a list of numbers"))
  /\ __init__ MPITestAssertEqual (Levels [1; 2; 4]) false (start tmp [])
     = (start tmp [], inr (assert_equal [1; 2; 4])).
Proof.
  split.
  - apply (init_rejects_what_is_not_iterable
             MPITestAssertEqual (Number 4) false (start tmp [])).
    reflexivity.
  - apply (init_rejects_what_is_not_iterable
             MPITestAssertEqual (Levels [1; 2; 4]) false (start tmp [])).
    reflexivity.
Defined.

(** The label [spike] fails the assertion; [spike-{}] is completed to
    [spike-{}-{}.dat], and the collector's first glob is for
    [spike-*-*.dat]. *)
Lemma label_suffix_is_asserted_run :
  _collect_result_by_label (assert_equal [1; 2]) tmp "spike" (start tmp [])
  = (start tmp [], inl (AssertionError ""))
  /\ complete_label "spike-{}" = inr "spike-{}-{}.dat"%string
  /\ exists st' r patterns,
       _collect_result_by_label (assert_equal [1; 2]) tmp "spike-{}"
         (at_files (directory_after [1; 2] [one_process; two_processes]))
       = (st', r)
       /\ st_trace st' = Glob tmp "spike-*-*.dat" :: map (Glob tmp) patterns.
Proof.
  split; [|split].
  - exact (proj1 (label_suffix_is_asserted (assert_equal [1; 2]) tmp
                    "spike" (start tmp [])) eq_refl eq_refl).
  - destruct (label_suffix_is_asserted (assert_equal [1; 2]) tmp "spike-{}"
                (start tmp [])) as [_ H].
    exact (proj1 (H (or_intror eq_refl))).
  - destruct (label_suffix_is_asserted (assert_equal [1; 2]) tmp "spike-{}"
                (at_files (directory_after [1; 2] [one_process; two_processes])))
      as [_ H].
    destruct (H (or_intror eq_refl)) as (_ & _ & _ & Hg).
    destruct (Hg "spike-*-*.dat"%string eq_refl)
      as (st' & r & patterns & E & Ht & _).
    exists st', r, patterns. split; [exact E|exact Ht].
Defined.

Lemma no_data_collected_is_an_error_run :
  exists st',
    assert_correct_results (assert_equal [1; 2]) tmp
      (at_files (directory_after [1; 2] []))
    = (st', inl (AssertionError "No test data collected")).
Proof.
  apply (no_data_collected_is_an_error (assert_equal [1; 2]) tmp).
  - reflexivity.
  - intros f [<-|[]]. vm_compute. reflexivity.
Defined.

(** C3, as the specification words it, fails: two runs that differ in
    nothing but the working directory fail with the same error, so the
    error does not carry the working directory. *)
Lemma error_does_not_carry_tmpdir : ~ error_carries_tmpdir.
Proof.
  intros [path_of H].
  assert (Ha : path_of (CalledProcessError 1 (mpirun_command 2) "starting"
                          "MPI_ABORT was invoked") = "/tmp/a"%string).
  { eapply (H (assert_equal [1; 2; 4]) rates_test [] []
              (start "/tmp/a" [one_process; crash])).
    - reflexivity.
    - vm_compute. reflexivity. }
  assert (Hb : path_of (CalledProcessError 1 (mpirun_command 2) "starting"
                          "MPI_ABORT was invoked") = "/tmp/b"%string).
  { eapply (H (assert_equal [1; 2; 4]) rates_test [] []
              (start "/tmp/b" [one_process; crash])).
    - reflexivity.
    - vm_compute. reflexivity. }
  rewrite Ha in Hb. discriminate Hb.
Qed.

Lemma fail_fast_at_first_failing_level_run :
  exists st2,
    wrapper (assert_equal [1; 2; 4]) rates_test [] []
      (start tmp [one_process; crash])
    = (st2, inl (CalledProcessError 1 (mpirun_command 2) "starting"
                   "MPI_ABORT was invoked"))
    /\ nth 2 (mpirun_command 2) EmptyString = str_int 2
    /\ (forall m, mpirun_command m = mpirun_command 2 -> m = 2)
    /\ launches (st_trace st2)
       = launches (st_trace (start tmp [one_process; crash]))
         ++ map mpirun_command ([1] ++ [2])
    /\ In (Printed ("tmpdir            : " ++ tmp)) (st_trace st2).
Proof.
  eapply (fail_fast_at_first_failing_level
            (assert_equal [1; 2; 4]) rates_test [] []
            (start tmp [one_process; crash]) _ [1] [4] 2).
  - reflexivity.
  - vm_compute. reflexivity.
  - vm_compute. reflexivity.
  - discriminate.
  - reflexivity.
  - reflexivity.
Defined.

Ltac each_file :=
  repeat match goal with
         | H : In _ (_ :: _) |- _ => destruct H as [<-|H]
         | H : In _ [] |- _ => destruct H
         | H : _ \/ _ |- _ => destruct H as [<-|H]
         | H : False |- _ => destruct H
         end.

Lemma silent_at_two_parses :
  forall k m f, In m [1; 2] -> In f (st_files silent_at_two) ->
                fnmatch (level_pattern k m) (fst f) = true ->
                parses_or_empty f.
Proof.
  intros k m f Hm Hf. vm_compute in Hf. each_file; destruct k;
    vm_compute; intros E; try discriminate E;
    first [left; reflexivity | right; eexists; reflexivity].
Qed.

(** C5, as the specification words it, fails: a spike file with nothing
    but a comment has no data rows, and the list of its level stays
    empty. *)
Lemma file_without_rows_is_left_out :
  ~ file_without_rows_gives_empty_frame.
Proof.
  intros H.
  destruct (H (assert_equal [1]) tmp
              (at_files [("spike-1-0.dat"%string, comment_only)])
              Spike 1 ("spike-1-0.dat"%string, comment_only))
    as (st' & d & frames & df & E & Hget & Hin & _);
    try reflexivity; [left; reflexivity|].
  vm_compute in E. injection E as _ <-.
  vm_compute in Hget. injection Hget as <-. destruct Hin.
Qed.

Lemma empty_data_is_skipped_without_error_run :
  exists st' d,
    _collect_result_by_label (assert_equal [1; 2]) tmp SPIKE_LABEL
      silent_at_two
    = (st', inr (Some d))
    /\ dict_get 2 d = Some []
    /\ exists df, dict_get 1 d = Some [df] /\ List.length (rows df) = 3%nat.
Proof.
  destruct (empty_data_is_skipped_without_error
              Spike (assert_equal [1; 2]) tmp silent_at_two)
    as (st' & d & E & Hd).
  - eexists. split; [right; left; reflexivity|reflexivity].
  - apply silent_at_two_parses.
  - exists st', d. split; [exact E|]. split.
    + rewrite (Hd 2); [reflexivity|right; left; reflexivity].
    + eexists. split; [rewrite (Hd 1); [reflexivity|left; reflexivity]|].
      reflexivity.
Defined.

(** Spike files that stop at the header have no data rows, yet each adds
    a frame to the list of its level, and the comparison of the two
    levels passes. *)
Example header_only_levels_pass :
  no_data_rows header_only = true
  /\ snd (_collect_result_by_label (assert_equal [1; 2]) tmp SPIKE_LABEL
            header_only_at_both)
     = inr (Some
              [(1%Z, [mk_frame ["time_step"; "time_offset"; "sender"]%string
                        []]);
               (2%Z, [mk_frame ["time_step"; "time_offset"; "sender"]%string
                        []])])
  /\ snd (assert_correct_results (assert_equal [1; 2]) tmp
            header_only_at_both)
     = inr tt.
Proof. vm_compute. repeat split. Qed.



(** One process writes three spikes in order, two processes write them
    in two files and out of order: the frames of level 2 concatenate to a
    frame that differs from that of level 1, both sort to the same frame,
    and the comparison passes.  With another sender for one spike at two
    processes the sorted frames differ, and the comparison does not
    pass. *)
Lemma equivalence_compares_combined_sorted_frames_run :
  concatenated_spikes 1 <> concatenated_spikes 2
  /\ compare_collected collected_spikes = inr tt
  /\ compare_collected collected_spikes_differ <> inr tt.
Proof.
  split; [discriminate|]. split.
  - apply (equivalence_compares_combined_sorted_frames collected_spikes
             concatenated_spikes (fun _ => sorted_spikes)
             concatenated_spikes (fun _ => sorted_spikes) sorted_spikes).
    + reflexivity.
    + intros d E. vm_compute in E. injection E as <-. split; [reflexivity|].
      intros n frames [E|[E|[]]]; injection E as <- <-;
        eexists _, _; (split; [reflexivity|]); split; vm_compute; reflexivity.
    + intros d E. discriminate E.
    + split; [left; reflexivity|]. split.
      * intros _ n Hn. reflexivity.
      * intros E. discriminate E.
  - intros H.
    apply (equivalence_compares_combined_sorted_frames
             collected_spikes_differ
             concatenated_differ sorted_differ
             concatenated_differ sorted_differ sorted_spikes) in H.
    + destruct H as (_ & Hs & _).
      specialize (Hs eq_refl 2 (or_introl eq_refl)).
      vm_compute in Hs. discriminate Hs.
    + reflexivity.
    + intros d E. vm_compute in E. injection E as <-. split; [reflexivity|].
      intros n frames [E|[E|[]]]; injection E as <- <-;
        eexists _, _; (split; [reflexivity|]); split; vm_compute; reflexivity.
    + intros d E. discriminate E.
Defined.

End Runs.

(** ** More on source isolation *)

Module AstCoverage.

Import Ast AstProps.

(** X11: whenever the text of an isolated source parses back to the
    isolated tree, which asks that the isolation has left no block empty,
    isolating that text again gives the same text: the second isolation
    parses the text of the first, and the transformer changes nothing in
    a tree it has produced.  This holds for every source, not only for
    those without decorators and [MPITest*] imports. *)
Theorem isolation_idempotent_on_every_source
  (parse : string -> option pymod) (unparse : pymod -> string)
  (tree : pymod) :
  parse (unparse (visit_Module tree)) = Some (visit_Module tree) ->
  isolate_text unparse parse (_pure_test_func unparse tree)
  = Some (_pure_test_func unparse tree).
Proof.
  intros Hparse. unfold isolate_text, _pure_test_func.
  rewrite Hparse. cbn [option_map].
  rewrite visit_Module_idempotent. reflexivity.
Qed.

Lemma isolation_idempotent_on_every_source_run :
  isolate_text unparse_plain
    (parse_text_of (visit_Module test_rates_file))
    (_pure_test_func unparse_plain test_rates_file)
  = Some (_pure_test_func unparse_plain test_rates_file).
Proof.
  apply (isolation_idempotent_on_every_source
           (parse_text_of (visit_Module test_rates_file))
           unparse_plain test_rates_file).
  reflexivity.
Defined.

(** X12: the transformer changes nothing but import statements and
    decorators of function definitions: with these erased at every depth,
    the output of the transformer and its input are the same tree. *)
Theorem isolation_changes_imports_and_decorators_only (tree : pymod) :
  visit_list erase (mod_body (visit_Module tree))
  = visit_list erase (mod_body tree).
Proof.
  destruct tree as [body]. cbn [visit_Module mod_body].
  apply erase_after_visit_list, Forall_forall. intros s _.
  apply erase_after_visit.
Qed.

(** *** Blocks that stay filled *)

Lemma kept_visit_list {A} (v : A -> option A) (k bf : A -> bool)
      (l : list A) :
  Forall (fun x => k x = true ->
                   exists x', v x = Some x'
                              /\ (bf x = true -> bf x' = true)) l ->
  forallb k l = true ->
  (filled l = true -> filled (visit_list v l) = true)
  /\ (forallb bf l = true -> forallb bf (visit_list v l) = true).
Proof.
  induction 1 as [|x l Hx _ IH]; intros Hk; [split; auto|].
  cbn [forallb] in Hk. apply andb_true_iff in Hk as [Hkx Hkl].
  destruct (Hx Hkx) as (x' & Hv & Hbf). destruct (IH Hkl) as [_ IHb].
  rewrite visit_list_cons, Hv. split; [reflexivity|].
  cbn [forallb]. intros H. apply andb_true_iff in H as [H1 H2].
  rewrite (Hbf H1), (IHb H2). reflexivity.
Qed.

Ltac blocks_stay_filled :=
  repeat match goal with
         | HF : Forall _ ?l, Hk : forallb _ ?l = true |- _ =>
             destruct (kept_visit_list _ _ _ l HF Hk) as [? ?]; clear HF
         end;
  repeat (apply andb_true_iff; split); auto.

(** A statement at and below which nothing is removed is visited to a
    statement whose blocks are filled when its own are. *)
Lemma kept_visit (s : stmt) :
  kept s = true ->
  exists s', visit s = Some s'
             /\ (blocks_filled s = true -> blocks_filled s' = true).
Proof.
  revert s.
  apply (stmt_induction
           (fun s => kept s = true ->
                     exists s', visit s = Some s'
                                /\ (blocks_filled s = true ->
                                    blocks_filled s' = true))
           (fun h => kept_handler h = true ->
                     exists h', visit_handler h = Some h'
                                /\ (blocks_filled_handler h = true ->
                                    blocks_filled_handler h' = true))
           (fun c => kept_case c = true ->
                     exists c', visit_case c = Some c'
                                /\ (blocks_filled_case c = true ->
                                    blocks_filled_case c' = true)));
    cbn [kept kept_handler kept_case visit visit_handler visit_case];
    intros; split_andb;
    try match goal with
        | H : negb _ = true |- _ => rewrite H
        end;
    (eexists; split; [reflexivity|]);
    cbn [blocks_filled blocks_filled_handler blocks_filled_case];
    intros; split_andb; blocks_stay_filled.
  - match goal with
    | H : (_ || _)%bool = true |- _ =>
        apply orb_true_iff in H as [H|H]; apply orb_true_iff;
        [left|right]; auto
    end.
Qed.

Lemma MPITest_import_is_dropped (s : stmt) :
  is_MPITest_import s = true -> visit s = None.
Proof.
  destruct s; cbn; try discriminate; intros ->; reflexivity.
Qed.

(** X18: when every block of the source holds a statement and every
    statement of the module either is an import of an [MPITest*] entity
    or holds none that the transformer reaches (no such import sits in a
    class body or in a block of a compound statement, outside function
    bodies), isolation leaves no block empty: every block of the output
    holds a statement, so that the output has a source text. *)
Theorem isolation_keeps_blocks_filled (tree : pymod) :
  forallb blocks_filled (mod_body tree) = true ->
  forallb (fun s => is_MPITest_import s || kept s) (mod_body tree) = true ->
  forallb blocks_filled (mod_body (visit_Module tree)) = true.
Proof.
  destruct tree as [body]. cbn [visit_Module mod_body].
  induction body as [|s body IH]; intros Hbf Hk; [reflexivity|].
  cbn [forallb] in Hbf, Hk.
  apply andb_true_iff in Hbf as [Hs Hbody].
  apply andb_true_iff in Hk as [Hks Hkbody].
  rewrite visit_list_cons.
  destruct (is_MPITest_import s) eqn:Ei.
  - rewrite (MPITest_import_is_dropped s Ei). apply IH; assumption.
  - cbn [orb] in Hks. destruct (kept_visit s Hks) as (s' & -> & Hs').
    cbn [forallb]. rewrite (Hs' Hs), (IH Hbody Hkbody). reflexivity.
Qed.

Lemma isolation_keeps_blocks_filled_run :
  forallb blocks_filled (mod_body (visit_Module test_rates_file)) = true.
Proof.
  apply (isolation_keeps_blocks_filled test_rates_file); reflexivity.
Defined.

End AstCoverage.

(** ** More on the wrapper *)

Module HarnessCoverage.

Import Py Harness HarnessProps.

Section Facts.

Context {os : OS} {up : Unparser} {pandas : Pandas}.

(** *** Readings of a trace *)

Lemma globs_app (a b : list event) : globs (a ++ b) = globs a ++ globs b.
Proof. apply flat_map_app. Qed.

Lemma actions_app (a b : list event) :
  actions (a ++ b) = actions a ++ actions b.
Proof. apply filter_app. Qed.

Lemma launches_of_globs tmpdirpath (patterns : list string) :
  launches (map (Glob tmpdirpath) patterns) = [].
Proof. induction patterns; [reflexivity|exact IHpatterns]. Qed.

Lemma launches_of_prints (evs : list event) :
  forallb is_print evs = true -> launches evs = [].
Proof.
  induction evs as [|ev evs IH]; [reflexivity|]. cbn [forallb].
  intros H. apply andb_true_iff in H as [H1 H2].
  destruct ev; try discriminate H1; exact (IH H2).
Qed.

Lemma globs_of_prints (evs : list event) :
  forallb is_print evs = true -> globs evs = [].
Proof.
  induction evs as [|ev evs IH]; [reflexivity|]. cbn [forallb].
  intros H. apply andb_true_iff in H as [H1 H2].
  destruct ev; try discriminate H1; exact (IH H2).
Qed.

Lemma actions_of_prints (evs : list event) :
  forallb is_print evs = true -> actions evs = [].
Proof.
  induction evs as [|ev evs IH]; [reflexivity|]. cbn [forallb].
  intros H. apply andb_true_iff in H as [H1 H2].
  unfold actions. cbn [filter]. rewrite H1. exact (IH H2).
Qed.

(** *** States that differ by globs or by prints *)

Lemma only_globs_refl tmpdirpath (st : state) : only_globs tmpdirpath st st.
Proof.
  repeat split. exists []. cbn. now rewrite app_nil_r.
Qed.

Lemma only_globs_trans tmpdirpath (a b c : state) :
  only_globs tmpdirpath a b -> only_globs tmpdirpath b c ->
  only_globs tmpdirpath a c.
Proof.
  intros (E1 & F1 & p1 & T1) (E2 & F2 & p2 & T2).
  split; [congruence|]. split; [congruence|].
  exists (p1 ++ p2). now rewrite T2, T1, map_app, app_assoc.
Qed.

Lemma only_globs_glob tmpdirpath pattern (st : state) :
  only_globs tmpdirpath st (fst (glob tmpdirpath pattern st)).
Proof. repeat split. exists [pattern]. reflexivity. Qed.

Lemma only_prints_refl (st : state) : only_prints st st.
Proof.
  repeat split. exists []. split; [now rewrite app_nil_r|reflexivity].
Qed.

Lemma only_prints_trans (a b c : state) :
  only_prints a b -> only_prints b c -> only_prints a c.
Proof.
  intros (E1 & F1 & p1 & T1 & P1) (E2 & F2 & p2 & T2 & P2).
  split; [congruence|]. split; [congruence|].
  exists (p1 ++ p2). split; [now rewrite T2, T1, app_assoc|].
  now rewrite forallb_app, P1, P2.
Qed.

Lemma only_prints_emit (ev : event) (st : state) :
  is_print ev = true -> only_prints st (fst (emit ev st)).
Proof.
  intros H. repeat split. exists [ev]. split; [reflexivity|].
  cbn. now rewrite H.
Qed.

Lemma only_prints_launches (st st' : state) :
  only_prints st st' ->
  launches (st_trace st') = launches (st_trace st).
Proof.
  intros (_ & _ & evs & -> & P).
  now rewrite launches_app, (launches_of_prints _ P), app_nil_r.
Qed.

Lemma only_globs_launches tmpdirpath (st st' : state) :
  only_globs tmpdirpath st st' ->
  launches (st_trace st') = launches (st_trace st).
Proof.
  intros (_ & _ & ps & ->).
  now rewrite launches_app, launches_of_globs, app_nil_r.
Qed.

(** *** Collecting touches nothing *)

Lemma collect_levels_frame tmpdirpath label (levels : list Z) :
  forall res st st' r,
    collect_levels tmpdirpath label levels res st = (st', r) ->
    only_globs tmpdirpath st st'.
Proof.
  induction levels as [|n levels IH]; intros res st st' r H.
  - injection H as <- _. apply only_globs_refl.
  - cbn [collect_levels] in H. unfold bind at 1, lift at 1 in H.
    destruct (format label [str_int n; "*"%string]) as [e|pat].
    { injection H as <- _. apply only_globs_refl. }
    unfold bind at 1 in H.
    pose proof (only_globs_glob tmpdirpath pat st) as Hg.
    destruct (glob tmpdirpath pat st) as [st1 [e|files]] eqn:Eg;
      cbn [fst] in Hg.
    { injection H as <- _. exact Hg. }
    unfold bind at 1, lift at 1 in H.
    destruct (read_frames files []) as [e|data].
    { injection H as <- _. exact Hg. }
    apply IH in H. exact (only_globs_trans _ _ _ _ Hg H).
Qed.

Lemma collect_by_label_frame (s : self) tmpdirpath label (st st' : state) r :
  _collect_result_by_label s tmpdirpath label st = (st', r) ->
  only_globs tmpdirpath st st'.
Proof.
  unfold _collect_result_by_label. intros H.
  unfold bind at 1, lift at 1 in H.
  destruct (complete_label label) as [e|label'].
  { injection H as <- _. apply only_globs_refl. }
  unfold bind at 1, lift at 1 in H.
  destruct (format label' ["*"; "*"]%string) as [e|pat].
  { injection H as <- _. apply only_globs_refl. }
  unfold bind at 1 in H.
  pose proof (only_globs_glob tmpdirpath pat st) as Hg.
  destruct (glob tmpdirpath pat st) as [st1 [e|found]] eqn:Eg; cbn [fst] in Hg.
  { injection H as <- _. exact Hg. }
  destruct found as [|f found].
  { injection H as <- _. exact Hg. }
  unfold bind in H.
  destruct (collect_levels tmpdirpath label' (_procs_lst s) [] st1)
    as [st2 [e|res]] eqn:El;
    apply collect_levels_frame in El; injection H as <- _;
    exact (only_globs_trans _ _ _ _ Hg El).
Qed.

Lemma collect_results_frame (s : self) tmpdirpath (st st' : state) r :
  collect_results s tmpdirpath st = (st', r) ->
  only_globs tmpdirpath st st'.
Proof.
  unfold collect_results. intros H. unfold bind at 1 in H.
  destruct (_collect_result_by_label s tmpdirpath SPIKE_LABEL st)
    as [st1 [e|r1]] eqn:E1; apply collect_by_label_frame in E1.
  { injection H as <- _. exact E1. }
  unfold bind at 1 in H.
  destruct (_collect_result_by_label s tmpdirpath MULTI_LABEL st1)
    as [st2 [e|r2]] eqn:E2; apply collect_by_label_frame in E2.
  { injection H as <- _. exact (only_globs_trans _ _ _ _ E1 E2). }
  unfold bind at 1 in H.
  destruct (_collect_result_by_label s tmpdirpath OTHER_LABEL st2)
    as [st3 [e|r3]] eqn:E3; apply collect_by_label_frame in E3;
    injection H as <- _;
    exact (only_globs_trans _ _ _ _ E1 (only_globs_trans _ _ _ _ E2 E3)).
Qed.

Lemma assert_correct_results_frame (s : self) tmpdirpath (st st' : state) r :
  assert_correct_results s tmpdirpath st = (st', r) ->
  only_globs tmpdirpath st st'.
Proof.
  unfold assert_correct_results. intros H. destruct (cls s).
  - injection H as <- _. apply only_globs_refl.
  - unfold bind in H.
    destruct (collect_results s tmpdirpath st) as [st1 [e|s']] eqn:E;
      apply collect_results_frame in E.
    + injection H as <- _. exact E.
    + unfold lift in H. injection H as <- _. exact E.
  - injection H as <- _. apply only_globs_refl.
Qed.

(** X3: checking the results, in any of the three classes and whatever
    it returns or raises, starts no process, writes no file, prints
    nothing and leaves the environment and the files as they are: the
    events it adds to the trace are globs in the working directory (the
    files that the globs find are read). *)
Theorem checking_results_changes_nothing
  (s : self) (tmpdirpath : string) (st st' : state) (r : exn + unit) :
  assert_correct_results s tmpdirpath st = (st', r) ->
  st_env st' = st_env st
  /\ st_files st' = st_files st
  /\ launches (st_trace st') = launches (st_trace st)
  /\ exists patterns,
       st_trace st' = st_trace st ++ map (Glob tmpdirpath) patterns.
Proof.
  intros H. apply assert_correct_results_frame in H.
  pose proof (only_globs_launches _ _ _ H) as Hl.
  destruct H as (E & F & T). auto.
Qed.

(** *** Launching, whatever comes of it *)

Lemma bind_lift_inl {A B} (e : exn) (k : A -> M B) (st : state) :
  bind (lift (inl e)) k st = (st, inl e).
Proof. reflexivity. Qed.

Lemma bind_emit {A} (ev : event) (k : unit -> M A) e files trace :
  bind (emit ev) k (mk_state e files trace)
  = k tt (mk_state e files (trace ++ [ev])).
Proof. reflexivity. Qed.

Lemma only_prints_from e files trace (evs : list event) :
  forallb is_print evs = true ->
  only_prints (mk_state e files trace) (mk_state e files (trace ++ evs)).
Proof. intros H. repeat split. exists evs. auto. Qed.

(** The handler prints and, when a stream does not decode, stops with
    the decoding error. *)
Lemma report_failure_outcome command tmpdir out err (st st' : state) r :
  report_failure command tmpdir out err st = (st', r) ->
  only_prints st st'
  /\ r = if utf8_valid out && utf8_valid err
         then inr tt else inl UnicodeDecodeError.
Proof.
  destruct st as [e files trace].
  unfold report_failure, decode_utf8.
  destruct (utf8_valid out), (utf8_valid err); cbn [andb];
    repeat (first [rewrite bind_print | rewrite bind_lift_inr
                  | rewrite bind_lift_inl]; cbv beta);
    unfold print, emit; cbn [st_env st_files st_trace];
    intros H; injection H as <- <-; (split; [|reflexivity]);
    rewrite <- !app_assoc; apply only_prints_from; reflexivity.
Qed.

Lemma run_levels_prefix tmpdir (l : list Z) :
  forall res st st' r,
    run_levels tmpdir l res st = (st', r) ->
    exists n,
      launches (st_trace st')
      = launches (st_trace st) ++ map mpirun_command (firstn n l)
      /\ (forall x, r = inr x -> n = List.length l).
Proof.
  induction l as [|p l IH]; intros res st st' r H.
  - injection H as <- <-. exists O. split; [cbn; now rewrite app_nil_r|].
    reflexivity.
  - cbn [run_levels] in H. unfold bind at 1 in H.
    unfold try_except, subprocess_run in H.
    destruct (run_process (st_env st) (mpirun_command p) tmpdir (st_files st))
      as [[e files] [[rc out] err]].
    destruct (Z.eqb rc 0).
    + apply IH in H as (n & Hl & Hn). exists (S n). split.
      * rewrite Hl. cbn [st_trace firstn map]. rewrite launches_app.
        cbn. now rewrite <- app_assoc.
      * intros x Hx. cbn. f_equal. eauto.
    + unfold bind in H.
      match type of H with context [report_failure ?c ?t ?o ?e0 ?s0] =>
        destruct (report_failure c t o e0 s0) as [st2 [e2|[]]] eqn:Er;
        apply report_failure_outcome in Er as [Hp _] end;
        unfold raise in H; injection H as <- <-;
        (exists 1%nat; split; [|intros x Hx; discriminate Hx]);
        rewrite (only_prints_launches _ _ Hp); cbn [st_trace firstn map];
        rewrite launches_app; reflexivity.
Qed.

Lemma launch_levels_prefix (f : func) args kwargs (levels : list Z)
  (st st1 : state) r :
  launch_levels f args kwargs levels st = (st1, r) ->
  exists n,
    launches (st_trace st1)
    = launches (st_trace st) ++ map mpirun_command (firstn n levels)
    /\ (forall x, r = inr x -> n = List.length levels).
Proof.
  unfold launch_levels, bind, TemporaryDirectory, _write_runner.
  destruct (mkdtemp (st_env st)) as [e0 name].
  cbn [st_env st_files st_trace]. intros H.
  match type of H with
  | match run_levels ?t ?l ?r0 ?s0 with _ => _ end = _ =>
      destruct (run_levels t l r0 s0) as [st2 [e|res]] eqn:E;
      apply run_levels_prefix in E as (n & Hl & Hn)
  end.
  - injection H as <- <-. exists n. split; [|intros x Hx; discriminate Hx].
    rewrite Hl. cbn [st_trace]. rewrite launches_app.
    change (launches [WriteFile name RUNNER]) with (@nil (list string)).
    now rewrite app_nil_r.
  - unfold ret in H. injection H as <- <-. exists n. split; [|eauto].
    rewrite Hl. cbn [st_trace]. rewrite launches_app.
    change (launches [WriteFile name RUNNER]) with (@nil (list string)).
    now rewrite app_nil_r.
Qed.

(** [wrapper] after the launches: what the debug flag prints, then the
    check of the results. *)
Lemma wrapper_after_launches (s : self) (f : func) args kwargs
  (st st1 : state) tmpdir res :
  launch_levels f args kwargs (_procs_lst s) st = (st1, inr (tmpdir, res)) ->
  exists st1',
    only_prints st1 st1'
    /\ (_debug s = false -> st1' = st1)
    /\ wrapper s f args kwargs st = assert_correct_results s tmpdir st1'.
Proof.
  intros H. unfold wrapper. unfold bind at 1. rewrite H. cbn [fst snd].
  destruct st1 as [e files trace]. destruct (_debug s).
  - unfold bind at 1. rewrite bind_print, bind_emit. unfold print, emit.
    cbn [st_env st_files st_trace]. eexists. split; [|split; [discriminate|]].
    2: reflexivity.
    rewrite <- !app_assoc. apply only_prints_from. reflexivity.
  - exists (mk_state e files trace).
    split; [apply only_prints_refl|]. split; reflexivity.
Qed.

Lemma wrapper_launch_fails (s : self) (f : func) args kwargs
  (st st1 : state) e :
  launch_levels f args kwargs (_procs_lst s) st = (st1, inl e) ->
  wrapper s f args kwargs st = (st1, inl e).
Proof. intros H. unfold wrapper. unfold bind at 1. now rewrite H. Qed.

(** X8: whatever [wrapper] returns or raises, in any of the three
    classes, the processes it has started are those of the first levels
    of the list, one launch for each, in the order of the list; when it
    returns, every level was launched. *)
Theorem launches_follow_the_levels
  (s : self) (f : func) (args : list Params.pyobj)
  (kwargs : list (string * Params.pyobj)) (st st' : state) (r : exn + unit) :
  wrapper s f args kwargs st = (st', r) ->
  exists n,
    launches (st_trace st')
    = launches (st_trace st)
      ++ map mpirun_command (firstn n (_procs_lst s))
    /\ (r = inr tt -> n = List.length (_procs_lst s)).
Proof.
  intros H.
  destruct (launch_levels f args kwargs (_procs_lst s) st)
    as [st1 [e|[tmpdir res]]] eqn:El.
  - rewrite (wrapper_launch_fails _ _ _ _ _ _ _ El) in H.
    injection H as <- <-.
    apply launch_levels_prefix in El as (n & Hl & _).
    exists n. split; [exact Hl|discriminate].
  - destruct (wrapper_after_launches _ _ _ _ _ _ _ _ El)
      as (st1' & Hp & _ & Hw).
    rewrite Hw in H. apply assert_correct_results_frame in H.
    apply launch_levels_prefix in El as (n & Hl & Hn).
    exists n. split; [|intros _; eapply Hn; reflexivity].
    now rewrite (only_globs_launches _ _ _ H), (only_prints_launches _ _ Hp).
Qed.

(** X1: in the class [MPITestAssertCompletes] the wrapper returns exactly
    when the launches do: when a launch fails the wrapper raises the error
    of the launches, with nothing done or printed after it, and when all
    launches succeed the wrapper returns, having launched every level
    once, in the order of the list, and without any glob after the
    launches. *)
Theorem completes_passes_when_launches_do
  (s : self) (f : func) (args : list Params.pyobj)
  (kwargs : list (string * Params.pyobj)) (st : state) :
  cls s = MPITestAssertCompletes ->
  (forall st1 e,
      launch_levels f args kwargs (_procs_lst s) st = (st1, inl e) ->
      exists st',
        wrapper s f args kwargs st = (st', inl e)
        /\ st_trace st' = st_trace st1)
  /\ (forall st1 r,
        launch_levels f args kwargs (_procs_lst s) st = (st1, inr r) ->
        exists st',
          wrapper s f args kwargs st = (st', inr tt)
          /\ launches (st_trace st')
             = launches (st_trace st) ++ map mpirun_command (_procs_lst s)
          /\ globs (st_trace st') = globs (st_trace st1)).
Proof.
  intros Hcls. split.
  - intros st1 e El. exists st1.
    split; [now apply wrapper_launch_fails|reflexivity].
  - intros st1 [tmpdir res] El.
    destruct (wrapper_after_launches _ _ _ _ _ _ _ _ El)
      as (st1' & Hp & _ & Hw).
    exists st1'. split.
    + rewrite Hw. unfold assert_correct_results. now rewrite Hcls.
    + split.
      * rewrite (only_prints_launches _ _ Hp).
        apply launch_levels_prefix in El as (n & Hl & Hn).
        rewrite Hl, (Hn _ eq_refl), firstn_all. reflexivity.
      * destruct Hp as (_ & _ & evs & -> & P).
        now rewrite globs_app, (globs_of_prints _ P), app_nil_r.
Qed.

(** X2: in the base class [MPITestWrapper] the wrapper never returns:
    it raises the error of the launches, or, when all launches succeed,
    the [AssertionError] of the check that is not implemented. *)
Theorem base_class_never_passes
  (s : self) (f : func) (args : list Params.pyobj)
  (kwargs : list (string * Params.pyobj)) (st : state) :
  cls s = MPITestWrapper ->
  exists st' e,
    wrapper s f args kwargs st = (st', inl e)
    /\ (forall st1 r,
          launch_levels f args kwargs (_procs_lst s) st = (st1, inr r) ->
          e = AssertionError "Test-specific checks not implemented").
Proof.
  intros Hcls.
  destruct (launch_levels f args kwargs (_procs_lst s) st)
    as [st1 [e|[tmpdir res]]] eqn:El.
  - exists st1, e. split; [now apply wrapper_launch_fails|].
    intros st2 r Hr. discriminate Hr.
  - destruct (wrapper_after_launches _ _ _ _ _ _ _ _ El)
      as (st1' & _ & _ & Hw).
    exists st1', (AssertionError "Test-specific checks not implemented").
    split; [|reflexivity].
    rewrite Hw. unfold assert_correct_results. now rewrite Hcls.
Qed.

(** X16: when the levels before [n] have run with exit status 0 and the
    launch at level [n] exits with another status, having written bytes
    to standard output or standard error that are not UTF-8, the wrapper
    raises the [UnicodeDecodeError] of the handler in the place of the
    [CalledProcessError]; no later level is launched. *)
Theorem undecodable_output_hides_the_failure
  (s : self) (f : func) (args : list Params.pyobj)
  (kwargs : list (string * Params.pyobj)) (st0 st1 : state)
  (pre post : list Z) (n : Z) (tmpdir : string)
  (res1 : dict CompletedProcess) (e2 : env) (d2 : directory)
  (rc : Z) (out err : string) :
  _procs_lst s = pre ++ n :: post ->
  launch_levels f args kwargs pre st0 = (st1, inr (tmpdir, res1)) ->
  run_process (st_env st1) (mpirun_command n) tmpdir (st_files st1)
  = (e2, d2, (rc, out, err)) ->
  rc <> 0%Z ->
  utf8_valid out && utf8_valid err = false ->
  exists st2,
    wrapper s f args kwargs st0 = (st2, inl UnicodeDecodeError)
    /\ launches (st_trace st2)
       = launches (st_trace st0) ++ map mpirun_command (pre ++ [n]).
Proof.
  intros Hlst Hpre Hrun Hrc Hbad.
  assert (Hfail : exists st2,
             launch_levels f args kwargs (_procs_lst s) st0
             = (st2, inl UnicodeDecodeError)
             /\ launches (st_trace st2)
                = launches (st_trace st1) ++ [mpirun_command n]).
  { unfold launch_levels, bind, TemporaryDirectory in Hpre |- *.
    rewrite Hlst.
    destruct (mkdtemp (st_env st0)) as [e0 name].
    unfold _write_runner in *. cbn [st_env st_files st_trace] in *.
    rewrite run_levels_app.
    match type of Hpre with
    | match run_levels ?t pre ?r ?st with _ => _ end = _ =>
        destruct (run_levels t pre r st) as [st1' [e'|res]] eqn:Hlv;
        [discriminate Hpre|]
    end.
    unfold ret in Hpre. injection Hpre as -> -> ->.
    cbn [run_levels]. unfold bind at 1. unfold try_except, subprocess_run.
    rewrite Hrun.
    destruct (Z.eqb rc 0) eqn:E; [apply Z.eqb_eq in E; contradiction|].
    unfold bind.
    match goal with |- context [report_failure ?c ?t ?o ?e0 ?s0] =>
      destruct (report_failure c t o e0 s0) as [st2 [e3|[]]] eqn:Er;
      apply report_failure_outcome in Er as [Hp Hr] end;
      rewrite Hbad in Hr; [|discriminate Hr].
    injection Hr as ->. exists st2. split; [reflexivity|].
    rewrite (only_prints_launches _ _ Hp). cbn [st_trace].
    rewrite launches_app. reflexivity. }
  destruct Hfail as (st2 & Hl & Hn). exists st2.
  split; [now apply wrapper_launch_fails|].
  rewrite Hn. apply launch_levels_prefix in Hpre as (k & Hk & Hall).
  rewrite Hk, (Hall _ eq_refl), firstn_all, map_app.
  now rewrite <- app_assoc.
Qed.

(** *** What was printed does not matter *)

Lemma same_but_prints_of_only_prints (st st' : state) :
  only_prints st st' -> same_but_prints st' st.
Proof.
  intros (E & F & evs & T & P). repeat split; auto.
  now rewrite T, actions_app, (actions_of_prints _ P), app_nil_r.
Qed.

Lemma blind_ret {A} (a : A) : print_blind (ret a).
Proof. intros st1 st2 H. split; [reflexivity|exact H]. Qed.

Lemma blind_lift {A} (r : exn + A) : print_blind (lift r).
Proof. intros st1 st2 H. split; [reflexivity|exact H]. Qed.

Lemma blind_raise {A} (e : exn) : print_blind (raise (A:=A) e).
Proof. intros st1 st2 H. split; [reflexivity|exact H]. Qed.

Lemma blind_glob tmpdirpath pattern : print_blind (glob tmpdirpath pattern).
Proof.
  intros st1 st2 (E & F & T). unfold glob. cbn [fst snd]. split.
  - now rewrite F.
  - repeat split; cbn [st_env st_files st_trace]; auto.
    now rewrite !actions_app, T.
Qed.

Lemma blind_bind {A B} (m : M A) (k : A -> M B) :
  print_blind m -> (forall a, print_blind (k a)) -> print_blind (bind m k).
Proof.
  intros Hm Hk st1 st2 H. destruct (Hm st1 st2 H) as [Hs Hw].
  unfold bind.
  destruct (m st1) as [s1 [e1|a1]], (m st2) as [s2 [e2|a2]];
    cbn [fst snd] in *; try discriminate Hs.
  - injection Hs as ->. split; [reflexivity|exact Hw].
  - injection Hs as ->. apply Hk, Hw.
Qed.

Lemma blind_collect_levels tmpdirpath label (levels : list Z) :
  forall res, print_blind (collect_levels tmpdirpath label levels res).
Proof.
  induction levels as [|n levels IH]; intros res; cbn [collect_levels].
  - apply blind_ret.
  - apply blind_bind; [apply blind_lift|intros pat].
    apply blind_bind; [apply blind_glob|intros files].
    apply blind_bind; [apply blind_lift|intros data]. apply IH.
Qed.

Lemma blind_collect_by_label (s : self) tmpdirpath label :
  print_blind (_collect_result_by_label s tmpdirpath label).
Proof.
  unfold _collect_result_by_label.
  apply blind_bind; [apply blind_lift|intros label'].
  apply blind_bind; [apply blind_lift|intros pat].
  apply blind_bind; [apply blind_glob|intros found].
  destruct found; [apply blind_ret|].
  apply blind_bind; [apply blind_collect_levels|intros res]. apply blind_ret.
Qed.

Lemma blind_assert_correct_results (s : self) tmpdirpath :
  print_blind (assert_correct_results s tmpdirpath).
Proof.
  unfold assert_correct_results. destruct (cls s).
  - apply blind_raise.
  - apply blind_bind; [|intros s'; apply blind_lift].
    unfold collect_results.
    apply blind_bind; [apply blind_collect_by_label|intros r1].
    apply blind_bind; [apply blind_collect_by_label|intros r2].
    apply blind_bind; [apply blind_collect_by_label|intros r3].
    apply blind_ret.
  - apply blind_ret.
Qed.

Lemma assert_correct_results_with_debug (b : bool) (s : self) tmpdirpath st :
  assert_correct_results (with_debug b s) tmpdirpath st
  = assert_correct_results s tmpdirpath st.
Proof.
  unfold assert_correct_results. cbn [with_debug cls].
  destruct (cls s); try reflexivity.
  unfold bind, collect_results, bind.
  change (_collect_result_by_label (with_debug b s))
    with (_collect_result_by_label s).
  destruct (_collect_result_by_label s tmpdirpath SPIKE_LABEL st)
    as [st1 [e|r1]]; [reflexivity|].
  destruct (_collect_result_by_label s tmpdirpath MULTI_LABEL st1)
    as [st2 [e|r2]]; [reflexivity|].
  destruct (_collect_result_by_label s tmpdirpath OTHER_LABEL st2)
    as [st3 [e|r3]]; reflexivity.
Qed.

Lemma wrapper_debug_blind
  (s : self) (f : func) (args : list Params.pyobj)
  (kwargs : list (string * Params.pyobj)) (st : state) :
  snd (wrapper (with_debug true s) f args kwargs st)
  = snd (wrapper (with_debug false s) f args kwargs st)
  /\ same_but_prints (fst (wrapper (with_debug true s) f args kwargs st))
       (fst (wrapper (with_debug false s) f args kwargs st)).
Proof.
  destruct (launch_levels f args kwargs (_procs_lst s) st)
    as [st1 [e|[tmpdir res]]] eqn:El.
  - rewrite (wrapper_launch_fails (with_debug true s) _ _ _ _ _ _ El),
      (wrapper_launch_fails (with_debug false s) _ _ _ _ _ _ El).
    split; [reflexivity|]. repeat split.
  - destruct (wrapper_after_launches (with_debug true s) _ _ _ _ _ _ _ El)
      as (st_on & Hp & _ & Hon).
    destruct (wrapper_after_launches (with_debug false s) _ _ _ _ _ _ _ El)
      as (st_off & _ & Hoff & Hw).
    rewrite Hon, Hw, (Hoff eq_refl), !assert_correct_results_with_debug.
    apply blind_assert_correct_results.
    now apply same_but_prints_of_only_prints.
Qed.

Lemma launches_of_actions (trace : list event) :
  launches (actions trace) = launches trace.
Proof.
  unfold launches, actions.
  induction trace as [|ev trace IH]; [reflexivity|].
  destruct ev; cbn; rewrite ?IH; reflexivity.
Qed.

Lemma globs_of_actions (trace : list event) :
  globs (actions trace) = globs trace.
Proof.
  unfold globs, actions.
  induction trace as [|ev trace IH]; [reflexivity|].
  destruct ev; cbn; rewrite ?IH; reflexivity.
Qed.

(** X9: the debug flag changes neither what the wrapper returns or raises
    nor what it does besides printing: with the flag set and with the flag
    cleared the result is the same, and so are the events other than
    prints, in their order: the write of the runner, the launches and the
    globs.  (The flag adds prints, and it asks for the working directory
    to stay once the run is over.) *)
Theorem debug_flag_keeps_result_and_actions
  (s : self) (f : func) (args : list Params.pyobj)
  (kwargs : list (string * Params.pyobj)) (st : state) :
  let on := wrapper (with_debug true s) f args kwargs st in
  let off := wrapper (with_debug false s) f args kwargs st in
  snd on = snd off
  /\ actions (st_trace (fst on)) = actions (st_trace (fst off))
  /\ launches (st_trace (fst on)) = launches (st_trace (fst off))
  /\ globs (st_trace (fst on)) = globs (st_trace (fst off)).
Proof.
  cbv zeta.
  destruct (wrapper_debug_blind s f args kwargs st) as (Hr & _ & _ & Ha).
  split; [exact Hr|]. split; [exact Ha|]. split.
  - rewrite <- launches_of_actions, Ha. apply launches_of_actions.
  - rewrite <- globs_of_actions, Ha. apply globs_of_actions.
Qed.

(** *** The keys of what is collected *)

Lemma dict_set_keys {V} (k : Z) (v : V) (d : dict V) (n : Z) :
  In n (map fst (dict_set k v d)) <-> n = k \/ In n (map fst d).
Proof.
  induction d as [|[k' v'] d IH]; cbn.
  - intuition.
  - destruct (Z.eqb k k') eqn:E; cbn.
    + apply Z.eqb_eq in E. subst k'. intuition.
    + rewrite IH. intuition.
Qed.

Lemma dict_set_NoDup {V} (k : Z) (v : V) (d : dict V) :
  NoDup (map fst d) -> NoDup (map fst (dict_set k v d)).
Proof.
  induction d as [|[k' v'] d IH]; cbn; intros H.
  - constructor; [intros []|constructor].
  - inversion H as [|x l Hx Hl]; subst.
    destruct (Z.eqb k k') eqn:E; cbn.
    + apply Z.eqb_eq in E. subst k'. constructor; assumption.
    + constructor; [|apply IH, Hl].
      rewrite dict_set_keys. intros [->|Hin]; [|contradiction].
      rewrite Z.eqb_refl in E. discriminate E.
Qed.

Lemma collect_levels_key_set tmpdirpath label (levels : list Z) :
  forall res st st' res',
    collect_levels tmpdirpath label levels res st = (st', inr res') ->
    NoDup (map fst res) ->
    NoDup (map fst res')
    /\ forall n, In n (map fst res') <-> In n (map fst res) \/ In n levels.
Proof.
  induction levels as [|m levels IH]; intros res st st' res' H Hnd.
  - injection H as _ <-. split; [exact Hnd|]. intros n. cbn. tauto.
  - cbn [collect_levels] in H. unfold bind, lift, glob in H.
    destruct (format label [str_int m; "*"%string]) as [e|pat];
      [discriminate H|].
    destruct (read_frames _ []) as [e|data]; [discriminate H|].
    apply IH in H as [H1 H2]; [|now apply dict_set_NoDup].
    split; [exact H1|]. intros n. rewrite H2, dict_set_keys. cbn.
    intuition (subst; auto).
Qed.

Lemma collect_by_label_key_set (s : self) tmpdirpath label (st st' : state) d :
  _collect_result_by_label s tmpdirpath label st = (st', inr (Some d)) ->
  NoDup (map fst d)
  /\ forall n, In n (map fst d) <-> In n (_procs_lst s).
Proof.
  intros H. unfold _collect_result_by_label, bind, lift, glob in H.
  destruct (complete_label label) as [e|label']; [discriminate H|].
  destruct (format label' ["*"; "*"]%string) as [e|pat]; [discriminate H|].
  cbn [st_env st_files st_trace] in H.
  destruct (filter _ (st_files st)) as [|f found]; [discriminate H|].
  match type of H with
  | match collect_levels ?t ?l ?lv ?r ?s0 with _ => _ end = _ =>
      destruct (collect_levels t l lv r s0) as [st1 [e|res]] eqn:E;
      [discriminate H|]
  end.
  unfold ret in H. injection H as _ <-.
  apply collect_levels_key_set in E as [H1 H2]; [|constructor].
  split; [exact H1|]. intros n. rewrite H2. cbn. tauto.
Qed.

(** X5: the dictionary that the collector returns for a label has
    pairwise distinct keys, and its keys are the configured levels: a
    level listed several times has one entry, so that the dictionary has
    at most as many entries as the list has levels, and it is empty
    exactly when the list is. *)
Theorem collected_keys_are_the_distinct_levels
  (s : self) (tmpdirpath label : string) (st st' : state)
  (d : dict (list DataFrame)) :
  _collect_result_by_label s tmpdirpath label st = (st', inr (Some d)) ->
  NoDup (map fst d)
  /\ (forall n, In n (map fst d) <-> In n (_procs_lst s))
  /\ (List.length d <= List.length (_procs_lst s))%nat
  /\ (d = [] <-> _procs_lst s = []).
Proof.
  intros H. apply collect_by_label_key_set in H as [Hnd Hk].
  split; [exact Hnd|]. split; [exact Hk|]. split.
  - rewrite <- (length_map fst d). apply NoDup_incl_length; [exact Hnd|].
    intros n Hn. now apply Hk.
  - split.
    + intros ->. destruct (_procs_lst s) as [|n l]; [reflexivity|].
      destruct (proj2 (Hk n) (or_introl eq_refl)).
    + intros E. rewrite E in Hk. destruct d as [|[n v] d]; [reflexivity|].
      destruct (proj1 (Hk n) (or_introl eq_refl)).
Qed.

(** *** Kinds present and absent *)

Lemma collect_kind_full (k : kind) (s : self) tmpdirpath (st : state) :
  (forall n f, In n (_procs_lst s) -> In f (st_files st) ->
               fnmatch (level_pattern k n) (fst f) = true ->
               parses_or_empty f) ->
  exists st' r,
    _collect_result_by_label s tmpdirpath (label_of k) st = (st', inr r)
    /\ st_files st' = st_files st
    /\ (r = None
        <-> forall f, In f (st_files st) ->
                      fnmatch (any_level_pattern k) (fst f) = false)
    /\ (forall d, r = Some d ->
                  (forall n, In n (_procs_lst s) ->
                             dict_get n d = Some (parsed_at k n (st_files st)))
                  /\ NoDup (map fst d)
                  /\ (forall n, In n (map fst d) <-> In n (_procs_lst s))).
Proof.
  intros Hread.
  destruct (collect_kind k s tmpdirpath st Hread) as (st' & r & E & F & Hp).
  exists st', r. split; [exact E|]. split; [exact F|].
  assert (Hnone : (forall f, In f (st_files st) ->
                             fnmatch (any_level_pattern k) (fst f) = false)
                  -> r = None).
  { intros H. rewrite (collect_absent k s tmpdirpath st H) in E.
    now injection E as _ <-. }
  split; [split; [|exact Hnone]|].
  - intros -> f Hf.
    destruct (fnmatch (any_level_pattern k) (fst f)) eqn:M; [|reflexivity].
    destruct Hp as (d & Hd & _); [eauto|discriminate Hd].
  - intros d ->.
    destruct (existsb (fun f => fnmatch (any_level_pattern k) (fst f))
                (st_files st)) eqn:Ex.
    + apply existsb_exists in Ex. destruct (Hp Ex) as (d' & Hd & Hget).
      injection Hd as <-. split; [exact Hget|].
      now apply collect_by_label_key_set in E.
    + assert (Some d = None); [|discriminate].
      apply Hnone. intros f Hf.
      destruct (fnmatch (any_level_pattern k) (fst f)) eqn:M; [|reflexivity].
      assert (existsb (fun f => fnmatch (any_level_pattern k) (fst f))
                (st_files st) = true) by (apply existsb_exists; eauto).
      congruence.
Qed.

(** X4: when every file that the collector parses either parses or is
    reported as empty data, [collect_results] returns the object with the
    three kinds filled in and its class, levels and debug flag as they
    were; the attribute of a kind is [None] exactly when no file of the
    directory matches the template of that kind. *)
Theorem kinds_without_files_are_none
  (s : self) (tmpdirpath : string) (st : state) :
  (forall k n f, In n (_procs_lst s) -> In f (st_files st) ->
                 fnmatch (level_pattern k n) (fst f) = true ->
                 parses_or_empty f) ->
  exists st' s',
    collect_results s tmpdirpath st = (st', inr s')
    /\ cls s' = cls s /\ _procs_lst s' = _procs_lst s /\ _debug s' = _debug s
    /\ forall k,
         collected k s' = None
         <-> forall f, In f (st_files st) ->
                       fnmatch (any_level_pattern k) (fst f) = false.
Proof.
  intros Hread. unfold collect_results.
  change SPIKE_LABEL with (label_of Spike).
  change MULTI_LABEL with (label_of Multi).
  change OTHER_LABEL with (label_of Other).
  destruct (collect_kind_full Spike s tmpdirpath st (Hread Spike))
    as (st1 & r1 & E1 & F1 & H1 & _).
  unfold bind at 1. rewrite E1.
  destruct (collect_kind_full Multi s tmpdirpath st1)
    as (st2 & r2 & E2 & F2 & H2 & _).
  { rewrite F1. apply Hread. }
  unfold bind at 1. rewrite E2.
  destruct (collect_kind_full Other s tmpdirpath st2)
    as (st3 & r3 & E3 & F3 & H3 & _).
  { rewrite F2, F1. apply Hread. }
  unfold bind at 1. rewrite E3.
  exists st3. eexists. split; [reflexivity|]. repeat (split; [reflexivity|]).
  rewrite F1 in H2. rewrite F2, F1 in H3.
  intros [ | | ]; cbn [collected _spike _multi _other]; assumption.
Qed.

(** *** A level listed twice *)

Lemma dict_get_of_entry {V} (n : Z) (v : V) (d : dict V) :
  NoDup (map fst d) -> In (n, v) d -> dict_get n d = Some v.
Proof.
  induction d as [|[k w] d IH]; cbn; intros Hnd Hin; [destruct Hin|].
  inversion Hnd as [|x l Hx Hl]; subst.
  destruct Hin as [E|Hin].
  - injection E as -> ->. now rewrite Z.eqb_refl.
  - destruct (Z.eqb n k) eqn:E.
    + apply Z.eqb_eq in E. subst k. exfalso. apply Hx.
      apply in_map_iff. exists (n, v). auto.
    + auto.
Qed.

Lemma combine_levels_total keys (per_level : list (list DataFrame)) :
  (forall frames, In frames per_level ->
                  exists df, combined_sorted keys frames = inr df) ->
  exists dfs,
    combine_levels keys per_level = inr dfs
    /\ List.length dfs = List.length per_level.
Proof.
  induction per_level as [|frames rest IH]; intros H.
  - exists []. split; reflexivity.
  - cbn [combine_levels].
    destruct (H frames (or_introl eq_refl)) as [df ->].
    destruct IH as (dfs & -> & Hl); [intros fr Hfr; apply H; now right|].
    exists (df :: dfs). split; [reflexivity|]. cbn. now rewrite Hl.
Qed.

(** X6: when a level is listed more than once, spike files are the only
    artifacts, every spike file the collector parses either parses or is
    reported as empty data, and the frames of every level combine, then
    [assert_correct_results] of [MPITestAssertEqual] raises the
    [AssertionError] "Could not collect data for all procs": the
    collected dictionary has fewer entries than the list has levels. *)
Theorem repeated_level_fails_the_count
  (s : self) (tmpdirpath : string) (st : state) :
  cls s = MPITestAssertEqual ->
  ~ NoDup (_procs_lst s) ->
  (exists f, In f (st_files st)
             /\ fnmatch (any_level_pattern Spike) (fst f) = true) ->
  (forall f, In f (st_files st) ->
             fnmatch (any_level_pattern Multi) (fst f) = false) ->
  (forall f, In f (st_files st) ->
             fnmatch (any_level_pattern Other) (fst f) = false) ->
  (forall n f, In n (_procs_lst s) -> In f (st_files st) ->
               fnmatch (level_pattern Spike n) (fst f) = true ->
               parses_or_empty f) ->
  (forall n, In n (_procs_lst s) ->
             exists df, combined_sorted spike_keys
                          (parsed_at Spike n (st_files st)) = inr df) ->
  exists st',
    assert_correct_results s tmpdirpath st
    = (st', inl (AssertionError "Could not collect data for all procs")).
Proof.
  intros Hcls Hdup Hspike Hmulti Hother Hread Hcomb.
  unfold assert_correct_results. rewrite Hcls.
  unfold bind at 1. unfold collect_results.
  change SPIKE_LABEL with (label_of Spike).
  change MULTI_LABEL with (label_of Multi).
  change OTHER_LABEL with (label_of Other).
  destruct (collect_kind_full Spike s tmpdirpath st Hread)
    as (st1 & r1 & E1 & F1 & N1 & S1).
  unfold bind at 1. rewrite E1.
  destruct r1 as [d|].
  2:{ destruct Hspike as (f & Hf & Hm).
      rewrite (proj1 N1 eq_refl f Hf) in Hm. discriminate Hm. }
  destruct (S1 d eq_refl) as (Hget & Hnd & Hkeys).
  unfold bind at 1. rewrite collect_absent by (rewrite F1; exact Hmulti).
  unfold bind at 1.
  rewrite collect_absent by (cbn [st_files]; rewrite F1; exact Hother).
  unfold ret, lift. eexists. f_equal.
  unfold compare_collected. cbn [_spike _multi _other _procs_lst truthy].
  assert (Hne : d <> []).
  { intros ->. apply Hdup. destruct (_procs_lst s) as [|n l]; [constructor|].
    destruct (proj2 (Hkeys n) (or_introl eq_refl)). }
  destruct d as [|entry d]; [contradiction|]. set (d0 := entry :: d) in *.
  cbn [values_of].
  destruct (combine_levels_total spike_keys (values d0)) as (dfs & -> & Hl).
  { intros frames Hin. apply in_map_iff in Hin as ([n fr] & <- & Hin).
    cbn [snd]. pose proof (dict_get_of_entry _ _ _ Hnd Hin) as Hg.
    assert (Hn : In n (_procs_lst s)).
    { apply Hkeys. apply in_map_iff. exists (n, fr). auto. }
    rewrite (Hget n Hn) in Hg. injection Hg as <-. now apply Hcomb. }
  cbn [bindE app Ast.is_nil negb assertE check_all].
  assert (Hlen : Nat.eqb (List.length dfs) (List.length (_procs_lst s))
                 = false).
  { apply Nat.eqb_neq. intros Heq. apply Hdup.
    eapply NoDup_incl_NoDup; [exact Hnd| |].
    - rewrite length_map. unfold values in Hl. rewrite length_map in Hl.
      rewrite <- Hl, Heq. apply le_n.
    - intros n Hn. now apply Hkeys. }
  rewrite Hlen. reflexivity.
Qed.

(** *** Multimeter files *)

Lemma collect_kind_some (k : kind) (s : self) tmpdirpath (st st' : state) r :
  _collect_result_by_label s tmpdirpath (label_of k) st = (st', inr r) ->
  (exists f, In f (st_files st)
             /\ fnmatch (any_level_pattern k) (fst f) = true) ->
  exists d, r = Some d.
Proof.
  intros H (f & Hf & Hm).
  unfold _collect_result_by_label, bind, lift in H.
  rewrite complete_label_of, format_any_level in H.
  unfold glob in H. cbn [st_env st_files st_trace] in H.
  destruct (filter (fun f => fnmatch (any_level_pattern k) (fst f))
              (st_files st)) as [|f1 found] eqn:Efound.
  { assert (Hin : In f (filter (fun f => fnmatch (any_level_pattern k) (fst f))
                          (st_files st))) by (apply filter_In; auto).
    rewrite Efound in Hin. destruct Hin. }
  match type of H with
  | match collect_levels ?t ?l ?lv ?r0 ?s0 with _ => _ end = _ =>
      destruct (collect_levels t l lv r0 s0) as [st1 [e|res]];
      [discriminate H|]
  end.
  unfold ret in H. injection H as _ <-. eauto.
Qed.

Lemma compare_collected_multi (s : self) :
  truthy (_multi s) = true -> exists e, compare_collected s = inl e.
Proof.
  intros H. unfold compare_collected.
  destruct (if truthy (_spike s) then _ else _) as [e|all_res];
    cbn [bindE]; [eauto|].
  rewrite H. eauto.
Qed.

(** X7: with at least one configured level, a file that matches the
    multimeter template makes [assert_correct_results] of
    [MPITestAssertEqual] raise, whatever else the directory holds: the
    comparison of multimeter data is not implemented, and on collected
    data with multimeter entries and without spike entries the error is
    the [NotImplementedError]. *)
Theorem multimeter_files_are_refused
  (s : self) (tmpdirpath : string) (st : state) :
  cls s = MPITestAssertEqual ->
  _procs_lst s <> [] ->
  (exists f, In f (st_files st)
             /\ fnmatch (any_level_pattern Multi) (fst f) = true) ->
  (exists st' e, assert_correct_results s tmpdirpath st = (st', inl e))
  /\ (forall s', truthy (_multi s') = true -> truthy (_spike s') = false ->
                 compare_collected s'
                 = inl (NotImplementedError "MULTI is not ready yet")).
Proof.
  intros Hcls Hne Hmulti. split.
  - unfold assert_correct_results. rewrite Hcls.
    unfold bind at 1. unfold collect_results. unfold bind at 1.
    destruct (_collect_result_by_label s tmpdirpath SPIKE_LABEL st)
      as [st1 [e|r1]] eqn:E1; [eauto|].
    unfold bind at 1.
    destruct (_collect_result_by_label s tmpdirpath MULTI_LABEL st1)
      as [st2 [e|r2]] eqn:E2; [eauto|].
    unfold bind at 1.
    destruct (_collect_result_by_label s tmpdirpath OTHER_LABEL st2)
      as [st3 [e|r3]] eqn:E3; [eauto|].
    unfold ret, lift.
    apply collect_by_label_frame in E1 as (_ & F1 & _).
    destruct (collect_kind_some Multi s tmpdirpath st1 st2 r2 E2) as [d ->].
    { now rewrite F1. }
    apply collect_by_label_key_set in E2 as [_ Hkeys].
    match goal with |- context [compare_collected ?x] =>
      destruct (compare_collected_multi x) as [e He] end.
    { cbn [_multi]. destruct d as [|entry d]; [|reflexivity].
      destruct (_procs_lst s) as [|n l]; [contradiction|].
      destruct (proj2 (Hkeys n) (or_introl eq_refl)). }
    rewrite He. eauto.
  - intros s' Hm Hs. unfold compare_collected. now rewrite Hs, Hm.
Qed.

(** *** No level at all *)

Lemma assert_equal_without_artifacts (s : self) tmpdirpath (st : state) :
  cls s = MPITestAssertEqual ->
  (forall k f, In f (st_files st) ->
               fnmatch (any_level_pattern k) (fst f) = false) ->
  exists st',
    assert_correct_results s tmpdirpath st
    = (st', inl (AssertionError "No test data collected")).
Proof.
  intros Hcls Hk.
  unfold assert_correct_results. rewrite Hcls.
  unfold collect_results, bind.
  change SPIKE_LABEL with (label_of Spike).
  change MULTI_LABEL with (label_of Multi).
  change OTHER_LABEL with (label_of Other).
  rewrite (collect_absent Spike s tmpdirpath st (Hk Spike)).
  rewrite (collect_absent Multi); [|exact (Hk Multi)].
  rewrite (collect_absent Other); [|exact (Hk Other)].
  eexists. reflexivity.
Qed.

(** X10: with the empty list of levels the wrapper of
    [MPITestAssertEqual] starts no process and raises the
    [AssertionError] "No test data collected": the fresh directory holds
    the runner and nothing else. *)
Theorem no_level_no_launch_no_data
  (s : self) (f : func) (args : list Params.pyobj)
  (kwargs : list (string * Params.pyobj)) (st : state) :
  cls s = MPITestAssertEqual ->
  _procs_lst s = [] ->
  exists st',
    wrapper s f args kwargs st
    = (st', inl (AssertionError "No test data collected"))
    /\ launches (st_trace st') = launches (st_trace st).
Proof.
  intros Hcls Hnil.
  destruct (mkdtemp (st_env st)) as [e0 name] eqn:Em.
  eassert (El : launch_levels f args kwargs (_procs_lst s) st
                = (_, inr (_, _))).
  { rewrite Hnil. unfold launch_levels, bind, TemporaryDirectory,
      _write_runner.
    rewrite Em. cbn [st_env st_files st_trace run_levels write_file].
    reflexivity. }
  destruct (wrapper_after_launches _ _ _ _ _ _ _ _ El)
    as (st1' & Hp & _ & Hw).
  destruct (assert_equal_without_artifacts s name st1' Hcls) as [st' Ha].
  { intros k g Hg. destruct Hp as (_ & F & _). rewrite F in Hg.
    cbn [st_files] in Hg. destruct Hg as [<-|[]]. destruct k; reflexivity. }
  exists st'. rewrite Hw. split; [exact Ha|].
  apply assert_correct_results_frame in Ha.
  rewrite (only_globs_launches _ _ _ Ha), (only_prints_launches _ _ Hp).
  cbn [st_trace]. rewrite launches_app. cbn. now rewrite app_nil_r.
Qed.

End Facts.

End HarnessCoverage.

(** ** More on labels and patterns *)

Module PatternCoverage.

Import Py Harness.

Local Open Scope string_scope.

Lemma fnmatch_star (p nm : string) :
  fnmatch (String "*" p) nm
  = fnmatch p nm
    || match nm with
       | EmptyString => false
       | String _ nm' => fnmatch (String "*" p) nm'
       end.
Proof. destruct nm; reflexivity. Qed.

Lemma fnmatch_star_skips (p skipped nm : string) :
  fnmatch p nm = true -> fnmatch (String "*" p) (skipped ++ nm) = true.
Proof.
  intros H. induction skipped as [|c skipped IH]; rewrite fnmatch_star.
  - cbn [append]. now rewrite H.
  - cbn [append]. rewrite IH. apply orb_true_r.
Qed.

Lemma fnmatch_literal (lit p nm : string) :
  contains_char "*" lit = false ->
  fnmatch (lit ++ p) (lit ++ nm) = fnmatch p nm.
Proof.
  induction lit as [|c lit IH]; intros H; [reflexivity|].
  cbn [contains_char] in H. apply orb_false_iff in H as [Hc Hl].
  cbn [append fnmatch]. rewrite Ascii.eqb_sym, Hc, Ascii.eqb_refl.
  rewrite orb_true_r. cbn [andb]. now apply IH.
Qed.

Lemma fnmatch_first (c : ascii) (p nm : string) :
  Ascii.eqb c "*" = false -> Ascii.eqb c "?" = false ->
  fnmatch (String c p) nm = true -> exists nm', nm = String c nm'.
Proof.
  intros H1 H2. cbn [fnmatch]. rewrite H1, H2.
  destruct nm as [|d nm]; [discriminate|]. cbn [orb].
  intros H. apply andb_true_iff in H as [H _].
  apply Ascii.eqb_eq in H. subst d. eauto.
Qed.

Lemma uint_no_star (d : Decimal.uint) :
  contains_char "*" (NilEmpty.string_of_uint d) = false.
Proof. induction d; cbn; auto. Qed.

Lemma str_int_no_star (n : Z) : contains_char "*" (str_int n) = false.
Proof.
  unfold str_int. destruct (Z.to_int n) as [d|d]; cbn;
    apply uint_no_star.
Qed.

Lemma stem_no_star (k : kind) : contains_char "*" (stem k) = false.
Proof. destruct k; reflexivity. Qed.

(** X14: for every kind, level and rank, the file name that the label
    gives once it is completed and filled with the level and the rank is
    matched by the pattern that the collector globs for that level, and
    by the pattern with both slots open that decides whether the kind is
    present. *)
Theorem artifacts_named_by_the_label_are_found
  (k : kind) (n_procs : Z) (rank : string) :
  (exists label,
      complete_label (label_of k) = inr label
      /\ format label [str_int n_procs; rank]
         = inr (artifact_name k n_procs rank))
  /\ fnmatch (level_pattern k n_procs) (artifact_name k n_procs rank) = true
  /\ fnmatch (any_level_pattern k) (artifact_name k n_procs rank) = true.
Proof.
  assert (Htail : fnmatch "-*.dat" ("-" ++ rank ++ ".dat") = true).
  { change "-*.dat" with ("-" ++ "*.dat").
    rewrite (fnmatch_literal "-" "*.dat" (rank ++ ".dat") eq_refl).
    apply fnmatch_star_skips. reflexivity. }
  split; [|split].
  - exists (stem k ++ "-{}-{}.dat"). split; destruct k; reflexivity.
  - unfold level_pattern, artifact_name.
    rewrite (fnmatch_literal (stem k) _ _ (stem_no_star k)).
    rewrite (fnmatch_literal "-" (str_int n_procs ++ "-*.dat")
               (str_int n_procs ++ "-" ++ rank ++ ".dat") eq_refl).
    rewrite (fnmatch_literal (str_int n_procs) _ _ (str_int_no_star n_procs)).
    exact Htail.
  - unfold any_level_pattern, artifact_name.
    rewrite (fnmatch_literal (stem k) _ _ (stem_no_star k)).
    change "-*-*.dat" with ("-" ++ "*-*.dat").
    rewrite (fnmatch_literal "-" "*-*.dat"
               (str_int n_procs ++ "-" ++ rank ++ ".dat") eq_refl).
    apply fnmatch_star_skips. exact Htail.
Qed.

Lemma pattern_first_char (k : kind) (pattern name : string) :
  (pattern = any_level_pattern k
   \/ exists n, pattern = level_pattern k n) ->
  fnmatch pattern name = true ->
  exists c rest c' rest',
    stem k = String c rest /\ name = String c' rest' /\ c = c'.
Proof.
  intros Hp Hm.
  assert (E : exists c rest tail,
             stem k = String c rest /\ pattern = String c tail
             /\ Ascii.eqb c "*" = false /\ Ascii.eqb c "?" = false).
  { destruct Hp as [->|[n ->]]; destruct k;
      (eexists _, _, _; split; [reflexivity|];
       split; [reflexivity|split; reflexivity]). }
  destruct E as (c & rest & tail & Hs & -> & H1 & H2).
  destruct (fnmatch_first c tail name H1 H2 Hm) as [nm' ->].
  exists c, rest, c, nm'. auto.
Qed.

(** X15: the patterns of two different kinds have no file name in
    common: a name matched by a pattern of one kind, with the level open
    or filled in, is matched by no pattern of another kind, so that a
    file is collected for one kind at most. *)
Theorem kinds_share_no_file
  (k1 k2 : kind) (pattern1 pattern2 name : string) :
  (pattern1 = any_level_pattern k1
   \/ exists n, pattern1 = level_pattern k1 n) ->
  (pattern2 = any_level_pattern k2
   \/ exists n, pattern2 = level_pattern k2 n) ->
  fnmatch pattern1 name = true ->
  fnmatch pattern2 name = true ->
  k1 = k2.
Proof.
  intros P1 P2 M1 M2.
  destruct (pattern_first_char k1 _ _ P1 M1)
    as (c1 & r1 & c1' & n1 & S1 & N1 & E1).
  destruct (pattern_first_char k2 _ _ P2 M2)
    as (c2 & r2 & c2' & n2 & S2 & N2 & E2).
  subst. injection N2 as Hc _. subst.
  destruct k1, k2; try reflexivity; discriminate S1 || (injection S1 as Hc _;
    injection S2 as Hc' _; congruence).
Qed.

Lemma kinds_share_no_file_run :
  fnmatch (level_pattern Spike 2) "spike-2-0.dat" = true
  /\ fnmatch (any_level_pattern Spike) "spike-2-0.dat" = true
  /\ Spike = Spike.
Proof.
  split; [vm_compute; reflexivity|]. split; [vm_compute; reflexivity|].
  apply (kinds_share_no_file Spike Spike (level_pattern Spike 2)
           (any_level_pattern Spike) "spike-2-0.dat").
  - right. exists 2%Z. reflexivity.
  - left. reflexivity.
  - vm_compute. reflexivity.
  - vm_compute. reflexivity.
Defined.

End PatternCoverage.

(** ** The further statements on the sample platform *)

Module RunsCoverage.

Import Py Harness Sample HarnessCoverage.

Local Open Scope Z_scope.

Lemma checking_results_changes_nothing_run :
  exists st' r,
    assert_correct_results (assert_equal [1; 2]) tmp silent_at_two = (st', r)
    /\ st_files st' = st_files silent_at_two
    /\ launches (st_trace st') = launches (st_trace silent_at_two).
Proof.
  destruct (assert_correct_results (assert_equal [1; 2]) tmp silent_at_two)
    as [st' r] eqn:E.
  exists st', r. split; [reflexivity|].
  destruct (checking_results_changes_nothing _ _ _ _ _ E) as (_ & F & L & _).
  split; [exact F|exact L].
Defined.

Lemma launches_follow_the_levels_run :
  exists st' r n,
    wrapper (assert_equal [1; 2; 4]) rates_test [] []
      (start tmp [one_process; crash]) = (st', r)
    /\ launches (st_trace st')
       = launches (st_trace (start tmp [one_process; crash]))
         ++ map mpirun_command (firstn n [1; 2; 4]).
Proof.
  destruct (wrapper (assert_equal [1; 2; 4]) rates_test [] []
              (start tmp [one_process; crash])) as [st' r] eqn:E.
  destruct (launches_follow_the_levels _ _ _ _ _ _ _ E) as (n & L & _).
  exists st', r, n. split; [reflexivity|exact L].
Defined.

Lemma completes_passes_when_launches_do_run :
  exists st',
    wrapper (assert_completes [1; 2] true) rates_test [] []
      (start tmp [one_process; two_processes])
    = (st', inr tt)
    /\ launches (st_trace st') = [mpirun_command 1; mpirun_command 2].
Proof.
  destruct (completes_passes_when_launches_do
              (assert_completes [1; 2] true) rates_test [] []
              (start tmp [one_process; two_processes]) eq_refl)
    as [_ H].
  destruct (launch_levels rates_test [] [] [1; 2]
              (start tmp [one_process; two_processes]))
    as [st1 [e|r]] eqn:E; [vm_compute in E; discriminate E|].
  destruct (H st1 r E) as (st' & Hw & Hl & _).
  exists st'. split; [exact Hw|exact Hl].
Defined.

Lemma base_class_never_passes_run :
  exists st' e,
    wrapper (base_wrapper [1; 2]) rates_test [] []
      (start tmp [one_process; two_processes])
    = (st', inl e).
Proof.
  destruct (base_class_never_passes (base_wrapper [1; 2]) rates_test [] []
              (start tmp [one_process; two_processes]) eq_refl)
    as (st' & e & H & _).
  exists st', e. exact H.
Defined.

Lemma undecodable_output_hides_the_failure_run :
  exists st2,
    wrapper (assert_equal [1; 2; 4]) rates_test [] []
      (start tmp [one_process; crash_garbled])
    = (st2, inl UnicodeDecodeError)
    /\ launches (st_trace st2)
       = launches (st_trace (start tmp [one_process; crash_garbled]))
         ++ map mpirun_command ([1] ++ [2]).
Proof.
  eapply (undecodable_output_hides_the_failure
            (assert_equal [1; 2; 4]) rates_test [] []
            (start tmp [one_process; crash_garbled]) _ [1] [4] 2).
  - reflexivity.
  - vm_compute. reflexivity.
  - vm_compute. reflexivity.
  - discriminate.
  - reflexivity.
Defined.

Lemma collected_keys_are_the_distinct_levels_run :
  exists st' d,
    _collect_result_by_label (assert_equal [2; 2]) tmp SPIKE_LABEL
      level_two_twice
    = (st', inr (Some d))
    /\ NoDup (map fst d)
    /\ (List.length d <= 2)%nat.
Proof.
  destruct (_collect_result_by_label (assert_equal [2; 2]) tmp SPIKE_LABEL
              level_two_twice) as [st' [e|[d|]]] eqn:E;
    try (vm_compute in E; discriminate E).
  exists st', d. split; [reflexivity|].
  destruct (collected_keys_are_the_distinct_levels _ _ _ _ _ _ E)
    as (Hnd & _ & Hl & _).
  split; [exact Hnd|exact Hl].
Defined.

Lemma kinds_without_files_are_none_run :
  exists st' s',
    collect_results (assert_equal [1; 2]) tmp silent_at_two = (st', inr s')
    /\ _multi s' = None /\ _other s' = None.
Proof.
  destruct (kinds_without_files_are_none (assert_equal [1; 2]) tmp
              silent_at_two Runs.silent_at_two_parses)
    as (st' & s' & E & _ & _ & _ & Hk).
  exists st', s'. split; [exact E|]. split.
  - apply (Hk Multi). intros f Hf. vm_compute in Hf.
    Runs.each_file; reflexivity.
  - apply (Hk Other). intros f Hf. vm_compute in Hf.
    Runs.each_file; reflexivity.
Defined.

Lemma repeated_level_fails_the_count_run :
  exists st',
    assert_correct_results (assert_equal [2; 2]) tmp level_two_twice
    = (st', inl (AssertionError "Could not collect data for all procs")).
Proof.
  apply (repeated_level_fails_the_count (assert_equal [2; 2]) tmp
           level_two_twice).
  - reflexivity.
  - intros H. inversion H as [|x l Hx Hl]; subst. apply Hx. left. reflexivity.
  - eexists. split; [right; left; reflexivity|reflexivity].
  - intros f Hf. vm_compute in Hf. Runs.each_file; reflexivity.
  - intros f Hf. vm_compute in Hf. Runs.each_file; reflexivity.
  - intros n f Hn Hf. vm_compute in Hf. Runs.each_file; vm_compute;
      intros E; try discriminate E; right; eexists; reflexivity.
  - intros n Hn. cbn in Hn.
    destruct Hn as [<-|[<-|[]]]; eexists; vm_compute; reflexivity.
Defined.

Lemma multimeter_files_are_refused_run :
  exists st' e,
    assert_correct_results (assert_equal [2]) tmp with_multimeter
    = (st', inl e).
Proof.
  apply (multimeter_files_are_refused (assert_equal [2]) tmp with_multimeter).
  - reflexivity.
  - discriminate.
  - eexists. split; [right; right; left; reflexivity|reflexivity].
Defined.

Lemma no_level_no_launch_no_data_run :
  exists st',
    wrapper (assert_equal []) rates_test [] [] (start tmp [])
    = (st', inl (AssertionError "No test data collected"))
    /\ launches (st_trace st') = launches (st_trace (start tmp [])).
Proof.
  apply (no_level_no_launch_no_data (assert_equal []) rates_test [] []
           (start tmp [])); reflexivity.
Defined.

End RunsCoverage.

(** ** More on argument rendering *)

Module ParamsCoverage.

Import Params ParamsProps.

Local Open Scope string_scope.

(** X17: a single positional argument that renders as the empty text, as
    the empty string does, leaves no trace in the rendered arguments: the
    text is that of the keyword arguments alone, and with keyword
    arguments it differs from the list of all arguments separated by
    commas. *)
Theorem empty_positional_text_is_dropped
  (a : pyobj) (kwargs : list (string * pyobj)) :
  field a = "" ->
  _params_as_str [a] kwargs = _params_as_str [] kwargs
  /\ (kwargs <> [] ->
      _params_as_str [a] kwargs <> call_arguments_text [a] kwargs).
Proof.
  intros Ha.
  assert (E : _params_as_str [a] kwargs = _params_as_str [] kwargs).
  { unfold _params_as_str. cbn [map Py.join]. rewrite Ha. reflexivity. }
  split; [exact E|]. intros Hk. rewrite E.
  unfold _params_as_str, call_arguments_text. cbn [map app]. rewrite Ha.
  destruct kwargs as [|kv kwargs]; [contradiction|]. cbn [map].
  rewrite (join_cons ", " "").
  pose proof (join_nonempty ", " _
                (map (fun kv => fst kv ++ "=" ++ field (snd kv)) kwargs)
                (keyword_nonempty kv)) as Hne.
  remember (Py.join ", "
              ((fst kv ++ "=" ++ field (snd kv))
               :: map (fun kv => fst kv ++ "=" ++ field (snd kv)) kwargs))
    as J eqn:EJ.
  apply truthy_str_true in Hne as Ht.
  change (Py.join ", " []) with "". cbn [filter Py.truthy_str].
  rewrite Ht. cbn [Py.join append].
  intros H. apply (f_equal String.length) in H. cbn [String.length] in H.
  lia.
Qed.

Lemma empty_positional_text_is_dropped_run :
  field (PyStr "") = ""
  /\ _params_as_str [PyStr ""] [("key", PyInt 4)] = "key=4".
Proof.
  split; [reflexivity|].
  destruct (empty_positional_text_is_dropped (PyStr "") [("key", PyInt 4)]
              eq_refl) as [E _].
  rewrite E. reflexivity.
Defined.

End ParamsCoverage.
